(** * Sentinela: zone state machine and alert-dispatch decisions

    A shallow embedding of the decision core of the Sentinela weather
    monitor (src/sentinela): the six zone classifiers, the transition
    detector, the critical evaluators, the state manager and the
    orchestrating cycle of main.py.

    Python floats are IEEE-754 binary64 values; they are modelled bit for
    bit by [spec_float] (prec 53, emax 1024) with the comparison and
    arithmetic of the standard library's specification of floats. Python
    dicts keyed by strings are finite maps ([gmap string _]); the zone
    names and the critical kinds are the strings of the source.

    What lies outside the decisions is left out: the text of the messages
    (a message is the data its f-string interpolates), the log lines and
    the backup copy of the state file. The clock, the database answers, the
    state file and the outcome of each dispatch are inputs of the cycle
    ([Mundo]); an exception that [main] catches is the result [Raise]. *)

From Stdlib Require Import ZArith Lia Floats.SpecFloat.
From stdpp Require Import gmap strings list.

Local Open Scope string_scope.
Local Open Scope list_scope.

(** ** Python floats *)

Module PyFloat.

Definition prec : Z := 53.
Definition emax : Z := 1024.

(** [float(z)] for an integer, correctly rounded. *)
Definition of_Z (z : Z) : spec_float := binary_normalize prec emax z 0 false.

(** The decimal literal [n/d] (for instance 18.9 is [dec 189 10]): the
    binary64 value nearest to the quotient. *)
Definition dec (n d : Z) : spec_float := SFdiv prec emax (of_Z n) (of_Z d).

Definition lt (x y : spec_float) : bool := SFltb x y.       (* x < y  *)
Definition le (x y : spec_float) : bool := SFleb x y.       (* x <= y *)
Definition gt (x y : spec_float) : bool := SFltb y x.       (* x > y  *)
Definition ge (x y : spec_float) : bool := SFleb y x.       (* x >= y *)
Definition eq (x y : spec_float) : bool := SFeqb x y.       (* x == y *)
Definition sub (x y : spec_float) : spec_float := SFsub prec emax x y.
Definition div (x y : spec_float) : spec_float := SFdiv prec emax x y.
Definition abs (x : spec_float) : spec_float := SFabs x.

(** [bool(x)]: a float is falsy exactly when it is a zero. *)
Definition truthy (x : spec_float) : bool :=
  match x with S754_zero _ => false | _ => true end.

Definition is_nan (x : spec_float) : bool :=
  match x with S754_nan => true | _ => false end.

Definition zero : spec_float := S754_zero false.

(** *** The order of floats, through a lexicographic key *)

Definition key (x : spec_float) : Z * Z * Z :=
  match x with
  | S754_nan => (0, 0, 0)
  | S754_zero _ => (0, 0, 0)
  | S754_infinity true => (-2, 0, 0)
  | S754_infinity false => (2, 0, 0)
  | S754_finite true m e => (-1, - e, Zneg m)
  | S754_finite false m e => (1, e, Zpos m)
  end%Z.

Definition lexcmp (k k' : Z * Z * Z) : comparison :=
  let '(a, b, c) := k in
  let '(a', b', c') := k' in
  match (a ?= a')%Z with
  | Eq => match (b ?= b')%Z with Eq => (c ?= c')%Z | r => r end
  | r => r
  end.

Definition lexlt (k k' : Z * Z * Z) : Prop :=
  let '(a, b, c) := k in
  let '(a', b', c') := k' in
  (a < a' \/ (a = a' /\ (b < b' \/ (b = b' /\ c < c'))))%Z.

Definition lexle (k k' : Z * Z * Z) : Prop :=
  let '(a, b, c) := k in
  let '(a', b', c') := k' in
  (a < a' \/ (a = a' /\ (b < b' \/ (b = b' /\ c <= c'))))%Z.

End PyFloat.

Abbreviation float := spec_float.

Import PyFloat.

(** ** config.py: the thresholds the core reads *)

Module Config.
(* minimum drifts of the general alert *)
Definition LIMITE_TEMP : float := dec 5 10.              (* 0.5  *)
Definition LIMITE_UMIDADE : float := of_Z 5.             (* 5    *)
Definition LIMITE_PRESSAO : float := of_Z 2.             (* 2.0  *)
Definition TEMP_BAIXA : float := of_Z 18.                (* 18.0 *)
Definition CHUVA_ACUMULADA_ALERTA : float := of_Z 50.    (* 50.0 *)
(* RAD_LIMITS["BAIXA"], ["MODERADA"], ["ALTA"], ["MUITO ALTA"], ["EXTREMA"] *)
Definition RAD_LIMITS_BAIXA : float := of_Z 1000.
Definition RAD_LIMITS_MODERADA : float := of_Z 2000.
Definition RAD_LIMITS_ALTA : float := of_Z 2500.
Definition RAD_LIMITS_MUITO_ALTA : float := of_Z 3000.
Definition RAD_LIMITS_EXTREMA : float := of_Z 3000.
(* CHUVA_LIMITS["GAROA"], ["FRACA"], ["MODERADA"], ["FORTE"], ["MUITO_FORTE"] *)
Definition CHUVA_LIMITS_GAROA : float := dec 25 10.
Definition CHUVA_LIMITS_FRACA : float := of_Z 10.
Definition CHUVA_LIMITS_MODERADA : float := of_Z 30.
Definition CHUVA_LIMITS_FORTE : float := of_Z 50.
Definition CHUVA_LIMITS_MUITO_FORTE : float := of_Z 50.
(* thermal comfort *)
Definition CONFORTO_FRIO : float := of_Z 19.
Definition CONFORTO_FRESCO : float := of_Z 21.
Definition CONFORTO_IDEAL : float := of_Z 24.
Definition CONFORTO_MORNO : float := of_Z 27.
Definition CONFORTO_QUENTE : float := of_Z 30.
Definition CONFORTO_MUITO_QUENTE : float := of_Z 33.
End Config.

(** ** Shared data of the zone modules *)

(** A naive local [datetime]: the ordinal of the calendar date and the
    microseconds elapsed since local midnight. *)
Record datetime := { dia : Z; micro : Z }.

(** [dt.date()] *)
Definition date (d : datetime) : Z := dia d.

(** [agora - ultimo], a [timedelta], in microseconds. *)
Definition micros_entre (agora ultimo : datetime) : Z :=
  ((dia agora - dia ultimo) * 86400000000 + (micro agora - micro ultimo))%Z.

(** A timestamp field of the persisted JSON document: [null], a string
    that [datetime.fromisoformat] reads back, or any other value (an empty
    or unreadable string): the code skips the last two the same way. *)
Inductive jstamp := JNull | JIso (d : datetime) | JOutro.

(** One entry of the state document per domain. *)
Record ZoneState := {
  zona : option string;
  valor : option float;
  ultima_mudanca : jstamp
}.

(** The dict returned by [detectar_mudanca]; the key ['tipo'] is the
    constructor. *)
Inductive Mudanca :=
| primeira_leitura (zona_atual : string) (valor_atual : float)
| mudanca_zona (zona_anterior zona_atual : string)
               (valor_anterior : option float) (valor_atual : float)
               (timestamp : datetime).

Definition tipo_mudanca (m : Mudanca) : string :=
  match m with
  | primeira_leitura _ _ => "primeira_leitura"
  | mudanca_zona _ _ _ _ _ => "mudanca_zona"
  end.

Definition zona_atual_de (m : Mudanca) : string :=
  match m with
  | primeira_leitura z _ => z
  | mudanca_zona _ z _ _ _ => z
  end.

(** The dicts appended by the [verificar_critico] methods. *)
Inductive Critico :=
| calor_extremo (temperatura limiar : float)
| frio_extremo (temperatura limiar : float)
| mudanca_brusca (delta temp_anterior temp_atual : float) (queda : bool)
| ar_muito_seco (umidade : float)
| vento_forte (vento_sustentado rajada : float) (beaufort : string)
| chuva_intensa (intensidade acumulado_24h : float)
| chuva_acumulada (intensidade acumulado_24h : float)
| uv_extremo (radiacao : float)
| queda_brusca (pressao_atual delta : float)
| pressao_muito_baixa (pressao_atual : float).

(** The value under the key ['tipo'] of a critical alert. *)
Definition tipo (c : Critico) : string :=
  match c with
  | calor_extremo _ _ => "calor_extremo"
  | frio_extremo _ _ => "frio_extremo"
  | mudanca_brusca _ _ _ _ => "mudanca_brusca"
  | ar_muito_seco _ => "ar_muito_seco"
  | vento_forte _ _ _ => "vento_forte"
  | chuva_intensa _ _ => "chuva_intensa"
  | chuva_acumulada _ _ => "chuva_acumulada"
  | uv_extremo _ => "uv_extremo"
  | queda_brusca _ _ => "queda_brusca"
  | pressao_muito_baixa _ => "pressao_muito_baixa"
  end.

(** Whether the answer of a [verificar_critico] holds an alert of the
    kind [t]. *)
Definition emite (criticos : option (list Critico)) (t : string) : bool :=
  existsb (fun c => String.eqb (tipo c) t) (default [] criticos).

(** [alertas if alertas else None] *)
Definition ou_None {A} (l : list A) : option (list A) :=
  match l with [] => None | _ => Some l end.

(** A computation that may raise; [main] catches every [Exception]. *)
Inductive res (A : Type) := Ok (a : A) | Raise.
Arguments Ok {A} a.
Arguments Raise {A}.

(** Membership of a key in a literal dict or list of strings. *)
Definition em (z : string) (l : list string) : bool := existsb (String.eqb z) l.

(** A row of an earlier hour ([get_reading_hours_ago]): columns may be
    NULL. Only the columns the core reads are kept. *)
Record LeituraAnterior := {
  ant_tem_ins : option float;
  ant_umd_ins : option float;
  ant_pre_ins : option float;
  ant_rad_glo : option float
}.

(** The text of a message is not modelled: a message is the data its
    f-string interpolates. [mensagem_zona dominio mudanca extra] is a zone
    alert ([extra] is the gust for the wind and the 3-hour delta for the
    pressure). *)
Record MensagemZona := {
  mz_dominio : string;
  mz_mudanca : Mudanca;
  mz_extra : option float
}.

(** The body shared by the six [detectar_mudanca] methods, which differ
    only in the classifier they call. *)
Definition detectar_mudanca_com (classificar : float -> string)
    (agora : datetime) (valor_atual : float) (estado_anterior : ZoneState)
    : option Mudanca :=
  let zona_atual := classificar valor_atual in
  let zona_anterior := zona estado_anterior in
  let valor_anterior := valor estado_anterior in
  match zona_anterior with
  | None => Some (primeira_leitura zona_atual valor_atual)
  | Some za =>
      if negb (String.eqb zona_atual za)
      then Some (mudanca_zona za zona_atual valor_anterior valor_atual agora)
      else None
  end.

(** The body shared by the [gerar_alerta_inteligente] methods: nothing for
    a first reading; otherwise the message, whose f-string raises when the
    earlier zone is no key of [descricoes] or the earlier value is [None]. *)
Definition gerar_alerta_inteligente_com (dominio : string) (zonas : list string)
    (mudanca : Mudanca) (extra : option float) : res (option MensagemZona) :=
  match mudanca with
  | primeira_leitura _ _ => Ok None
  | mudanca_zona zona_ant zona_atual valor_ant _ _ =>
      if em zona_atual zonas && em zona_ant zonas then
        match valor_ant with
        | Some _ => Ok (Some {| mz_dominio := dominio; mz_mudanca := mudanca;
                                mz_extra := extra |})
        | None => Raise
        end
      else Raise
  end.

(** ** zona_temperatura.py *)

Module ZonaTemperatura.

Definition classificar (temperatura : float) : string :=
  if lt temperatura Config.CONFORTO_FRIO then "FRIO"
  else if lt temperatura Config.CONFORTO_FRESCO then "FRESCO"
  else if lt temperatura Config.CONFORTO_IDEAL then "IDEAL"
  else if lt temperatura Config.CONFORTO_MORNO then "MORNO"
  else if lt temperatura Config.CONFORTO_QUENTE then "QUENTE"
  else if lt temperatura Config.CONFORTO_MUITO_QUENTE then "MUITO_QUENTE"
  else "EXTREMO".

Definition detectar_mudanca := detectar_mudanca_com classificar.

(** The keys of [emojis] and [descricoes]. *)
Definition zonas : list string :=
  ["FRIO"; "FRESCO"; "IDEAL"; "MORNO"; "QUENTE"; "MUITO_QUENTE"; "EXTREMO"].

Definition gerar_alerta_inteligente (mudanca : Mudanca) : res (option MensagemZona) :=
  gerar_alerta_inteligente_com "temperatura" zonas mudanca None.

(** The third check reads the earlier row: [if leitura_anterior:] then
    [if temp_anterior:] on the column, a truthiness test that a [None]
    and a zero both fail. *)
Definition verificar_critico (temp_atual : float)
    (leitura_anterior : option LeituraAnterior) : option (list Critico) :=
  let alertas := [] in
  let alertas :=
    if gt temp_atual Config.CONFORTO_MUITO_QUENTE
    then alertas ++ [calor_extremo temp_atual Config.CONFORTO_MUITO_QUENTE]
    else alertas in
  let alertas :=
    if lt temp_atual Config.TEMP_BAIXA
    then alertas ++ [frio_extremo temp_atual Config.TEMP_BAIXA]
    else alertas in
  let alertas :=
    match leitura_anterior with
    | Some la =>
        match ant_tem_ins la with
        | Some temp_anterior =>
            if truthy temp_anterior then
              let delta := sub temp_atual temp_anterior in
              if ge (abs delta) (of_Z 5)
              then alertas ++ [mudanca_brusca delta temp_anterior temp_atual
                                 (lt delta zero)]
              else alertas
            else alertas
        | None => alertas
        end
    | None => alertas
    end in
  ou_None alertas.

End ZonaTemperatura.

(** ** zona_umidade.py *)

Module ZonaUmidade.

Definition classificar (umidade : float) : string :=
  if lt umidade (of_Z 30) then "MUITO_SECA"
  else if lt umidade (of_Z 40) then "SECA"
  else if lt umidade (of_Z 50) then "BOA"
  else if lt umidade (of_Z 70) then "OTIMA"
  else if lt umidade (of_Z 85) then "ALTA"
  else "MUITO_ALTA".

Definition detectar_mudanca := detectar_mudanca_com classificar.

Definition zonas : list string :=
  ["MUITO_SECA"; "SECA"; "BOA"; "OTIMA"; "ALTA"; "MUITO_ALTA"].

Definition gerar_alerta_inteligente (mudanca : Mudanca) : res (option MensagemZona) :=
  gerar_alerta_inteligente_com "umidade" zonas mudanca None.

Definition verificar_critico (umid_atual : float) : option (list Critico) :=
  let alertas := [] in
  let alertas :=
    if lt umid_atual (of_Z 20) then alertas ++ [ar_muito_seco umid_atual]
    else alertas in
  ou_None alertas.

End ZonaUmidade.

(** ** zona_vento.py *)

Module ZonaVento.

Definition VENTO_CALMO : float := dec 3 10.
Definition VENTO_ARAGEM : float := dec 15 10.
Definition VENTO_BRISA_LEVE : float := dec 33 10.
Definition VENTO_BRISA_MODERADA : float := dec 54 10.
Definition VENTO_BRISA_FRESCA : float := dec 79 10.
Definition VENTO_MODERADO : float := dec 107 10.
Definition VENTO_FORTE : float := dec 138 10.

Definition classificar (velocidade : float) : string :=
  if lt velocidade VENTO_CALMO then "CALMO"
  else if lt velocidade VENTO_ARAGEM then "ARAGEM"
  else if lt velocidade VENTO_BRISA_LEVE then "BRISA_LEVE"
  else if lt velocidade VENTO_BRISA_MODERADA then "BRISA_MODERADA"
  else if lt velocidade VENTO_BRISA_FRESCA then "BRISA_FRESCA"
  else if lt velocidade VENTO_MODERADO then "MODERADO"
  else if lt velocidade VENTO_FORTE then "FORTE"
  else "VENTANIA".

Definition detectar_mudanca := detectar_mudanca_com classificar.

Definition zonas : list string :=
  ["CALMO"; "ARAGEM"; "BRISA_LEVE"; "BRISA_MODERADA"; "BRISA_FRESCA";
   "MODERADO"; "FORTE"; "VENTANIA"].

Definition gerar_alerta_inteligente (mudanca : Mudanca) (rajada : option float)
    : res (option MensagemZona) :=
  gerar_alerta_inteligente_com "vento" zonas mudanca rajada.

Definition LIMITE_RAJADA_CRITICA : float := of_Z 15.

Definition verificar_critico (vento_atual rajada_atual : float)
    : option (list Critico) :=
  let alertas := [] in
  let alertas :=
    if truthy rajada_atual && gt rajada_atual LIMITE_RAJADA_CRITICA
    then alertas ++ [vento_forte vento_atual rajada_atual (classificar rajada_atual)]
    else alertas in
  ou_None alertas.

End ZonaVento.

(** ** zona_chuva.py *)

Module ZonaChuva.

Definition classificar (chuva_mm : float) : string :=
  if eq chuva_mm zero then "SEM_CHUVA"
  else if lt chuva_mm Config.CHUVA_LIMITS_GAROA then "GAROA"
  else if lt chuva_mm Config.CHUVA_LIMITS_FRACA then "FRACA"
  else if lt chuva_mm Config.CHUVA_LIMITS_MODERADA then "MODERADA"
  else if lt chuva_mm Config.CHUVA_LIMITS_FORTE then "FORTE"
  else "MUITO_FORTE".

Definition detectar_mudanca := detectar_mudanca_com classificar.

Definition zonas : list string :=
  ["SEM_CHUVA"; "GAROA"; "FRACA"; "MODERADA"; "FORTE"; "MUITO_FORTE"].

Definition gerar_alerta_inteligente (mudanca : Mudanca) : res (option MensagemZona) :=
  gerar_alerta_inteligente_com "chuva" zonas mudanca None.

Definition verificar_critico (chuva_atual acumulado_24h : float)
    : option (list Critico) :=
  let alertas := [] in
  let alertas :=
    if ge chuva_atual Config.CHUVA_LIMITS_MUITO_FORTE
    then alertas ++ [chuva_intensa chuva_atual acumulado_24h]
    else if gt acumulado_24h Config.CHUVA_ACUMULADA_ALERTA
    then alertas ++ [chuva_acumulada chuva_atual acumulado_24h]
    else alertas in
  ou_None alertas.

End ZonaChuva.

(** ** zona_radiacao.py *)

Module ZonaRadiacao.

Definition classificar (radiacao : float) : string :=
  if le radiacao zero then "NOITE"
  else if lt radiacao (of_Z 50) then "CREPUSCULO"
  else if lt radiacao Config.RAD_LIMITS_BAIXA then "BAIXA"
  else if lt radiacao Config.RAD_LIMITS_MODERADA then "MODERADA"
  else if lt radiacao Config.RAD_LIMITS_ALTA then "ALTA"
  else if lt radiacao Config.RAD_LIMITS_MUITO_ALTA then "MUITO_ALTA"
  else "EXTREMA".

Definition detectar_mudanca := detectar_mudanca_com classificar.

Definition zonas : list string :=
  ["NOITE"; "CREPUSCULO"; "BAIXA"; "MODERADA"; "ALTA"; "MUITO_ALTA"; "EXTREMA"].

(** [estimar_uv(rad_ant)] compares the earlier value with 0 and raises on
    [None], as the f-string would. It raises on a NaN or an infinite
    value too, earlier or current, where the model renders the message:
    the model follows the finite values a FLOAT column holds. *)
Definition gerar_alerta_inteligente (mudanca : Mudanca) : res (option MensagemZona) :=
  gerar_alerta_inteligente_com "radiacao" zonas mudanca None.

(** The alert also carries [estimar_uv(rad_atual)], the [int] of a
    product, which raises on an infinite value: the model follows the
    finite values a FLOAT column holds. *)
Definition verificar_critico (rad_atual : float) : option (list Critico) :=
  let alertas := [] in
  let alertas :=
    if ge rad_atual Config.RAD_LIMITS_EXTREMA then alertas ++ [uv_extremo rad_atual]
    else alertas in
  ou_None alertas.

(** ['bom_dia'], ['boa_noite'] or [None]. *)
Definition detectar_transicao (rad_atual : float) (rad_anterior : option float)
    : option string :=
  match rad_anterior with
  | None => None
  | Some rad_anterior =>
      if le rad_anterior zero && gt rad_atual zero then Some "bom_dia"
      else if gt rad_anterior zero && le rad_atual zero then Some "boa_noite"
      else None
  end.

End ZonaRadiacao.

(** ** zona_pressao.py *)

Module ZonaPressao.

Definition classificar (pressao : float) : string :=
  if lt pressao (of_Z 1005) then "MUITO_BAIXA"
  else if lt pressao (of_Z 1010) then "BAIXA"
  else if lt pressao (of_Z 1020) then "NORMAL"
  else if lt pressao (of_Z 1025) then "ALTA"
  else "MUITO_ALTA".

Definition detectar_mudanca := detectar_mudanca_com classificar.

Definition zonas : list string :=
  ["MUITO_BAIXA"; "BAIXA"; "NORMAL"; "ALTA"; "MUITO_ALTA"].

Definition gerar_alerta_inteligente (mudanca : Mudanca) (delta_3h : option float)
    : res (option MensagemZona) :=
  gerar_alerta_inteligente_com "pressao" zonas mudanca delta_3h.

Definition verificar_critico (pressao_atual delta_1h : float)
    : option (list Critico) :=
  let alertas := [] in
  let alertas :=
    if lt delta_1h (SFopp (of_Z 5))
    then alertas ++ [queda_brusca pressao_atual delta_1h]
    else if lt pressao_atual (of_Z 1005)
    then alertas ++ [pressao_muito_baixa pressao_atual]
    else alertas in
  ou_None alertas.

End ZonaPressao.

(** ** state_manager.py *)

Record AlertaGeral := {
  ultima_temp : option float;
  ultima_umid : option float;
  ultima_pressao : option float;
  ultimo_envio : jstamp
}.

Record Relatorios := {
  ultimo_bom_dia : jstamp;
  ultimo_boa_noite : jstamp
}.

Record EstadoCritico := {
  ativo : bool;
  cr_ultima_mudanca : jstamp
}.

(** The state document ([self.states]). The six zone entries are the map
    [st_zonas], keyed by the domain name; ['alertas_criticos'] is a map
    keyed by the critical kind, a missing key being the empty map (the
    code creates the empty dict on first access). A document read from the
    file has the keys ['alerta_geral'] and ['relatorios'] with their
    fields, as every document this program writes has. *)
Record States := {
  st_timestamp : jstamp;
  st_versao : string;
  st_zonas : gmap string ZoneState;
  st_alerta_geral : AlertaGeral;
  st_relatorios : Relatorios;
  st_alertas_criticos : gmap string EstadoCritico
}.

(** The second component of [should_send_general_alert]: the reason, whose
    text is not modelled. *)
Inductive Motivo :=
| motivo_primeira_leitura
| motivo_temp (ultima atual : float)
| motivo_umid (ultima atual : float)
| motivo_pressao (ultima atual : float)
| motivo_periodica (horas : float)
| motivo_vazio.

Module StateManager.

Definition zona_vazia : ZoneState :=
  {| zona := None; valor := None; ultima_mudanca := JNull |}.

Definition dominios : list string :=
  ["temperatura"; "umidade"; "vento"; "chuva"; "radiacao"; "pressao"].

Definition _create_default_states (agora : datetime) : States :=
  {| st_timestamp := JIso agora;
     st_versao := "2.0";
     st_zonas := list_to_map (map (fun d => (d, zona_vazia)) dominios);
     st_alerta_geral := {| ultima_temp := None; ultima_umid := None;
                           ultima_pressao := None; ultimo_envio := JNull |};
     st_relatorios := {| ultimo_bom_dia := JNull; ultimo_boa_noite := JNull |};
     st_alertas_criticos := ∅ |}.

(** [arquivo] is what [json.load] reads from states.json, [None] when
    the file is missing or unreadable. *)
Definition load (arquivo : option States) (agora : datetime) : States :=
  match arquivo with
  | None => _create_default_states agora
  | Some states => states
  end.

(** The content of states.json after [save]; [grava] tells whether the
    write succeeds (a failure is caught and only logged). *)
Definition save (grava : bool) (arquivo : option States) (agora : datetime)
    (st : States) : option States :=
  if grava then
    Some {| st_timestamp := JIso agora;
            st_versao := st_versao st;
            st_zonas := st_zonas st;
            st_alerta_geral := st_alerta_geral st;
            st_relatorios := st_relatorios st;
            st_alertas_criticos := st_alertas_criticos st |}
  else arquivo.

Definition get_zone_state (st : States) (zona_nome : string) : ZoneState :=
  default zona_vazia (st_zonas st !! zona_nome).

Definition update_zone_state (agora : datetime) (zona_nome zona_atual : string)
    (valor_atual : float) (st : States) : States :=
  {| st_timestamp := st_timestamp st;
     st_versao := st_versao st;
     st_zonas := <[zona_nome := {| zona := Some zona_atual;
                                   valor := Some valor_atual;
                                   ultima_mudanca := JIso agora |}]> (st_zonas st);
     st_alerta_geral := st_alerta_geral st;
     st_relatorios := st_relatorios st;
     st_alertas_criticos := st_alertas_criticos st |}.

Definition update_general_alert (agora : datetime) (temp umid pressao : float)
    (st : States) : States :=
  {| st_timestamp := st_timestamp st;
     st_versao := st_versao st;
     st_zonas := st_zonas st;
     st_alerta_geral := {| ultima_temp := Some temp; ultima_umid := Some umid;
                           ultima_pressao := Some pressao;
                           ultimo_envio := JIso agora |};
     st_relatorios := st_relatorios st;
     st_alertas_criticos := st_alertas_criticos st |}.

Definition update_report (agora : datetime) (tipo : string) (st : States) : States :=
  let r := st_relatorios st in
  let r' :=
    if String.eqb tipo "bom_dia"
    then {| ultimo_bom_dia := JIso agora; ultimo_boa_noite := ultimo_boa_noite r |}
    else if String.eqb tipo "boa_noite"
    then {| ultimo_bom_dia := ultimo_bom_dia r; ultimo_boa_noite := JIso agora |}
    else r in
  {| st_timestamp := st_timestamp st;
     st_versao := st_versao st;
     st_zonas := st_zonas st;
     st_alerta_geral := st_alerta_geral st;
     st_relatorios := r';
     st_alertas_criticos := st_alertas_criticos st |}.

Definition get_critical_state (st : States) (tipo_critico : string) : bool :=
  match st_alertas_criticos st !! tipo_critico with
  | Some e => ativo e
  | None => false
  end.

Definition update_critical_state (agora : datetime) (tipo_critico : string)
    (ativo_ : bool) (st : States) : States :=
  {| st_timestamp := st_timestamp st;
     st_versao := st_versao st;
     st_zonas := st_zonas st;
     st_alerta_geral := st_alerta_geral st;
     st_relatorios := st_relatorios st;
     st_alertas_criticos :=
       <[tipo_critico := {| ativo := ativo_; cr_ultima_mudanca := JIso agora |}]>
         (st_alertas_criticos st) |}.

Definition should_send_critical (st : States) (tipo_critico : string)
    (ativo_agora : bool) : bool :=
  let estado_anterior := get_critical_state st tipo_critico in
  if negb (Bool.eqb estado_anterior ativo_agora) then true else false.

(** [(agora - ultimo).total_seconds()]: the difference in microseconds
    divided by 10**6, correctly rounded. *)
Definition total_seconds (agora ultimo : datetime) : float :=
  div (of_Z (micros_entre agora ultimo)) (of_Z 1000000).

(** Raises when the snapshot has a temperature but no humidity or no
    pressure (a subtraction on [None]). *)
Definition should_send_general_alert (agora : datetime) (st : States)
    (temp_atual umid_atual pressao_atual : float) : res (bool * Motivo) :=
  let estado_geral := st_alerta_geral st in
  match ultima_temp estado_geral with
  | None => Ok (true, motivo_primeira_leitura)
  | Some ut =>
      let delta_temp := abs (sub temp_atual ut) in
      if ge delta_temp Config.LIMITE_TEMP then Ok (true, motivo_temp ut temp_atual)
      else
        match ultima_umid estado_geral with
        | None => Raise
        | Some uu =>
            let delta_umid := abs (sub umid_atual uu) in
            if ge delta_umid Config.LIMITE_UMIDADE
            then Ok (true, motivo_umid uu umid_atual)
            else
              match ultima_pressao estado_geral with
              | None => Raise
              | Some up =>
                  let delta_pressao := abs (sub pressao_atual up) in
                  if ge delta_pressao Config.LIMITE_PRESSAO
                  then Ok (true, motivo_pressao up pressao_atual)
                  else
                    match ultimo_envio estado_geral with
                    | JIso ultimo =>
                        let horas := div (total_seconds agora ultimo) (of_Z 3600) in
                        if ge horas (of_Z 6) then Ok (true, motivo_periodica horas)
                        else Ok (false, motivo_vazio)
                    | _ => Ok (false, motivo_vazio)
                    end
              end
        end
  end.

(** The once-a-day gate shared by the two branches of
    [should_send_report]: false when the stored stamp reads back to
    today's date, true otherwise (also when it does not read back). *)
Definition ainda_nao_enviou_hoje (agora : datetime) (ultimo : jstamp) : bool :=
  match ultimo with
  | JIso ultimo_dt => if Z.eqb (date ultimo_dt) (date agora) then false else true
  | _ => true
  end.

Definition should_send_report (agora : datetime) (st : States) (tipo : string)
    (rad_atual : float) (rad_anterior : option float) : bool :=
  let relatorios := st_relatorios st in
  if String.eqb tipo "bom_dia" then
    match rad_anterior with
    | Some ra =>
        if le ra zero && gt rad_atual zero
        then ainda_nao_enviou_hoje agora (ultimo_bom_dia relatorios)
        else false
    | None => false
    end
  else if String.eqb tipo "boa_noite" then
    match rad_anterior with
    | Some ra =>
        if gt ra zero && le rad_atual zero
        then ainda_nao_enviou_hoje agora (ultimo_boa_noite relatorios)
        else false
    | None => false
    end
  else false.

End StateManager.

(** ** database.py: what the cycle reads *)

(** The newest row as the cursor returns it. Only the columns the core
    reads are kept; each may be NULL. *)
Record Linha := {
  raw_tem_ins : option float;
  raw_umd_ins : option float;
  raw_pre_ins : option float;
  raw_ven_vel : option float;
  raw_ven_raj : option float;
  raw_chuva : option float;
  raw_rad_glo : option float
}.

(** The current reading after [get_latest_reading]. *)
Record Leitura := {
  tem_ins : float;
  umd_ins : float;
  pre_ins : float;
  ven_vel : float;
  ven_raj : float;
  chuva : float;
  rad_glo : float
}.

(** The aggregates of [get_night_summary] and [get_day_summary]; an
    aggregate over no row is NULL. [res_umid] is ['umid_media'] of the
    night and ['umid_min'] of the day; [res_rad_max] is read for the day
    only. *)
Record Resumo := {
  res_temp_min : option float;
  res_temp_max : option float;
  res_umid : option float;
  res_chuva_total : option float;
  res_rajada_max : option float;
  res_rad_max : option float
}.

Module WeatherDatabase.

(** [result[key] = 0.0] for every numeric column that is [None]. *)
Definition get_latest_reading (linha : option Linha) : option Leitura :=
  match linha with
  | None => None
  | Some r =>
      Some {| tem_ins := default zero (raw_tem_ins r);
              umd_ins := default zero (raw_umd_ins r);
              pre_ins := default zero (raw_pre_ins r);
              ven_vel := default zero (raw_ven_vel r);
              ven_raj := default zero (raw_ven_raj r);
              chuva := default zero (raw_chuva r);
              rad_glo := default zero (raw_rad_glo r) |}
  end.

(** The difference of the two pressures; 0.0 when a reading is absent
    or the subtraction raises on a NULL column (caught inside). *)
Definition get_pressure_variation (leitura_atual : option Leitura)
    (leitura_anterior : option LeituraAnterior) : float :=
  match leitura_atual, leitura_anterior with
  | Some la, Some lp =>
      match ant_pre_ins lp with
      | Some p => sub (pre_ins la) p
      | None => zero
      end
  | _, _ => zero
  end.

End WeatherDatabase.

(** ** message_composer.py and the outbound messages *)

Inductive Mensagem :=
| msg_zona (m : MensagemZona)
| msg_critico (dados : Critico)
| msg_bom_dia (resumo : Resumo) (leitura : Leitura)
| msg_boa_noite (resumo : Resumo) (leitura : Leitura)
| msg_geral (leitura : Leitura).

Module MessageComposer.

(** Formatting a NULL aggregate with [:.1f] raises. *)
Definition compor_relatorio_bom_dia (resumo_noite : Resumo) (leitura_atual : Leitura)
    : res Mensagem :=
  match res_temp_min resumo_noite, res_temp_max resumo_noite, res_umid resumo_noite,
        res_chuva_total resumo_noite, res_rajada_max resumo_noite with
  | Some _, Some _, Some _, Some _, Some _ => Ok (msg_bom_dia resumo_noite leitura_atual)
  | _, _, _, _, _ => Raise
  end.

(** [Config.get_rad_zone(rad_max)] compares, so a NULL maximum raises
    as the NULL aggregates do. The text also holds [int(rad_max * 0.0035)],
    which raises on an infinite or NaN maximum: the model follows the
    finite values an aggregate of FLOAT columns gives. *)
Definition compor_relatorio_boa_noite (resumo_dia : Resumo) (leitura_atual : Leitura)
    : res Mensagem :=
  match res_rad_max resumo_dia, res_temp_max resumo_dia, res_temp_min resumo_dia,
        res_umid resumo_dia, res_chuva_total resumo_dia, res_rajada_max resumo_dia with
  | Some _, Some _, Some _, Some _, Some _, Some _ =>
      Ok (msg_boa_noite resumo_dia leitura_atual)
  | _, _, _, _, _, _ => Raise
  end.

(** The text holds [int(rad * 0.0035)] for a radiation above 0, which
    raises on an infinite or NaN value: the model follows the finite
    values a FLOAT column holds. *)
Definition compor_alerta_geral (leitura : Leitura) : Mensagem := msg_geral leitura.

End MessageComposer.

(** The [gerar_alerta_critico] of each zone module: a message for the
    kinds the module knows, [None] for the others. *)
Definition gerar_alerta_critico_temperatura (dados : Critico) : option Mensagem :=
  match dados with
  | calor_extremo _ _ | frio_extremo _ _ | mudanca_brusca _ _ _ _ => Some (msg_critico dados)
  | _ => None
  end.

Definition gerar_alerta_critico_umidade (dados : Critico) : option Mensagem :=
  match dados with ar_muito_seco _ => Some (msg_critico dados) | _ => None end.

Definition gerar_alerta_critico_vento (dados : Critico) : option Mensagem :=
  match dados with vento_forte _ _ _ => Some (msg_critico dados) | _ => None end.

Definition gerar_alerta_critico_chuva (dados : Critico) : option Mensagem :=
  match dados with
  | chuva_intensa _ _ | chuva_acumulada _ _ => Some (msg_critico dados)
  | _ => None
  end.

Definition gerar_alerta_critico_radiacao (dados : Critico) : option Mensagem :=
  match dados with uv_extremo _ => Some (msg_critico dados) | _ => None end.

Definition gerar_alerta_critico_pressao (dados : Critico) : option Mensagem :=
  match dados with
  | queda_brusca _ _ | pressao_muito_baixa _ => Some (msg_critico dados)
  | _ => None
  end.

(** ** main.py *)

(** Everything one invocation reads from outside: the database, the state
    file, the clock and the outcome of each dispatch. The clock reads of
    one cycle are identified, and the database answers the repeated
    queries of one cycle alike. *)
Record Mundo := {
  conecta : bool;                          (* db.connect() *)
  linha : option Linha;                    (* newest row, if any *)
  leitura_1h : option LeituraAnterior;     (* get_reading_hours_ago(1) *)
  leitura_3h : option LeituraAnterior;     (* get_reading_hours_ago(3) *)
  acumulado_24h : float;                   (* get_accumulated_rain_24h() *)
  resumo_noite : option Resumo;            (* get_night_summary() *)
  resumo_dia : option Resumo;              (* get_day_summary() *)
  agora : datetime;                        (* datetime.now() *)
  enviar_whatsapp : Mensagem -> bool;      (* True when every number got it *)
  arquivo : option States;                 (* states.json, if readable *)
  grava : bool                             (* the write of save() succeeds *)
}.

(** One dispatch and its outcome. *)
Definition Envio : Type := Mensagem * bool.

(** What one invocation leaves behind. *)
Record Resultado := {
  exit_code : Z;
  arquivo_final : option States;
  enviadas : list Envio
}.

Notation "'let*' x ':=' e 'in' k" :=
  (match e with Ok x => k | Raise => Raise end)
  (at level 10, x pattern, e at level 100, k at level 200).

Definition EstadosAtuais : Type := list (string * (string * float)).
Definition AlertasInteligentes : Type := list (string * Mudanca * MensagemZona).

(** The block [processar_zonas] repeats for each domain: record the zone
    when the detector returned something, and render a message for a zone
    change. *)
Definition bloco_zona (zona_nome : string) (mudanca : option Mudanca)
    (valor_atual : float) (gerar : Mudanca -> res (option MensagemZona))
    : res (EstadosAtuais * AlertasInteligentes) :=
  match mudanca with
  | None => Ok ([], [])
  | Some m =>
      let estados := [(zona_nome, (zona_atual_de m, valor_atual))] in
      if String.eqb (tipo_mudanca m) "mudanca_zona" then
        let* msg := gerar m in
        match msg with
        | Some msg => Ok (estados, [(zona_nome, m, msg)])
        | None => Ok (estados, [])
        end
      else Ok (estados, [])
  end.

(** [[(c['tipo'], c) for c in criticos]] when [criticos] is truthy. *)
Definition estende (criticos : option (list Critico)) : list (string * Critico) :=
  match criticos with
  | Some l => map (fun c => (tipo c, c)) l
  | None => []
  end.

Definition processar_zonas (w : Mundo) (leitura : Leitura) (state_mgr : States)
    : res (AlertasInteligentes * list (string * Critico) * EstadosAtuais * option string) :=
  let get := StateManager.get_zone_state state_mgr in
  (* TEMPERATURA *)
  let temp_atual := tem_ins leitura in
  let* (e1, a1) :=
    bloco_zona "temperatura"
      (ZonaTemperatura.detectar_mudanca (agora w) temp_atual (get "temperatura"))
      temp_atual ZonaTemperatura.gerar_alerta_inteligente in
  let c1 := estende (ZonaTemperatura.verificar_critico temp_atual (leitura_1h w)) in
  (* UMIDADE *)
  let umid_atual := umd_ins leitura in
  let* (e2, a2) :=
    bloco_zona "umidade"
      (ZonaUmidade.detectar_mudanca (agora w) umid_atual (get "umidade"))
      umid_atual ZonaUmidade.gerar_alerta_inteligente in
  let c2 := estende (ZonaUmidade.verificar_critico umid_atual) in
  (* VENTO *)
  let vento_atual := ven_vel leitura in
  let rajada_atual := ven_raj leitura in
  let* (e3, a3) :=
    bloco_zona "vento"
      (ZonaVento.detectar_mudanca (agora w) vento_atual (get "vento"))
      vento_atual (fun m => ZonaVento.gerar_alerta_inteligente m (Some rajada_atual)) in
  let c3 := estende (ZonaVento.verificar_critico vento_atual rajada_atual) in
  (* CHUVA: leitura.get('chuva') or 0 *)
  let chuva_atual := if truthy (chuva leitura) then chuva leitura else zero in
  let* (e4, a4) :=
    bloco_zona "chuva"
      (ZonaChuva.detectar_mudanca (agora w) chuva_atual (get "chuva"))
      chuva_atual ZonaChuva.gerar_alerta_inteligente in
  let c4 := estende (ZonaChuva.verificar_critico chuva_atual (acumulado_24h w)) in
  (* RADIACAO *)
  let rad_atual := rad_glo leitura in
  let rad_anterior :=
    match leitura_1h w with Some l => ant_rad_glo l | None => None end in
  let* (e5, a5) :=
    bloco_zona "radiacao"
      (ZonaRadiacao.detectar_mudanca (agora w) rad_atual (get "radiacao"))
      rad_atual ZonaRadiacao.gerar_alerta_inteligente in
  let c5 := estende (ZonaRadiacao.verificar_critico rad_atual) in
  let transicao := ZonaRadiacao.detectar_transicao rad_atual rad_anterior in
  (* PRESSAO *)
  let pressao_atual := pre_ins leitura in
  let delta_3h :=
    WeatherDatabase.get_pressure_variation
      (WeatherDatabase.get_latest_reading (linha w)) (leitura_3h w) in
  let* (e6, a6) :=
    bloco_zona "pressao"
      (ZonaPressao.detectar_mudanca (agora w) pressao_atual (get "pressao"))
      pressao_atual (fun m => ZonaPressao.gerar_alerta_inteligente m (Some delta_3h)) in
  let delta_1h :=
    WeatherDatabase.get_pressure_variation
      (WeatherDatabase.get_latest_reading (linha w)) (leitura_1h w) in
  let c6 := estende (ZonaPressao.verificar_critico pressao_atual delta_1h) in
  Ok (a1 ++ a2 ++ a3 ++ a4 ++ a5 ++ a6,
      c1 ++ c2 ++ c3 ++ c4 ++ c5 ++ c6,
      e1 ++ e2 ++ e3 ++ e4 ++ e5 ++ e6,
      transicao).

(** [for zona_nome, (zona_atual, valor_atual) in estados_atuais.items()] *)
Definition atualizar_estados (agora : datetime) (estados_atuais : EstadosAtuais)
    (st : States) : States :=
  fold_left
    (fun st '(zona_nome, (zona_atual, valor_atual)) =>
       StateManager.update_zone_state agora zona_nome zona_atual valor_atual st)
    estados_atuais st.

(** The zone alerts are sent and the outcome is ignored. *)
Definition enviar_inteligentes (w : Mundo) (alertas : AlertasInteligentes) : list Envio :=
  map (fun '(_, _, mensagem) =>
         (msg_zona mensagem, enviar_whatsapp w (msg_zona mensagem))) alertas.

Definition tipos_criticos : list string :=
  ["calor_extremo"; "frio_extremo"; "mudanca_brusca";
   "ar_muito_seco"; "vento_forte";
   "chuva_intensa"; "chuva_acumulada";
   "uv_extremo"; "queda_brusca"; "pressao_muito_baixa"].

(** [criticos_ativos[tipo]]: false for every kind, then true for the kinds
    among the alerts found. *)
Definition criticos_ativos (alertas_criticos : list (string * Critico)) (tipo : string)
    : bool :=
  existsb (fun '(t, _) => String.eqb t tipo) alertas_criticos.

(** The first [d] with [t == tipo], or [None]. *)
Definition encontra_dados (alertas_criticos : list (string * Critico)) (tipo : string)
    : option Critico :=
  snd <$> find (fun '(t, _) => String.eqb t tipo) alertas_criticos.

(** The [if]/[elif] chain of [main] that picks the module by kind. *)
Definition gerar_msg_critico (tipo : string) (dados : Critico) : option Mensagem :=
  if em tipo ["calor_extremo"; "frio_extremo"; "mudanca_brusca"]
  then gerar_alerta_critico_temperatura dados
  else if String.eqb tipo "ar_muito_seco" then gerar_alerta_critico_umidade dados
  else if String.eqb tipo "vento_forte" then gerar_alerta_critico_vento dados
  else if em tipo ["chuva_intensa"; "chuva_acumulada"]
  then gerar_alerta_critico_chuva dados
  else if String.eqb tipo "uv_extremo" then gerar_alerta_critico_radiacao dados
  else if em tipo ["queda_brusca"; "pressao_muito_baixa"]
  then gerar_alerta_critico_pressao dados
  else None.

(** One turn of the loop over [tipos_criticos]. *)
Definition passo_critico (w : Mundo) (alertas_criticos : list (string * Critico))
    (acc : States * list Envio) (tipo : string) : States * list Envio :=
  let '(st, log) := acc in
  let ativo := criticos_ativos alertas_criticos tipo in
  let deve_enviar := StateManager.should_send_critical st tipo ativo in
  if deve_enviar && ativo then
    match encontra_dados alertas_criticos tipo with
    | Some dados =>
        match gerar_msg_critico tipo dados with
        | Some msg =>
            if enviar_whatsapp w msg
            then (StateManager.update_critical_state (agora w) tipo true st,
                  log ++ [(msg, true)])
            else (st, log ++ [(msg, false)])
        | None => (st, log)
        end
    | None => (st, log)
    end
  else if deve_enviar && negb ativo then
    (StateManager.update_critical_state (agora w) tipo false st, log)
  else (st, log).

Definition enviar_criticos (w : Mundo) (alertas_criticos : list (string * Critico))
    (st : States) : States * list Envio :=
  fold_left (passo_critico w alertas_criticos) tipos_criticos (st, []).

(** One branch of the report block: gate, summary, message, dispatch and,
    after a successful dispatch only, the record of the report. The
    dispatches made are returned even when the composition raises. *)
Definition relatorio (w : Mundo) (leitura : Leitura) (tipo : string)
    (resumo : option Resumo) (compor : Resumo -> Leitura -> res Mensagem)
    (st : States) : res States * list Envio :=
  let rad_anterior :=
    match leitura_1h w with Some l => ant_rad_glo l | None => None end in
  if StateManager.should_send_report (agora w) st tipo (rad_glo leitura) rad_anterior then
    match resumo with
    | Some resumo =>
        match compor resumo leitura with
        | Ok msg =>
            if enviar_whatsapp w msg
            then (Ok (StateManager.update_report (agora w) tipo st), [(msg, true)])
            else (Ok st, [(msg, false)])
        | Raise => (Raise, [])
        end
    | None => (Ok st, [])
    end
  else (Ok st, []).

Definition relatorios (w : Mundo) (leitura : Leitura) (transicao : option string)
    (st : States) : res States * list Envio :=
  match transicao with
  | Some t =>
      if String.eqb t "bom_dia" then
        relatorio w leitura "bom_dia" (resumo_noite w)
          MessageComposer.compor_relatorio_bom_dia st
      else if String.eqb t "boa_noite" then
        relatorio w leitura "boa_noite" (resumo_dia w)
          MessageComposer.compor_relatorio_boa_noite st
      else (Ok st, [])
  | None => (Ok st, [])
  end.

(** The general alert. Building [variacao] subtracts the humidity of the
    row of three hours ago, which raises when that column is NULL. *)
Definition alerta_geral (w : Mundo) (leitura : Leitura) (st : States)
    : res States * list Envio :=
  match StateManager.should_send_general_alert (agora w) st
          (tem_ins leitura) (umd_ins leitura) (pre_ins leitura) with
  | Raise => (Raise, [])
  | Ok (deve_enviar, motivo) =>
      if deve_enviar then
        match leitura_3h w with
        | Some {| ant_umd_ins := None |} => (Raise, [])
        | _ =>
            let msg := MessageComposer.compor_alerta_geral leitura in
            if enviar_whatsapp w msg
            then (Ok (StateManager.update_general_alert (agora w)
                        (tem_ins leitura) (umd_ins leitura) (pre_ins leitura) st),
                  [(msg, true)])
            else (Ok st, [(msg, false)])
        end
      else (Ok st, [])
  end.

(** The cycle stopped: exit code 1 and states.json as it was. *)
Definition falha (w : Mundo) (log : list Envio) : Resultado :=
  {| exit_code := 1; arquivo_final := arquivo w; enviadas := log |}.

Definition main (w : Mundo) : Resultado :=
  if negb (conecta w) then falha w []
  else
    match WeatherDatabase.get_latest_reading (linha w) with
    | None => falha w []
    | Some leitura =>
        let state_mgr := StateManager.load (arquivo w) (agora w) in
        match processar_zonas w leitura state_mgr with
        | Raise => falha w []
        | Ok (alertas_inteligentes, alertas_criticos, estados_atuais, transicao) =>
            let st1 := atualizar_estados (agora w) estados_atuais state_mgr in
            let log1 := enviar_inteligentes w alertas_inteligentes in
            let '(st2, log2) := enviar_criticos w alertas_criticos st1 in
            match relatorios w leitura transicao st2 with
            | (Raise, log3) => falha w (log1 ++ log2 ++ log3)
            | (Ok st3, log3) =>
                match alerta_geral w leitura st3 with
                | (Raise, log4) => falha w (log1 ++ log2 ++ log3 ++ log4)
                | (Ok st4, log4) =>
                    {| exit_code := 0;
                       arquivo_final :=
                         StateManager.save (grava w) (arquivo w) (agora w) st4;
                       enviadas := log1 ++ log2 ++ log3 ++ log4 |}
                end
            end
        end
    end.

(** ** The six domains, as [processar_zonas] pairs their methods *)

Record Dominio := {
  dom_nome : string;
  dom_classificar : float -> string;
  dom_detectar : datetime -> float -> ZoneState -> option Mudanca;
  (* the second argument is the optional keyword of the wind and pressure
     renderers, ignored by the others *)
  dom_gerar : Mudanca -> option float -> res (option MensagemZona)
}.

Definition dom_temperatura : Dominio :=
  {| dom_nome := "temperatura";
     dom_classificar := ZonaTemperatura.classificar;
     dom_detectar := ZonaTemperatura.detectar_mudanca;
     dom_gerar := fun m _ => ZonaTemperatura.gerar_alerta_inteligente m |}.

Definition dom_umidade : Dominio :=
  {| dom_nome := "umidade";
     dom_classificar := ZonaUmidade.classificar;
     dom_detectar := ZonaUmidade.detectar_mudanca;
     dom_gerar := fun m _ => ZonaUmidade.gerar_alerta_inteligente m |}.

Definition dom_vento : Dominio :=
  {| dom_nome := "vento";
     dom_classificar := ZonaVento.classificar;
     dom_detectar := ZonaVento.detectar_mudanca;
     dom_gerar := ZonaVento.gerar_alerta_inteligente |}.

Definition dom_chuva : Dominio :=
  {| dom_nome := "chuva";
     dom_classificar := ZonaChuva.classificar;
     dom_detectar := ZonaChuva.detectar_mudanca;
     dom_gerar := fun m _ => ZonaChuva.gerar_alerta_inteligente m |}.

Definition dom_radiacao : Dominio :=
  {| dom_nome := "radiacao";
     dom_classificar := ZonaRadiacao.classificar;
     dom_detectar := ZonaRadiacao.detectar_mudanca;
     dom_gerar := fun m _ => ZonaRadiacao.gerar_alerta_inteligente m |}.

Definition dom_pressao : Dominio :=
  {| dom_nome := "pressao";
     dom_classificar := ZonaPressao.classificar;
     dom_detectar := ZonaPressao.detectar_mudanca;
     dom_gerar := ZonaPressao.gerar_alerta_inteligente |}.

Definition dominios_do_sistema : list Dominio :=
  [dom_temperatura; dom_umidade; dom_vento; dom_chuva; dom_radiacao; dom_pressao].

(** ** The zone tables of the specification (section 4.1)

    Each row reads [classify x = zone] exactly when [x] lies in the
    half-open interval of the row; the last interval is open-ended. A NaN
    lies in no interval; the statements put it in the last row, where a
    chain of failed tests ends. These definitions follow the table, not
    the code. *)

Definition tabela_temperatura (classify : float -> string) (x : float) : Prop :=
  (classify x = "FRIO" <-> lt x (of_Z 19) = true) /\
  (classify x = "FRESCO" <-> le (of_Z 19) x = true /\ lt x (of_Z 21) = true) /\
  (classify x = "IDEAL" <-> le (of_Z 21) x = true /\ lt x (of_Z 24) = true) /\
  (classify x = "MORNO" <-> le (of_Z 24) x = true /\ lt x (of_Z 27) = true) /\
  (classify x = "QUENTE" <-> le (of_Z 27) x = true /\ lt x (of_Z 30) = true) /\
  (classify x = "MUITO_QUENTE" <-> le (of_Z 30) x = true /\ lt x (of_Z 33) = true) /\
  (classify x = "EXTREMO" <-> le (of_Z 33) x = true \/ is_nan x = true).

Definition tabela_umidade (classify : float -> string) (x : float) : Prop :=
  (classify x = "MUITO_SECA" <-> lt x (of_Z 30) = true) /\
  (classify x = "SECA" <-> le (of_Z 30) x = true /\ lt x (of_Z 40) = true) /\
  (classify x = "BOA" <-> le (of_Z 40) x = true /\ lt x (of_Z 50) = true) /\
  (classify x = "OTIMA" <-> le (of_Z 50) x = true /\ lt x (of_Z 70) = true) /\
  (classify x = "ALTA" <-> le (of_Z 70) x = true /\ lt x (of_Z 85) = true) /\
  (classify x = "MUITO_ALTA" <-> le (of_Z 85) x = true \/ is_nan x = true).

Definition tabela_vento (classify : float -> string) (x : float) : Prop :=
  (classify x = "CALMO" <-> lt x (dec 3 10) = true) /\
  (classify x = "ARAGEM" <-> le (dec 3 10) x = true /\ lt x (dec 15 10) = true) /\
  (classify x = "BRISA_LEVE" <-> le (dec 15 10) x = true /\ lt x (dec 33 10) = true) /\
  (classify x = "BRISA_MODERADA" <->
     le (dec 33 10) x = true /\ lt x (dec 54 10) = true) /\
  (classify x = "BRISA_FRESCA" <-> le (dec 54 10) x = true /\ lt x (dec 79 10) = true) /\
  (classify x = "MODERADO" <-> le (dec 79 10) x = true /\ lt x (dec 107 10) = true) /\
  (classify x = "FORTE" <-> le (dec 107 10) x = true /\ lt x (dec 138 10) = true) /\
  (classify x = "VENTANIA" <-> le (dec 138 10) x = true \/ is_nan x = true).

(** The first row of the rain table is the single value 0; the second is
    every other value below 2.5. *)
Definition tabela_chuva (classify : float -> string) (x : float) : Prop :=
  (classify x = "SEM_CHUVA" <-> eq x zero = true) /\
  (classify x = "GAROA" <-> eq x zero = false /\ lt x (dec 25 10) = true) /\
  (classify x = "FRACA" <-> le (dec 25 10) x = true /\ lt x (of_Z 10) = true) /\
  (classify x = "MODERADA" <-> le (of_Z 10) x = true /\ lt x (of_Z 30) = true) /\
  (classify x = "FORTE" <-> le (of_Z 30) x = true /\ lt x (of_Z 50) = true) /\
  (classify x = "MUITO_FORTE" <-> le (of_Z 50) x = true \/ is_nan x = true).

Definition tabela_radiacao (classify : float -> string) (x : float) : Prop :=
  (classify x = "NOITE" <-> le x zero = true) /\
  (classify x = "CREPUSCULO" <-> lt zero x = true /\ lt x (of_Z 50) = true) /\
  (classify x = "BAIXA" <-> le (of_Z 50) x = true /\ lt x (of_Z 1000) = true) /\
  (classify x = "MODERADA" <-> le (of_Z 1000) x = true /\ lt x (of_Z 2000) = true) /\
  (classify x = "ALTA" <-> le (of_Z 2000) x = true /\ lt x (of_Z 2500) = true) /\
  (classify x = "MUITO_ALTA" <-> le (of_Z 2500) x = true /\ lt x (of_Z 3000) = true) /\
  (classify x = "EXTREMA" <-> le (of_Z 3000) x = true \/ is_nan x = true).

Definition tabela_pressao (classify : float -> string) (x : float) : Prop :=
  (classify x = "MUITO_BAIXA" <-> lt x (of_Z 1005) = true) /\
  (classify x = "BAIXA" <-> le (of_Z 1005) x = true /\ lt x (of_Z 1010) = true) /\
  (classify x = "NORMAL" <-> le (of_Z 1010) x = true /\ lt x (of_Z 1020) = true) /\
  (classify x = "ALTA" <-> le (of_Z 1020) x = true /\ lt x (of_Z 1025) = true) /\
  (classify x = "MUITO_ALTA" <-> le (of_Z 1025) x = true \/ is_nan x = true).

(** ** Vocabulary of the statements about a cycle *)

(** The kind of an outbound message. *)
Inductive Especie := e_zona | e_critico | e_bom_dia | e_boa_noite | e_geral.

Definition especie (m : Mensagem) : Especie :=
  match m with
  | msg_zona _ => e_zona
  | msg_critico _ => e_critico
  | msg_bom_dia _ _ => e_bom_dia
  | msg_boa_noite _ _ => e_boa_noite
  | msg_geral _ => e_geral
  end.

(** The scalar [processar_zonas] hands to the block of each domain. *)
Definition valor_lido (leitura : Leitura) (zona_nome : string) : float :=
  if String.eqb zona_nome "temperatura" then tem_ins leitura
  else if String.eqb zona_nome "umidade" then umd_ins leitura
  else if String.eqb zona_nome "vento" then ven_vel leitura
  else if String.eqb zona_nome "chuva"
  then (if truthy (chuva leitura) then chuva leitura else zero)
  else if String.eqb zona_nome "radiacao" then rad_glo leitura
  else pre_ins leitura.

(** What the block of a domain adds to [estados_atuais]: the zone and the
    value when the detector returned something, nothing otherwise. *)
Definition estados_de (d : Dominio) (agora : datetime) (leitura : Leitura)
    (st : States) : EstadosAtuais :=
  match dom_detectar d agora (valor_lido leitura (dom_nome d))
          (StateManager.get_zone_state st (dom_nome d)) with
  | Some m => [(dom_nome d, (zona_atual_de m, valor_lido leitura (dom_nome d)))]
  | None => []
  end.

(** The [estados_atuais] of a cycle: the six blocks, none skipped. *)
Definition estados_do_ciclo (agora : datetime) (leitura : Leitura) (st : States)
    : EstadosAtuais :=
  estados_de dom_temperatura agora leitura st ++
  estados_de dom_umidade agora leitura st ++
  estados_de dom_vento agora leitura st ++
  estados_de dom_chuva agora leitura st ++
  estados_de dom_radiacao agora leitura st ++
  estados_de dom_pressao agora leitura st.

(** The critical alerts of a cycle: the six evaluators, none skipped. *)
Definition criticos_do_ciclo (w : Mundo) (leitura : Leitura) : list (string * Critico) :=
  estende (ZonaTemperatura.verificar_critico (tem_ins leitura) (leitura_1h w)) ++
  estende (ZonaUmidade.verificar_critico (umd_ins leitura)) ++
  estende (ZonaVento.verificar_critico (ven_vel leitura) (ven_raj leitura)) ++
  estende (ZonaChuva.verificar_critico (valor_lido leitura "chuva") (acumulado_24h w)) ++
  estende (ZonaRadiacao.verificar_critico (rad_glo leitura)) ++
  estende (ZonaPressao.verificar_critico (pre_ins leitura)
             (WeatherDatabase.get_pressure_variation
                (WeatherDatabase.get_latest_reading (linha w)) (leitura_1h w))).

(** The entry [update_zone_state] writes. *)
Definition zona_gravada (agora : datetime) (zona_atual : string) (valor_atual : float)
    : ZoneState :=
  {| zona := Some zona_atual; valor := Some valor_atual; ultima_mudanca := JIso agora |}.

(** The same invocation with other dispatch outcomes. *)
Definition com_envio (f : Mensagem -> bool) (w : Mundo) : Mundo :=
  {| conecta := conecta w;
     linha := linha w;
     leitura_1h := leitura_1h w;
     leitura_3h := leitura_3h w;
     acumulado_24h := acumulado_24h w;
     resumo_noite := resumo_noite w;
     resumo_dia := resumo_dia w;
     agora := agora w;
     enviar_whatsapp := f;
     arquivo := arquivo w;
     grava := grava w |}.

(** The radiation of the row of one hour ago, as [main] passes it. *)
Definition rad_anterior_de (w : Mundo) : option float :=
  match leitura_1h w with Some l => ant_rad_glo l | None => None end.

(** The drift test of the general alert, in the words of section 4.5:
    the absolute difference against the stored value reaches the limit. *)
Definition desvio (atual ultima limite : float) : Prop :=
  ge (abs (sub atual ultima)) limite = true.

(** The hours elapsed since the stored dispatch, when it reads back. *)
Definition horas_desde (agora : datetime) (envio : jstamp) : option float :=
  match envio with
  | JIso ultimo => Some (div (StateManager.total_seconds agora ultimo) (of_Z 3600))
  | _ => None
  end.

(** The heartbeat: the stored dispatch reads back and at least 6 hours
    have elapsed. *)
Definition seis_horas (agora : datetime) (envio : jstamp) : Prop :=
  exists h, horas_desde agora envio = Some h /\ ge h (of_Z 6) = true.

(** ** Sample inputs *)

(** A day at midnight, and later instants of that day. *)
Definition meia_noite : datetime := {| dia := 739000; micro := 0 |}.
Definition as_6h : datetime := {| dia := 739000; micro := 21600000000 |}.
Definition as_6h05 : datetime := {| dia := 739000; micro := 21900000000 |}.
Definition as_2h : datetime := {| dia := 739000; micro := 7200000000 |}.
Definition as_5h59 : datetime := {| dia := 739000; micro := 21599999999 |}.
Definition as_6h01 : datetime := {| dia := 739000; micro := 21660000000 |}.

(** A state document as a completed cycle leaves it: every domain has a
    zone, the general alert was sent at midnight on 24.0 degrees, 60 % and
    1015 hPa, no report was sent yet and no critical alert is active. *)
Definition estado_exemplo : States :=
  {| st_timestamp := JIso meia_noite;
     st_versao := "2.0";
     st_zonas :=
       list_to_map
         [("temperatura", zona_gravada meia_noite "IDEAL" (of_Z 22));
          ("umidade", zona_gravada meia_noite "OTIMA" (of_Z 60));
          ("vento", zona_gravada meia_noite "ARAGEM" (of_Z 1));
          ("chuva", zona_gravada meia_noite "SEM_CHUVA" zero);
          ("radiacao", zona_gravada meia_noite "NOITE" zero);
          ("pressao", zona_gravada meia_noite "NORMAL" (of_Z 1015))];
     st_alerta_geral := {| ultima_temp := Some (of_Z 24); ultima_umid := Some (of_Z 60);
                           ultima_pressao := Some (of_Z 1015);
                           ultimo_envio := JIso meia_noite |};
     st_relatorios := {| ultimo_bom_dia := JNull; ultimo_boa_noite := JNull |};
     st_alertas_criticos := ∅ |}.

(** The newest row: 23.5 degrees (still IDEAL), the sun just up. *)
Definition linha_exemplo : Linha :=
  {| raw_tem_ins := Some (dec 235 10); raw_umd_ins := Some (of_Z 60);
     raw_pre_ins := Some (of_Z 1015); raw_ven_vel := Some (of_Z 1);
     raw_ven_raj := Some (of_Z 2); raw_chuva := Some zero;
     raw_rad_glo := Some (of_Z 30) |}.

(** The same row with a NULL temperature. *)
Definition linha_sem_temperatura : Linha :=
  {| raw_tem_ins := None; raw_umd_ins := Some (of_Z 60);
     raw_pre_ins := Some (of_Z 1015); raw_ven_vel := Some (of_Z 1);
     raw_ven_raj := Some (of_Z 2); raw_chuva := Some zero;
     raw_rad_glo := Some (of_Z 30) |}.

(** The row of one hour ago: night, 23.0 degrees. *)
Definition anterior_exemplo : LeituraAnterior :=
  {| ant_tem_ins := Some (of_Z 23); ant_umd_ins := Some (of_Z 60);
     ant_pre_ins := Some (of_Z 1015); ant_rad_glo := Some (SFopp (of_Z 5)) |}.

Definition resumo_exemplo : Resumo :=
  {| res_temp_min := Some (of_Z 18); res_temp_max := Some (of_Z 24);
     res_umid := Some (of_Z 70); res_chuva_total := Some zero;
     res_rajada_max := Some (of_Z 3); res_rad_max := Some (of_Z 2100) |}.

(** A cycle at 6:05 over these rows, the dispatches answering [envia]. *)
Definition mundo_exemplo (linha_atual : Linha) (envia : Mensagem -> bool)
    (estados : States) : Mundo :=
  {| conecta := true;
     linha := Some linha_atual;
     leitura_1h := Some anterior_exemplo;
     leitura_3h := Some anterior_exemplo;
     acumulado_24h := zero;
     resumo_noite := Some resumo_exemplo;
     resumo_dia := Some resumo_exemplo;
     agora := as_6h05;
     enviar_whatsapp := envia;
     arquivo := Some estados;
     grava := true |}.

Definition sempre (b : bool) (m : Mensagem) : bool := b.

(** A cycle that finds no row in the database. *)
Definition mundo_sem_leitura : Mundo :=
  {| conecta := true;
     linha := None;
     leitura_1h := None;
     leitura_3h := None;
     acumulado_24h := zero;
     resumo_noite := None;
     resumo_dia := None;
     agora := as_6h05;
     enviar_whatsapp := sempre true;
     arquivo := Some estado_exemplo;
     grava := true |}.

(** A row of one hour ago whose temperature is 0.0 degrees. *)
Definition anterior_zero_graus : LeituraAnterior :=
  {| ant_tem_ins := Some zero; ant_umd_ins := Some (of_Z 60);
     ant_pre_ins := Some (of_Z 1015); ant_rad_glo := Some zero |}.

(** A row of one hour ago at 20.0 degrees. *)
Definition anterior_20_graus : LeituraAnterior :=
  {| ant_tem_ins := Some (of_Z 20); ant_umd_ins := Some (of_Z 60);
     ant_pre_ins := Some (of_Z 1015); ant_rad_glo := Some zero |}.

(** ** Vocabulary of the further properties *)

(** A value a FLOAT column holds: neither an infinity nor a NaN. *)
Definition finito (x : float) : bool :=
  match x with
  | S754_zero _ | S754_finite _ _ _ => true
  | _ => false
  end.

(** The stored stamp of a kind of report: ['ultimo_boa_noite'] for the
    sunset report, ['ultimo_bom_dia'] for the sunrise report. *)
Definition ultimo_relatorio (st : States) (tipo : string) : jstamp :=
  if String.eqb tipo "boa_noite" then ultimo_boa_noite (st_relatorios st)
  else ultimo_bom_dia (st_relatorios st).

(** The keys of [emojis] and [descricoes] in the renderer of a domain. *)
Definition zonas_de (zona_nome : string) : list string :=
  if String.eqb zona_nome "temperatura" then ZonaTemperatura.zonas
  else if String.eqb zona_nome "umidade" then ZonaUmidade.zonas
  else if String.eqb zona_nome "vento" then ZonaVento.zonas
  else if String.eqb zona_nome "chuva" then ZonaChuva.zonas
  else if String.eqb zona_nome "radiacao" then ZonaRadiacao.zonas
  else ZonaPressao.zonas.

(** A zone entry the renderer of its domain can read: no zone yet, or a
    zone the renderer knows together with a finite value. *)
Definition entrada_bem_formada (zona_nome : string) (e : ZoneState) : bool :=
  match zona e, valor e with
  | None, _ => true
  | Some z, Some v => em z (zonas_de zona_nome) && finito v
  | Some _, None => false
  end.

(** A state document whose six zone entries are so. *)
Definition bem_formado (st : States) : bool :=
  forallb (fun n => entrada_bem_formada n (StateManager.get_zone_state st n))
    StateManager.dominios.

(** A reading whose seven values are finite. *)
Definition leitura_finita (l : Leitura) : bool :=
  finito (tem_ins l) && finito (umd_ins l) && finito (pre_ins l) &&
  finito (ven_vel l) && finito (ven_raj l) && finito (chuva l) && finito (rad_glo l).

(** The cycle at 6:05 with no row of one hour or three hours ago. *)
Definition mundo_sem_historico : Mundo :=
  {| conecta := true;
     linha := Some linha_exemplo;
     leitura_1h := None;
     leitura_3h := None;
     acumulado_24h := zero;
     resumo_noite := Some resumo_exemplo;
     resumo_dia := Some resumo_exemplo;
     agora := as_6h05;
     enviar_whatsapp := sempre true;
     arquivo := Some estado_exemplo;
     grava := true |}.

(** The cycle at 6:05 that finds no states.json. *)
Definition mundo_sem_arquivo : Mundo :=
  {| conecta := true;
     linha := Some linha_exemplo;
     leitura_1h := Some anterior_exemplo;
     leitura_3h := Some anterior_exemplo;
     acumulado_24h := zero;
     resumo_noite := Some resumo_exemplo;
     resumo_dia := Some resumo_exemplo;
     agora := as_6h05;
     enviar_whatsapp := sempre true;
     arquivo := None;
     grava := true |}.

(** ** config.py: the classification methods *)

Module ConfigMetodos.

Definition RAD_LIMITS_NOITE : float := of_Z 50.

Definition VENTO_CALMO : float := dec 3 10.
Definition VENTO_ARAGEM : float := dec 15 10.
Definition VENTO_BRISA_LEVE : float := dec 33 10.
Definition VENTO_BRISA_MODERADA : float := dec 54 10.
Definition VENTO_BRISA_FRESCA : float := dec 79 10.
Definition VENTO_MODERADO : float := dec 107 10.
Definition VENTO_FORTE : float := dec 138 10.

(** [Config.get_rad_zone] *)
Definition get_rad_zone (radiacao : float) : string :=
  if lt radiacao RAD_LIMITS_NOITE then "NOITE"
  else if lt radiacao Config.RAD_LIMITS_BAIXA then "BAIXA"
  else if lt radiacao Config.RAD_LIMITS_MODERADA then "MODERADA"
  else if lt radiacao Config.RAD_LIMITS_ALTA then "ALTA"
  else if lt radiacao Config.RAD_LIMITS_MUITO_ALTA then "MUITO ALTA"
  else "EXTREMA".

(** [Config.get_chuva_intensity] *)
Definition get_chuva_intensity (chuva_mm : float) : string :=
  if lt chuva_mm Config.CHUVA_LIMITS_GAROA then "GAROA"
  else if lt chuva_mm Config.CHUVA_LIMITS_FRACA then "FRACA"
  else if lt chuva_mm Config.CHUVA_LIMITS_MODERADA then "MODERADA"
  else if lt chuva_mm Config.CHUVA_LIMITS_FORTE then "FORTE"
  else "MUITO_FORTE".

(** [Config.get_beaufort_scale] *)
Definition get_beaufort_scale (vento_vel : float) : string :=
  if lt vento_vel VENTO_CALMO then "Calmo"
  else if lt vento_vel VENTO_ARAGEM then "Aragem"
  else if lt vento_vel VENTO_BRISA_LEVE then "Brisa Leve"
  else if lt vento_vel VENTO_BRISA_MODERADA then "Brisa Moderada"
  else if lt vento_vel VENTO_BRISA_FRESCA then "Brisa Fresca"
  else if lt vento_vel VENTO_MODERADO then "Vento Moderado"
  else if lt vento_vel VENTO_FORTE then "Vento Forte"
  else "VENTANIA".

(** [Config.get_conforto_termico]: the category, first component of the
    tuple it returns; the emoji and the description that follow it are
    fixed per category. *)
Definition get_conforto_termico (temperatura : float) : string :=
  if lt temperatura Config.CONFORTO_FRIO then "FRIO"
  else if lt temperatura Config.CONFORTO_FRESCO then "FRESCO"
  else if lt temperatura Config.CONFORTO_IDEAL then "IDEAL"
  else if lt temperatura Config.CONFORTO_MORNO then "MORNO"
  else if lt temperatura Config.CONFORTO_QUENTE then "QUENTE"
  else if lt temperatura Config.CONFORTO_MUITO_QUENTE then "MUITO_QUENTE"
  else "EXTREMO".

End ConfigMetodos.

(** The Beaufort label of [Config] for a wind zone of [ZonaVento]. *)
Definition rotulo_beaufort (zona : string) : string :=
  if String.eqb zona "CALMO" then "Calmo"
  else if String.eqb zona "ARAGEM" then "Aragem"
  else if String.eqb zona "BRISA_LEVE" then "Brisa Leve"
  else if String.eqb zona "BRISA_MODERADA" then "Brisa Moderada"
  else if String.eqb zona "BRISA_FRESCA" then "Brisa Fresca"
  else if String.eqb zona "MODERADO" then "Vento Moderado"
  else if String.eqb zona "FORTE" then "Vento Forte"
  else "VENTANIA".

(** The radiation label of [Config] for a radiation zone of
    [ZonaRadiacao]: no twilight, and a space in MUITO ALTA. *)
Definition rotulo_radiacao (zona : string) : string :=
  if String.eqb zona "CREPUSCULO" then "NOITE"
  else if String.eqb zona "MUITO_ALTA" then "MUITO ALTA"
  else zona.

(** ** send_whatsapp.py, and [enviar_whatsapp] of main.py that runs it *)

Module SendWhatsapp.

(** What [urllib.request.urlopen] does with the request. *)
Inductive Resposta :=
| resposta (status : Z)        (* a response, and its getcode() *)
| http_error (code : Z)        (* urllib.error.HTTPError, and its code *)
| url_error                    (* URLError or TimeoutError *)
| outra_excecao.               (* any other Exception *)

(** The dict [send_message] returns; the text under ['detail'] is not
    modelled. *)
Record Retorno := {
  code : Z;
  http_status : option Z
}.

Definition send_message (r : Resposta) : Retorno :=
  match r with
  | resposta status =>
      if (status =? 200)%Z || (status =? 201)%Z
      then {| code := 0; http_status := Some status |}
      else {| code := 1; http_status := Some status |}
  | http_error c =>
      {| code := if (c =? 400)%Z || (c =? 403)%Z then 2 else 1;
         http_status := Some c |}
  | url_error => {| code := 1; http_status := None |}
  | outra_excecao => {| code := 1; http_status := None |}
  end.

(** One turn of the loop of [main] over the numbers. *)
Definition passo_numero (acc : gmap string Retorno * bool) (tentativa : string * Resposta)
    : gmap string Retorno * bool :=
  let '(results, all_success) := acc in
  let '(num, r) := tentativa in
  let res := send_message r in
  (<[num := res]> results, if negb (code res =? 0)%Z then false else all_success).

(** [main], after the arguments are parsed: [tentativas] pairs each
    number of the list (stripped, the empty ones dropped) with what the
    network answers to its request. It returns the exit code and the dict
    printed under ['results']. *)
Definition main (tentativas : list (string * Resposta)) : Z * gmap string Retorno :=
  let '(results, all_success) := fold_left passo_numero tentativas (∅, true) in
  ((if all_success then 0 else 1)%Z, results).

(** What [subprocess.run] gives back to main.py. *)
Inductive Saida :=
| sem_json                                          (* json.loads raises *)
| json (results : option (gmap string Retorno)).  (* the key may be absent *)

Inductive Processo :=
| expirou                                           (* TimeoutExpired *)
| terminou (returncode : Z) (stdout : Saida).

(** [all(r.get('code') == 0 for r in resultados.values())] *)
Definition todos_code_0 (resultados : gmap string Retorno) : bool :=
  forallb (fun '(_, r) => (code r =? 0)%Z) (map_to_list resultados).

(** [enviar_whatsapp] of main.py, on what the subprocess did. *)
Definition enviar_whatsapp (p : Processo) : bool :=
  match p with
  | expirou => false
  | terminou returncode stdout =>
      if negb (returncode =? 0)%Z then false
      else
        match stdout with
        | sem_json => false
        | json results => todos_code_0 (default ∅ results)
        end
  end.

(** The subprocess that ends in time: main.py reads the exit code and
    the JSON document that [main] printed. *)
Definition executa (tentativas : list (string * Resposta)) : Processo :=
  terminou (fst (main tentativas)) (json (Some (snd (main tentativas)))).

(** The request was answered with HTTP 200 or 201. *)
Definition aceita (r : Resposta) : bool :=
  match r with
  | resposta status => (status =? 200)%Z || (status =? 201)%Z
  | _ => false
  end.

End SendWhatsapp.

(** ** database.py: the row of some hours ago *)

Module Database.

(** A row of the query of [get_reading_hours_ago]: the time of the
    measurement, NULL when [STR_TO_DATE] cannot read the two columns, and
    the columns the core reads. *)
Record Registro := {
  medicao_real : option datetime;
  colunas : LeituraAnterior
}.

(** [hora_alvo - timedelta(hours=hours)], for a time late enough in the
    calendar for the subtraction not to overflow. *)
Definition menos_horas (hora_alvo : datetime) (hours : Z) : datetime :=
  let total := (micro hora_alvo - hours * 3600000000)%Z in
  {| dia := (dia hora_alvo + total / 86400000000)%Z;
     micro := (total mod 86400000000)%Z |}.

(** [abs((medicao_real - hora_busca).total_seconds())] *)
Definition diferenca (hora_busca medicao : datetime) : float :=
  abs (StateManager.total_seconds medicao hora_busca).

(** One turn of the loop that keeps the closest row seen so far. *)
Definition passo_registro (hora_busca : datetime) (acc : option Registro * option float)
    (registro : Registro) : option Registro * option float :=
  let '(melhor_registro, menor_diferenca) := acc in
  match medicao_real registro with
  | Some medicao =>
      let diferenca := diferenca hora_busca medicao in
      match menor_diferenca with
      | None => (Some registro, Some diferenca)
      | Some menor =>
          if lt diferenca menor then (Some registro, Some diferenca)
          else (melhor_registro, menor_diferenca)
      end
  | None => acc
  end.

(** [get_reading_hours_ago], on the rows the query fetched (the newest
    first). *)
Definition get_reading_hours_ago (registros : list Registro) (hours : Z)
    : option Registro :=
  match registros with
  | [] => None
  | mais_recente :: _ =>
      match medicao_real mais_recente with
      | None => None
      | Some hora_alvo =>
          let hora_busca := menos_horas hora_alvo hours in
          fst (fold_left (passo_registro hora_busca) registros (None, None))
      end
  end.

(** The instant the search aims at. *)
Definition hora_busca_de (registros : list Registro) (hours : Z) : option datetime :=
  match registros with
  | [] => None
  | mais_recente :: _ =>
      (fun hora_alvo => menos_horas hora_alvo hours) <$> medicao_real mais_recente
  end.

End Database.

(** Three rows at 6:00, 5:00 and 4:00 of the sample day. *)
Definition registros_exemplo : list Database.Registro :=
  [ {| Database.medicao_real := Some as_6h; Database.colunas := anterior_exemplo |};
    {| Database.medicao_real := Some {| dia := 739000; micro := 18000000000 |};
       Database.colunas := anterior_20_graus |};
    {| Database.medicao_real := Some {| dia := 739000; micro := 14400000000 |};
       Database.colunas := anterior_zero_graus |} ].

(** The next invocation at the instant [quando]: it finds the file the
    cycle [w] left and, for the rest, what [w] found. *)
Definition ciclo_seguinte (w : Mundo) (quando : datetime) : Mundo :=
  {| conecta := conecta w;
     linha := linha w;
     leitura_1h := leitura_1h w;
     leitura_3h := leitura_3h w;
     acumulado_24h := acumulado_24h w;
     resumo_noite := resumo_noite w;
     resumo_dia := resumo_dia w;
     agora := quando;
     enviar_whatsapp := enviar_whatsapp w;
     arquivo := arquivo_final (main w);
     grava := grava w |}.

Definition as_6h10 : datetime := {| dia := 739000; micro := 22200000000 |}.

(** ** message_composer.py: the insights of the general alert *)

(** The sentences [gerar_insights] can append, by what they say; two
    sentences are the same string exactly when they are the same
    constructor. *)
Inductive Insight :=
| temperatura_em_queda_acentuada      (* "Temperatura em queda acentuada" *)
| possivel_frente_fria                (* "Possível frente fria aproximando" *)
| temperatura_em_queda                (* "Temperatura em queda" *)
| temperatura_subindo_rapidamente     (* "Temperatura subindo rapidamente" *)
| calor_intensificando                (* "Atenção: calor intensificando" *)
| temperatura_em_elevacao             (* "Temperatura em elevação" *)
| pressao_em_queda_acentuada          (* "Pressão em queda acentuada" *)
| tempo_pode_instabilizar             (* "Tempo pode instabilizar" *)
| pressao_caindo                      (* "Pressão caindo - tempo instável" *)
| pressao_subindo_rapidamente         (* "Pressão subindo rapidamente" *)
| tempo_estabilizando                 (* "Tempo estabilizando" *)
| pressao_em_elevacao                 (* "Pressão em elevação" *)
| ar_muito_seco_hidrate_se            (* "Ar muito seco - hidrate-se" *)
| ar_saturado                         (* "Ar saturado - chuva provável" *)
| radiacao_solar_intensa              (* "Radiação solar intensa" *)
| uv_extremo_evite_exposicao          (* "UV extremo - evite exposição" *)
| uv_alto_use_protecao                (* "UV alto - use proteção" *)
| temperatura_baixa                   (* "Temperatura baixa - agasalho necessário" *)
| calor_intenso                       (* "Calor intenso - evite exposição solar" *)
| chuva_em_breve.                     (* "Chuva pode ocorrer em breve" *)

#[local] Instance Insight_eq_dec : EqDecision Insight.
Proof. solve_decision. Defined.

(** [x in insights] *)
Definition contem (x : Insight) (insights : list Insight) : bool :=
  bool_decide (x ∈ insights).

(** [MessageComposer.gerar_insights]; the row of three hours ago, which
    the method receives, is not read. *)
Definition gerar_insights (leitura_atual : Leitura) (delta_temp delta_pressao : float)
    : list Insight :=
  let insights := [] in
  let temp_atual := tem_ins leitura_atual in
  let umid_atual := umd_ins leitura_atual in
  let pressao_atual := pre_ins leitura_atual in
  let rad_atual := rad_glo leitura_atual in
  (* TEMPERATURA *)
  let insights :=
    if lt delta_temp (SFopp (of_Z 2)) then
      if lt delta_temp (SFopp (of_Z 4))
      then insights ++ [temperatura_em_queda_acentuada] ++ [possivel_frente_fria]
      else insights ++ [temperatura_em_queda]
    else if gt delta_temp (of_Z 3) then
      if gt delta_temp (of_Z 5) then
        let insights := insights ++ [temperatura_subindo_rapidamente] in
        if gt temp_atual (of_Z 30) then insights ++ [calor_intensificando]
        else insights
      else insights ++ [temperatura_em_elevacao]
    else insights in
  (* PRESSAO *)
  let insights :=
    if lt delta_pressao (SFopp (of_Z 3))
    then insights ++ [pressao_em_queda_acentuada] ++ [tempo_pode_instabilizar]
    else if lt delta_pressao (SFopp (dec 15 10)) then insights ++ [pressao_caindo]
    else if gt delta_pressao (of_Z 3)
    then insights ++ [pressao_subindo_rapidamente] ++ [tempo_estabilizando]
    else if gt delta_pressao (dec 15 10) then insights ++ [pressao_em_elevacao]
    else insights in
  (* UMIDADE *)
  let insights :=
    if lt umid_atual (of_Z 30) then insights ++ [ar_muito_seco_hidrate_se]
    else if gt umid_atual (of_Z 85) then insights ++ [ar_saturado]
    else insights in
  (* RADIACAO UV *)
  let insights :=
    if gt rad_atual (of_Z 3000)
    then insights ++ [radiacao_solar_intensa] ++ [uv_extremo_evite_exposicao]
    else if gt rad_atual (of_Z 2000) then insights ++ [uv_alto_use_protecao]
    else insights in
  (* CONFORTO TERMICO *)
  let insights :=
    if lt temp_atual (of_Z 18) then insights ++ [temperatura_baixa]
    else if gt temp_atual (of_Z 32) then insights ++ [calor_intenso]
    else insights in
  (* CONDICOES COMBINADAS *)
  let insights :=
    if gt temp_atual (of_Z 30) && lt umid_atual (of_Z 40) then
      if negb (contem calor_intensificando insights)
      then insights ++ [calor_intensificando]
      else insights
    else insights in
  let insights :=
    if lt pressao_atual (of_Z 1010) && gt umid_atual (of_Z 80) then
      if negb (contem ar_saturado insights)
      then insights ++ [chuva_em_breve]
      else insights
    else insights in
  insights.

(** The block of [gerar_insights] that first appends a sentence: 1 for
    the temperature trend, 2 for the pressure trend, 3 for the humidity,
    4 for the radiation, 5 for the thermal comfort, 7 for the last of the
    combined conditions. *)
Definition bloco_do_insight (x : Insight) : nat :=
  match x with
  | temperatura_em_queda_acentuada | possivel_frente_fria | temperatura_em_queda
  | temperatura_subindo_rapidamente | calor_intensificando
  | temperatura_em_elevacao => 1
  | pressao_em_queda_acentuada | tempo_pode_instabilizar | pressao_caindo
  | pressao_subindo_rapidamente | tempo_estabilizando | pressao_em_elevacao => 2
  | ar_muito_seco_hidrate_se | ar_saturado => 3
  | radiacao_solar_intensa | uv_extremo_evite_exposicao | uv_alto_use_protecao => 4
  | temperatura_baixa | calor_intenso => 5
  | chuva_em_breve => 7
  end.

(** The newest row as [get_reading_hours_ago] returns it when it is the
    row closest to the instant aimed at: the same columns, a NULL staying
    [None]. *)
Definition colunas_de (r : Linha) : LeituraAnterior :=
  {| ant_tem_ins := raw_tem_ins r;
     ant_umd_ins := raw_umd_ins r;
     ant_pre_ins := raw_pre_ins r;
     ant_rad_glo := raw_rad_glo r |}.

(** The cycle at 6:05 over a table whose only row is the newest one. *)
Definition mundo_de_uma_linha : Mundo :=
  {| conecta := true;
     linha := Some linha_exemplo;
     leitura_1h := Some (colunas_de linha_exemplo);
     leitura_3h := Some (colunas_de linha_exemplo);
     acumulado_24h := zero;
     resumo_noite := Some resumo_exemplo;
     resumo_dia := Some resumo_exemplo;
     agora := as_6h05;
     enviar_whatsapp := sempre true;
     arquivo := Some estado_exemplo;
     grava := true |}.








(** * Properties *)

(** ** The order of floats *)

Lemma lexcmp_lt k k' : lexcmp k k' = Lt <-> lexlt k k'.
Proof.
  destruct k as [[a b] c], k' as [[a' b'] c']; unfold lexcmp, lexlt.
  destruct (Z.compare_spec a a'), (Z.compare_spec b b'), (Z.compare_spec c c');
    split; intros Hc; try discriminate; try reflexivity; try lia.
Qed.

Lemma lexcmp_le k k' : lexcmp k k' <> Gt <-> lexle k k'.
Proof.
  destruct k as [[a b] c], k' as [[a' b'] c']; unfold lexcmp, lexle.
  destruct (Z.compare_spec a a'), (Z.compare_spec b b'), (Z.compare_spec c c');
    split; intros Hc; try discriminate; try congruence; try lia.
Qed.

Lemma SFcompare_key x y :
  is_nan x = false -> is_nan y = false ->
  SFcompare x y = Some (lexcmp (key x) (key y)).
Proof.
  destruct x as [sx|sx| |sx mx ex], y as [sy|sy| |sy my ey];
    try discriminate; intros _ _;
    try (destruct sx; reflexivity); try (destruct sy; reflexivity);
    try (destruct sx, sy; reflexivity).
  destruct sx, sy; try reflexivity; unfold SFcompare, key, lexcmp.
  all: try rewrite Z.compare_opp, (Z.compare_antisym ex ey).
  all: destruct (ex ?= ey)%Z; reflexivity.
Qed.

Lemma lt_lexlt x y :
  is_nan x = false -> is_nan y = false ->
  lt x y = true <-> lexlt (key x) (key y).
Proof.
  intros Hx Hy. unfold lt, SFltb. rewrite (SFcompare_key x y Hx Hy).
  rewrite <- lexcmp_lt. destruct (lexcmp (key x) (key y)); split; congruence.
Qed.

Lemma le_lexle x y :
  is_nan x = false -> is_nan y = false ->
  le x y = true <-> lexle (key x) (key y).
Proof.
  intros Hx Hy. unfold le, SFleb. rewrite (SFcompare_key x y Hx Hy).
  rewrite <- lexcmp_le. destruct (lexcmp (key x) (key y)); split; congruence.
Qed.

Lemma eq_key x y :
  is_nan x = false -> is_nan y = false ->
  eq x y = true <-> key x = key y.
Proof.
  intros Hx Hy. unfold eq, SFeqb. rewrite (SFcompare_key x y Hx Hy).
  destruct (key x) as [[a b] c], (key y) as [[a' b'] c']; unfold lexcmp.
  destruct (Z.compare_spec a a'), (Z.compare_spec b b'), (Z.compare_spec c c');
    split; intros Hc; try discriminate; try congruence;
    try (injection Hc; lia).
Qed.

Lemma lt_false_lexlt x y :
  is_nan x = false -> is_nan y = false ->
  lt x y = false <-> ~ lexlt (key x) (key y).
Proof.
  intros Hx Hy. rewrite <- (lt_lexlt x y Hx Hy). destruct (lt x y); split; congruence.
Qed.

Lemma le_false_lexle x y :
  is_nan x = false -> is_nan y = false ->
  le x y = false <-> ~ lexle (key x) (key y).
Proof.
  intros Hx Hy. rewrite <- (le_lexle x y Hx Hy). destruct (le x y); split; congruence.
Qed.

Lemma eq_false_key x y :
  is_nan x = false -> is_nan y = false ->
  eq x y = false <-> key x <> key y.
Proof.
  intros Hx Hy. rewrite <- (eq_key x y Hx Hy). destruct (eq x y); split; congruence.
Qed.

(** The side conditions of the lemmas above: the float is a constant, or
    a hypothesis says it is no NaN. *)
Ltac nao_nan := first [assumption | reflexivity].

(** Turn every comparison of floats in the hypotheses into arithmetic on
    keys, and evaluate the keys of the constants. *)
Ltac chaves :=
  repeat match goal with
    | H : lt ?x ?y = true |- _ => apply (lt_lexlt x y) in H; [| nao_nan ..]
    | H : lt ?x ?y = false |- _ => apply (lt_false_lexlt x y) in H; [| nao_nan ..]
    | H : le ?x ?y = true |- _ => apply (le_lexle x y) in H; [| nao_nan ..]
    | H : le ?x ?y = false |- _ => apply (le_false_lexle x y) in H; [| nao_nan ..]
    | H : eq ?x ?y = true |- _ => apply (eq_key x y) in H; [| nao_nan ..]
    | H : eq ?x ?y = false |- _ => apply (eq_false_key x y) in H; [| nao_nan ..]
    end;
  repeat match goal with
    | |- context [key ?c] =>
        tryif is_var c then fail else
          let v := eval vm_compute in (key c) in change (key c) with v
    | H : context [key ?c] |- _ =>
        tryif is_var c then fail else
          let v := eval vm_compute in (key c) in change (key c) with v in H
    end.

(** A table of zones, once the classifier is unfolded: follow the chain
    of tests, then compare keys. *)
Ltac tabela t :=
  repeat match goal with
    | |- context [if ?b then _ else _] => let E := fresh "E" in destruct b eqn:E
    end;
  rewrite ?le_lexle, ?lt_lexlt by nao_nan;
  chaves; destruct (key t) as [[? ?] ?]; unfold lexlt, lexle in *;
  try match goal with H : (_, _, _) = (_, _, _) |- _ => injection H as ? ? ? end;
  repeat split;
  try (let H1 := fresh in let H2 := fresh in intros [H1 H2]);
  try (let H1 := fresh in intros H1);
  try match goal with
    | H : _ \/ false = true |- _ => destruct H as [H | H]; [| discriminate H]
    end;
  try discriminate; try reflexivity; try lia; try (left; lia).

(** A NaN fails every test: the classifier answers its last zone. *)
Ltac tabela_nan :=
  vm_compute; repeat split;
  try (let H1 := fresh in let H2 := fresh in intros [H1 H2]);
  try (let H1 := fresh in intros [H1 | H1]);
  try (let H1 := fresh in intros H1);
  try discriminate; try reflexivity; try (right; reflexivity).

(** ** The classifiers agree with the tables *)

Ltac tabela_de t :=
  destruct (is_nan t) eqn:Hn;
  [ destruct t; try discriminate Hn; tabela_nan
  | cbv beta delta [tabela_temperatura tabela_umidade tabela_vento tabela_chuva
                    tabela_radiacao tabela_pressao
                    ZonaTemperatura.classificar ZonaUmidade.classificar
                    ZonaVento.classificar ZonaChuva.classificar
                    ZonaRadiacao.classificar ZonaPressao.classificar
                    Config.CONFORTO_FRIO Config.CONFORTO_FRESCO Config.CONFORTO_IDEAL
                    Config.CONFORTO_MORNO Config.CONFORTO_QUENTE
                    Config.CONFORTO_MUITO_QUENTE
                    ZonaVento.VENTO_CALMO ZonaVento.VENTO_ARAGEM
                    ZonaVento.VENTO_BRISA_LEVE ZonaVento.VENTO_BRISA_MODERADA
                    ZonaVento.VENTO_BRISA_FRESCA ZonaVento.VENTO_MODERADO
                    ZonaVento.VENTO_FORTE
                    Config.CHUVA_LIMITS_GAROA Config.CHUVA_LIMITS_FRACA
                    Config.CHUVA_LIMITS_MODERADA Config.CHUVA_LIMITS_FORTE
                    Config.RAD_LIMITS_BAIXA Config.RAD_LIMITS_MODERADA
                    Config.RAD_LIMITS_ALTA Config.RAD_LIMITS_MUITO_ALTA];
    rewrite ?Hn; tabela t ].

Lemma classificar_temperatura_tabela t :
  tabela_temperatura ZonaTemperatura.classificar t.
Proof. tabela_de t. Qed.

Lemma classificar_umidade_tabela t : tabela_umidade ZonaUmidade.classificar t.
Proof. tabela_de t. Qed.

Lemma classificar_vento_tabela t : tabela_vento ZonaVento.classificar t.
Proof. tabela_de t. Qed.

Lemma classificar_chuva_tabela t : tabela_chuva ZonaChuva.classificar t.
Proof. tabela_de t. Qed.

Lemma classificar_radiacao_tabela t : tabela_radiacao ZonaRadiacao.classificar t.
Proof. tabela_de t. Qed.

Lemma classificar_pressao_tabela t : tabela_pressao ZonaPressao.classificar t.
Proof. tabela_de t. Qed.

(** C1. Zone classification is a total function of the scalar alone (a
    Rocq function: it reads no state and always answers), and for each of
    the six domains it answers a zone exactly on the half-open interval
    that section 4.1 gives it. In particular 18.9 is FRIO, 19.0 is FRESCO,
    32.9 is MUITO_QUENTE and 33.0 is EXTREMO; a radiation that is at most
    0 (the row NOITE of the radiation table), such as -5 or 0, is NOITE and
    never an error, and one strictly between 0 and 50, such as 49, is
    CREPUSCULO. *)
Theorem C1_classificacao_segue_a_tabela :
  (forall x, tabela_temperatura ZonaTemperatura.classificar x) /\
  (forall x, tabela_umidade ZonaUmidade.classificar x) /\
  (forall x, tabela_vento ZonaVento.classificar x) /\
  (forall x, tabela_chuva ZonaChuva.classificar x) /\
  (forall x, tabela_radiacao ZonaRadiacao.classificar x) /\
  (forall x, tabela_pressao ZonaPressao.classificar x) /\
  ZonaTemperatura.classificar (dec 189 10) = "FRIO" /\
  ZonaTemperatura.classificar (dec 190 10) = "FRESCO" /\
  ZonaTemperatura.classificar (dec 329 10) = "MUITO_QUENTE" /\
  ZonaTemperatura.classificar (dec 330 10) = "EXTREMO" /\
  ZonaRadiacao.classificar (of_Z (-5)) = "NOITE" /\
  ZonaRadiacao.classificar (of_Z 0) = "NOITE" /\
  ZonaRadiacao.classificar (of_Z 49) = "CREPUSCULO".
Proof.
  split; [exact classificar_temperatura_tabela |].
  split; [exact classificar_umidade_tabela |].
  split; [exact classificar_vento_tabela |].
  split; [exact classificar_chuva_tabela |].
  split; [exact classificar_radiacao_tabela |].
  split; [exact classificar_pressao_tabela |].
  repeat split; vm_compute; reflexivity.
Qed.

(** ** The critical debounce *)

(** C2. For every critical kind and every persisted state,
    [should_send_critical] answers true exactly when the flag of this cycle
    differs from the persisted flag (false when the kind has no entry); so
    it answers false on every cycle where the two agree, and in particular
    on every cycle that finds again the flag a previous cycle recorded. *)
Theorem C2_should_send_critical_iff_differs (st : States) (tipo_critico : string)
    (ativo_agora : bool) :
  (StateManager.should_send_critical st tipo_critico ativo_agora = true <->
     ativo_agora <> StateManager.get_critical_state st tipo_critico) /\
  StateManager.should_send_critical st tipo_critico
     (StateManager.get_critical_state st tipo_critico) = false /\
  (forall quando : datetime,
     StateManager.should_send_critical
       (StateManager.update_critical_state quando tipo_critico ativo_agora st)
       tipo_critico ativo_agora = false).
Proof.
  unfold StateManager.should_send_critical, StateManager.get_critical_state.
  repeat split.
  - destruct (st_alertas_criticos st !! tipo_critico) as [e|];
      [destruct (ativo e) |]; destruct ativo_agora; simpl; congruence.
  - destruct (st_alertas_criticos st !! tipo_critico) as [e|];
      [destruct (ativo e) |]; destruct ativo_agora; simpl; congruence.
  - destruct (st_alertas_criticos st !! tipo_critico) as [e|];
      [destruct (ativo e) |]; reflexivity.
  - intros quando. simpl. rewrite lookup_insert_eq. simpl.
    destruct ativo_agora; reflexivity.
Qed.

(** ** The transition detector *)

Lemma detectar_primeira classificar agora v est :
  zona est = None ->
  detectar_mudanca_com classificar agora v est
  = Some (primeira_leitura (classificar v) v).
Proof. unfold detectar_mudanca_com. intros ->. reflexivity. Qed.

Lemma detectar_mesma_zona classificar agora v est z :
  zona est = Some z -> classificar v = z ->
  detectar_mudanca_com classificar agora v est = None.
Proof.
  unfold detectar_mudanca_com. intros -> ->. rewrite String.eqb_refl. reflexivity.
Qed.

Lemma detectar_outra_zona classificar agora v est z :
  zona est = Some z -> classificar v <> z ->
  detectar_mudanca_com classificar agora v est
  = Some (mudanca_zona z (classificar v) (valor est) v agora).
Proof.
  unfold detectar_mudanca_com. intros -> Hne.
  destruct (String.eqb_spec (classificar v) z); [contradiction | reflexivity].
Qed.

Lemma dominio_detecta_com d :
  d ∈ dominios_do_sistema ->
  dom_detectar d = detectar_mudanca_com (dom_classificar d) /\
  (forall z v extra, dom_gerar d (primeira_leitura z v) extra = Ok None).
Proof.
  unfold dominios_do_sistema. rewrite !elem_of_cons, elem_of_nil.
  intros [-> | [-> | [-> | [-> | [-> | [-> | []]]]]]]; split; reflexivity.
Qed.

(** C3. For each of the six domains and every current value: with no
    persisted zone the detector emits a first reading carrying the zone of
    the value, for which the renderer returns no message and the cycle
    queues none (it does record the zone); with a persisted zone equal to
    the zone of the value the detector emits nothing, whatever the value
    and the persisted value are, and the cycle records and queues nothing;
    with a different persisted zone it emits a zone change carrying the
    persisted zone and value and the current zone and value. *)
Theorem C3_detectar_mudanca_casos (d : Dominio) (agora : datetime) (v : float)
    (est : ZoneState) :
  d ∈ dominios_do_sistema ->
  (zona est = None ->
     dom_detectar d agora v est = Some (primeira_leitura (dom_classificar d v) v) /\
     (forall extra,
        dom_gerar d (primeira_leitura (dom_classificar d v) v) extra = Ok None) /\
     (forall extra,
        bloco_zona (dom_nome d) (dom_detectar d agora v est) v
          (fun m => dom_gerar d m extra)
        = Ok ([(dom_nome d, (dom_classificar d v, v))], []))) /\
  (forall z, zona est = Some z -> dom_classificar d v = z ->
     dom_detectar d agora v est = None /\
     (forall extra,
        bloco_zona (dom_nome d) (dom_detectar d agora v est) v
          (fun m => dom_gerar d m extra) = Ok ([], []))) /\
  (forall z, zona est = Some z -> dom_classificar d v <> z ->
     dom_detectar d agora v est
     = Some (mudanca_zona z (dom_classificar d v) (valor est) v agora)).
Proof.
  intros Hd. destruct (dominio_detecta_com d Hd) as [-> Hg].
  split; [| split].
  - intros Hz. rewrite (detectar_primeira _ _ _ _ Hz).
    split; [reflexivity |]. split; [intros; apply Hg |]. reflexivity.
  - intros z Hz Hc. rewrite (detectar_mesma_zona _ _ _ _ _ Hz Hc).
    split; reflexivity.
  - intros z Hz Hc. apply detectar_outra_zona; assumption.
Qed.

(** The temperature detector on an empty entry, inside IDEAL, and from
    IDEAL to QUENTE. *)
Lemma C3_witness_temperatura :
  ZonaTemperatura.detectar_mudanca as_6h05 (dec 285 10) StateManager.zona_vazia
  = Some (primeira_leitura "QUENTE" (dec 285 10)) /\
  ZonaTemperatura.detectar_mudanca as_6h05 (dec 235 10)
    (zona_gravada meia_noite "IDEAL" (of_Z 22)) = None /\
  ZonaTemperatura.detectar_mudanca as_6h05 (dec 285 10)
    (zona_gravada meia_noite "IDEAL" (of_Z 22))
  = Some (mudanca_zona "IDEAL" "QUENTE" (Some (of_Z 22)) (dec 285 10) as_6h05).
Proof.
  split; [| split].
  - exact (proj1 (proj1 (C3_detectar_mudanca_casos dom_temperatura as_6h05 (dec 285 10)
                           StateManager.zona_vazia (list_elem_of_here _ _)) eq_refl)).
  - exact (proj1 (proj1 (proj2 (C3_detectar_mudanca_casos dom_temperatura as_6h05
                                  (dec 235 10) (zona_gravada meia_noite "IDEAL" (of_Z 22))
                                  (list_elem_of_here _ _))) "IDEAL" eq_refl eq_refl)).
  - refine (proj2 (proj2 (C3_detectar_mudanca_casos dom_temperatura as_6h05
                            (dec 285 10) (zona_gravada meia_noite "IDEAL" (of_Z 22))
                            (list_elem_of_here _ _))) "IDEAL" eq_refl _).
    vm_compute. discriminate.
Defined.

(** ** The pressure critical evaluator *)

(** C4, as the code has it. The pressure evaluator emits [queda_brusca]
    exactly when the 1-hour delta is strictly below -5.0 hPa, and
    [pressao_muito_baixa] exactly when that test failed and the pressure
    is below 1005 hPa: never both, the drop first. A reading of 1004 hPa
    with a delta of -6.0 emits [queda_brusca] alone. *)
Theorem C4_verificar_critico_pressao (pressao_atual delta_1h : float) :
  (emite (ZonaPressao.verificar_critico pressao_atual delta_1h) "queda_brusca" = true
   <-> lt delta_1h (SFopp (of_Z 5)) = true) /\
  (emite (ZonaPressao.verificar_critico pressao_atual delta_1h) "pressao_muito_baixa"
   = true
   <-> lt delta_1h (SFopp (of_Z 5)) = false /\ lt pressao_atual (of_Z 1005) = true) /\
  (emite (ZonaPressao.verificar_critico pressao_atual delta_1h) "queda_brusca" = true /\
   emite (ZonaPressao.verificar_critico pressao_atual delta_1h) "pressao_muito_baixa"
   = true <-> False) /\
  ZonaPressao.verificar_critico (of_Z 1004) (SFopp (of_Z 6))
  = Some [queda_brusca (of_Z 1004) (SFopp (of_Z 6))].
Proof.
  unfold ZonaPressao.verificar_critico, emite.
  destruct (lt delta_1h (SFopp (of_Z 5))) eqn:Ed;
    [| destruct (lt pressao_atual (of_Z 1005)) eqn:Ep];
    cbn [app ou_None default existsb tipo id];
    repeat split; try tauto; try discriminate; try reflexivity;
    try (intros [? ?]; discriminate).
Qed.

(** At a delta of exactly -5.0 hPa the claim (delta at most -5.0) asks for
    a sharp-drop event; the code emits none, and at 1004 hPa it emits
    [pressao_muito_baixa] in its place. *)
Lemma C4_counterexample_delta_menos_5 :
  le (SFopp (of_Z 5)) (SFopp (of_Z 5)) = true /\
  emite (ZonaPressao.verificar_critico (of_Z 1010) (SFopp (of_Z 5))) "queda_brusca"
  = false /\
  ZonaPressao.verificar_critico (of_Z 1010) (SFopp (of_Z 5)) = None /\
  ZonaPressao.verificar_critico (of_Z 1004) (SFopp (of_Z 5))
  = Some [pressao_muito_baixa (of_Z 1004)].
Proof. repeat split; vm_compute; reflexivity. Qed.

(** ** The temperature critical evaluator *)

Lemma emite_ou_None (l : list Critico) t :
  emite (ou_None l) t = existsb (fun c => String.eqb (tipo c) t) l.
Proof. destruct l; reflexivity. Qed.

(** With an earlier temperature that is neither missing nor zero, the
    abrupt-change alert is emitted exactly when the absolute difference is
    at least 5.0; the heat and cold alerts read the current value only. *)
Lemma mudanca_brusca_anterior_nao_nulo (temp_atual temp_anterior : float)
    (la : LeituraAnterior) :
  ant_tem_ins la = Some temp_anterior -> truthy temp_anterior = true ->
  (emite (ZonaTemperatura.verificar_critico temp_atual (Some la)) "mudanca_brusca" = true
   <-> ge (abs (sub temp_atual temp_anterior)) (of_Z 5) = true).
Proof.
  intros Ha Ht. unfold ZonaTemperatura.verificar_critico. rewrite Ha, Ht.
  rewrite emite_ou_None.
  destruct (gt temp_atual Config.CONFORTO_MUITO_QUENTE),
    (lt temp_atual Config.TEMP_BAIXA),
    (ge (abs (sub temp_atual temp_anterior)) (of_Z 5));
    cbn; split; congruence.
Qed.

Lemma calor_frio_sem_leitura_anterior (temp_atual : float)
    (leitura_anterior : option LeituraAnterior) :
  (emite (ZonaTemperatura.verificar_critico temp_atual leitura_anterior) "calor_extremo"
   = true <-> gt temp_atual (of_Z 33) = true) /\
  (emite (ZonaTemperatura.verificar_critico temp_atual leitura_anterior) "frio_extremo"
   = true <-> lt temp_atual (of_Z 18) = true).
Proof.
  unfold ZonaTemperatura.verificar_critico. rewrite !emite_ou_None.
  change Config.CONFORTO_MUITO_QUENTE with (of_Z 33).
  change Config.TEMP_BAIXA with (of_Z 18).
  destruct (gt temp_atual (of_Z 33)), (lt temp_atual (of_Z 18));
    destruct leitura_anterior as [[[ta|] ? ? ?]|]; cbn [ant_tem_ins];
    try destruct (truthy ta);
    try destruct (ge (abs (sub temp_atual ta)) (of_Z 5));
    cbn; split; split; congruence.
Qed.

(** C5, the code at the failing input. The reading of one hour ago is
    present with a temperature of 0.0 and the current temperature is 6.0:
    the absolute difference is 6.0, at least 5.0, yet the evaluator emits
    no [mudanca_brusca] (only the cold alert), because the guard
    [if temp_anterior:] takes the zero for a missing value. With an earlier
    temperature of 20.0 and a current one of 26.0 the same difference does
    emit it. *)
Theorem C5_mudanca_brusca_anterior_zero :
  ge (abs (sub (of_Z 6) zero)) (of_Z 5) = true /\
  emite (ZonaTemperatura.verificar_critico (of_Z 6) (Some anterior_zero_graus))
    "mudanca_brusca" = false /\
  ZonaTemperatura.verificar_critico (of_Z 6) (Some anterior_zero_graus)
  = Some [frio_extremo (of_Z 6) (of_Z 18)] /\
  ge (abs (sub (of_Z 26) (of_Z 20))) (of_Z 5) = true /\
  emite (ZonaTemperatura.verificar_critico (of_Z 26) (Some anterior_20_graus))
    "mudanca_brusca" = true.
Proof. repeat split; vm_compute; reflexivity. Qed.

(** ** What each block of the cycle leaves untouched *)

Lemma atualizar_estados_frame agora es st :
  st_alerta_geral (atualizar_estados agora es st) = st_alerta_geral st /\
  st_relatorios (atualizar_estados agora es st) = st_relatorios st /\
  st_alertas_criticos (atualizar_estados agora es st) = st_alertas_criticos st /\
  st_versao (atualizar_estados agora es st) = st_versao st.
Proof.
  unfold atualizar_estados. revert st.
  induction es as [|[n [z v]] es IH]; intros st; cbn [fold_left].
  - repeat split.
  - destruct (IH (StateManager.update_zone_state agora n z v st)) as (-> & -> & -> & ->).
    repeat split.
Qed.

Lemma passo_critico_frame w ac st log t st' log' :
  passo_critico w ac (st, log) t = (st', log') ->
  st_zonas st' = st_zonas st /\
  st_alerta_geral st' = st_alerta_geral st /\
  st_relatorios st' = st_relatorios st.
Proof.
  unfold passo_critico.
  repeat match goal with
    | |- context [if ?b then _ else _] => destruct b
    | |- context [match ?o with Some _ => _ | None => _ end] => destruct o
    end;
    intros [= <- <-]; repeat split.
Qed.

Lemma fold_criticos_frame w ac ts acc st' log' :
  fold_left (passo_critico w ac) ts acc = (st', log') ->
  st_zonas st' = st_zonas (fst acc) /\
  st_alerta_geral st' = st_alerta_geral (fst acc) /\
  st_relatorios st' = st_relatorios (fst acc).
Proof.
  revert acc. induction ts as [|t ts IH]; intros [st log]; cbn [fold_left fst].
  - intros [= <- <-]. repeat split.
  - destruct (passo_critico w ac (st, log) t) as [st1 log1] eqn:E1.
    intros Hf. destruct (IH _ Hf) as (-> & -> & ->).
    apply (passo_critico_frame _ _ _ _ _ _ _ E1).
Qed.

Lemma enviar_criticos_frame w ac st st' log' :
  enviar_criticos w ac st = (st', log') ->
  st_zonas st' = st_zonas st /\
  st_alerta_geral st' = st_alerta_geral st /\
  st_relatorios st' = st_relatorios st.
Proof. intros H. apply (fold_criticos_frame _ _ _ _ _ _ H). Qed.

Lemma relatorio_frame w leitura t resumo compor st st' log :
  relatorio w leitura t resumo compor st = (Ok st', log) ->
  st_zonas st' = st_zonas st /\
  st_alerta_geral st' = st_alerta_geral st /\
  st_alertas_criticos st' = st_alertas_criticos st.
Proof.
  unfold relatorio.
  repeat match goal with
    | |- context [if ?b then _ else _] => destruct b
    | |- context [match ?o with Some _ => _ | None => _ end] => destruct o
    | |- context [match ?o with Ok _ => _ | Raise => _ end] => destruct o
    end;
    intros [= <- <-]; repeat split.
Qed.

Lemma relatorios_frame w leitura tr st st' log :
  relatorios w leitura tr st = (Ok st', log) ->
  st_zonas st' = st_zonas st /\
  st_alerta_geral st' = st_alerta_geral st /\
  st_alertas_criticos st' = st_alertas_criticos st.
Proof.
  unfold relatorios. destruct tr as [t|]; [| intros [= <- <-]; repeat split].
  destruct (String.eqb t "bom_dia"); [apply relatorio_frame |].
  destruct (String.eqb t "boa_noite"); [apply relatorio_frame |].
  intros [= <- <-]; repeat split.
Qed.

Lemma alerta_geral_frame w leitura st st' log :
  alerta_geral w leitura st = (Ok st', log) ->
  st_zonas st' = st_zonas st /\
  st_relatorios st' = st_relatorios st /\
  st_alertas_criticos st' = st_alertas_criticos st.
Proof.
  unfold alerta_geral.
  destruct (StateManager.should_send_general_alert _ _ _ _ _) as [[[] m]|];
    [| intros [= <- <-]; repeat split | discriminate].
  destruct (leitura_3h w) as [[? [?|] ? ?]|]; try discriminate;
    destruct (enviar_whatsapp w _); intros [= <- <-]; repeat split.
Qed.

(** ** What [processar_zonas] returns *)

Lemma bloco_zona_estados nome mud v gerar e a :
  bloco_zona nome mud v gerar = Ok (e, a) ->
  e = match mud with Some m => [(nome, (zona_atual_de m, v))] | None => [] end.
Proof.
  unfold bloco_zona. destruct mud as [m|]; [| intros [= <- <-]; reflexivity].
  destruct (String.eqb (tipo_mudanca m) "mudanca_zona");
    [destruct (gerar m) as [[msg|]|]; try discriminate |];
    intros [= <- <-]; reflexivity.
Qed.

Lemma processar_zonas_inv w leitura st ai ac ea tr :
  processar_zonas w leitura st = Ok (ai, ac, ea, tr) ->
  ea = estados_do_ciclo (agora w) leitura st /\
  ac = criticos_do_ciclo w leitura /\
  tr = ZonaRadiacao.detectar_transicao (rad_glo leitura) (rad_anterior_de w).
Proof.
  unfold processar_zonas.
  repeat match goal with
    | |- context [bloco_zona ?n ?m ?v ?g] =>
        let E := fresh "E" in
        destruct (bloco_zona n m v g) as [[? ?]|] eqn:E; [| discriminate];
        apply bloco_zona_estados in E
    end.
  intros [= <- <- <- <-]. subst. repeat split.
Qed.

(** ** The zone entries after the update loop *)

Lemma atualizar_app agora e1 e2 st :
  atualizar_estados agora (e1 ++ e2) st
  = atualizar_estados agora e2 (atualizar_estados agora e1 st).
Proof. unfold atualizar_estados. apply fold_left_app. Qed.

Lemma bloco_lookup d agora agora' leitura st0 st n :
  st_zonas (atualizar_estados agora (estados_de d agora' leitura st0) st) !! n
  = if String.eqb n (dom_nome d) then
      match dom_detectar d agora' (valor_lido leitura (dom_nome d))
              (StateManager.get_zone_state st0 (dom_nome d)) with
      | Some m => Some (zona_gravada agora (zona_atual_de m)
                          (valor_lido leitura (dom_nome d)))
      | None => st_zonas st !! n
      end
    else st_zonas st !! n.
Proof.
  unfold estados_de.
  destruct (dom_detectar d agora' _ _) as [m|]; cbn [atualizar_estados fold_left].
  - unfold StateManager.update_zone_state; cbn [st_zonas].
    destruct (String.eqb_spec n (dom_nome d)) as [-> | Hne].
    + rewrite lookup_insert_eq. reflexivity.
    + rewrite lookup_insert_ne by congruence. reflexivity.
  - destruct (String.eqb n (dom_nome d)); reflexivity.
Qed.

Lemma zonas_apos_atualizar d agora leitura st0 :
  d ∈ dominios_do_sistema ->
  st_zonas (atualizar_estados agora (estados_do_ciclo agora leitura st0) st0)
    !! dom_nome d
  = match dom_detectar d agora (valor_lido leitura (dom_nome d))
            (StateManager.get_zone_state st0 (dom_nome d)) with
    | Some m => Some (zona_gravada agora (zona_atual_de m)
                        (valor_lido leitura (dom_nome d)))
    | None => st_zonas st0 !! dom_nome d
    end.
Proof.
  unfold dominios_do_sistema, estados_do_ciclo. rewrite !elem_of_cons, elem_of_nil.
  rewrite !atualizar_app.
  intros [-> | [-> | [-> | [-> | [-> | [-> | []]]]]]];
    rewrite !bloco_lookup; reflexivity.
Qed.

(** ** The cycle, block by block *)

(** Name every intermediate result of [main]. *)
Ltac abre_main w :=
  unfold main;
  destruct (conecta w) eqn:Hcon; cbn [negb];
  [ destruct (WeatherDatabase.get_latest_reading (linha w)) as [leitura|] eqn:Hlei;
    [ destruct (processar_zonas w leitura (StateManager.load (arquivo w) (agora w)))
        as [[[[ai ac] ea] tr]|] eqn:Hproc;
      [ destruct (enviar_criticos w ac
                    (atualizar_estados (agora w) ea
                       (StateManager.load (arquivo w) (agora w))))
          as [st2 log2] eqn:Hcri;
        destruct (relatorios w leitura tr st2) as [[st3|] log3] eqn:Hrel;
        [ destruct (alerta_geral w leitura st3) as [[st4|] log4] eqn:Hger | ]
      | ]
    | ]
  | ]; cbn [falha exit_code arquivo_final enviadas].

(** A cycle ends with exit code 0 or 1, and one that ends with 1 leaves
    states.json as it was. *)
Lemma main_falha_nao_grava w :
  (exit_code (main w) = 0 \/ exit_code (main w) = 1)%Z /\
  (exit_code (main w) = 1%Z -> arquivo_final (main w) = arquivo w).
Proof. abre_main w; split; auto; discriminate. Qed.

(** The zone entries of the file after a cycle that completed and wrote. *)
Lemma main_zonas w :
  exit_code (main w) = 0%Z -> grava w = true ->
  exists leitura depois,
    WeatherDatabase.get_latest_reading (linha w) = Some leitura /\
    arquivo_final (main w) = Some depois /\
    forall d, d ∈ dominios_do_sistema ->
      st_zonas depois !! dom_nome d
      = match dom_detectar d (agora w) (valor_lido leitura (dom_nome d))
                (StateManager.get_zone_state
                   (StateManager.load (arquivo w) (agora w)) (dom_nome d)) with
        | Some m => Some (zona_gravada (agora w) (zona_atual_de m)
                            (valor_lido leitura (dom_nome d)))
        | None => st_zonas (StateManager.load (arquivo w) (agora w)) !! dom_nome d
        end.
Proof.
  abre_main w; try discriminate. intros _ Hg.
  unfold StateManager.save. rewrite Hg.
  eexists leitura, _. split; [reflexivity |]. split; [reflexivity |].
  intros d Hd. cbn [st_zonas].
  destruct (alerta_geral_frame _ _ _ _ _ Hger) as (-> & _ & _).
  destruct (relatorios_frame _ _ _ _ _ _ Hrel) as (-> & _ & _).
  destruct (enviar_criticos_frame _ _ _ _ _ Hcri) as (-> & _ & _).
  destruct (processar_zonas_inv _ _ _ _ _ _ _ Hproc) as (-> & _ & _).
  apply zonas_apos_atualizar; assumption.
Qed.

(** ** The persisted zone entry changes only with an event *)

(** C10. For each domain, over a cycle that completes and writes the file:
    when the detector emits nothing for the domain (as it does whenever the
    reading classifies into the persisted zone) the entry of the domain,
    zone, value and time of change alike, is the one the cycle loaded;
    when it emits an event the entry becomes the zone and the value of this
    reading at this time. Hence the value is not refreshed while the zone
    lasts: a later cycle whose reading leaves the zone reports, as earlier
    value, the value that was persisted before this cycle. *)
Theorem C10_zona_gravada_so_com_evento (w : Mundo) (d : Dominio) (leitura : Leitura) :
  d ∈ dominios_do_sistema ->
  WeatherDatabase.get_latest_reading (linha w) = Some leitura ->
  exit_code (main w) = 0%Z -> grava w = true ->
  let antes := StateManager.load (arquivo w) (agora w) in
  let v := valor_lido leitura (dom_nome d) in
  exists depois,
    arquivo_final (main w) = Some depois /\
    (dom_detectar d (agora w) v (StateManager.get_zone_state antes (dom_nome d)) = None ->
     st_zonas depois !! dom_nome d = st_zonas antes !! dom_nome d) /\
    (forall z, zona (StateManager.get_zone_state antes (dom_nome d)) = Some z ->
               dom_classificar d v = z ->
       st_zonas depois !! dom_nome d = st_zonas antes !! dom_nome d /\
       forall (w2 : Mundo) (v2 : float),
         arquivo w2 = arquivo_final (main w) ->
         dom_classificar d v2 <> z ->
         dom_detectar d (agora w2) v2
           (StateManager.get_zone_state
              (StateManager.load (arquivo w2) (agora w2)) (dom_nome d))
         = Some (mudanca_zona z (dom_classificar d v2)
                   (valor (StateManager.get_zone_state antes (dom_nome d)))
                   v2 (agora w2))) /\
    (forall m,
       dom_detectar d (agora w) v (StateManager.get_zone_state antes (dom_nome d))
       = Some m ->
       st_zonas depois !! dom_nome d
       = Some (zona_gravada (agora w) (zona_atual_de m) v)).
Proof.
  intros Hd Hl Hex Hg antes v.
  destruct (main_zonas w Hex Hg) as (l' & depois & Hl' & Hfin & Hz).
  rewrite Hl in Hl'. injection Hl' as <-.
  specialize (Hz d Hd). fold antes v in Hz.
  exists depois. split; [exact Hfin |].
  destruct (dominio_detecta_com d Hd) as [Hdet _].
  split; [| split].
  - intros Hnone. rewrite Hz, Hnone. reflexivity.
  - intros z Hzona Hcl.
    assert (Hnone : dom_detectar d (agora w) v
                      (StateManager.get_zone_state antes (dom_nome d)) = None).
    { rewrite Hdet. apply (detectar_mesma_zona _ _ _ _ z); assumption. }
    assert (Heq : st_zonas depois !! dom_nome d = st_zonas antes !! dom_nome d).
    { rewrite Hz, Hnone. reflexivity. }
    split; [exact Heq |].
    intros w2 v2 Harq Hne. rewrite Harq, Hfin. cbn [StateManager.load].
    assert (Hget : StateManager.get_zone_state depois (dom_nome d)
                   = StateManager.get_zone_state antes (dom_nome d)).
    { unfold StateManager.get_zone_state. rewrite Heq. reflexivity. }
    rewrite Hget, Hdet. apply detectar_outra_zona; assumption.
  - intros m Hm. rewrite Hz, Hm. reflexivity.
Qed.

(** The temperature moves from 22.0 to 23.5 inside IDEAL: the entry still
    holds 22.0 after the cycle. *)
Lemma C10_witness_mesma_zona :
  exists depois,
    arquivo_final (main (mundo_exemplo linha_exemplo (sempre true) estado_exemplo))
    = Some depois /\
    st_zonas depois !! "temperatura"
    = Some (zona_gravada meia_noite "IDEAL" (of_Z 22)).
Proof.
  destruct (C10_zona_gravada_so_com_evento
              (mundo_exemplo linha_exemplo (sempre true) estado_exemplo)
              dom_temperatura
              (default (Build_Leitura zero zero zero zero zero zero zero)
                 (WeatherDatabase.get_latest_reading (Some linha_exemplo)))
              (list_elem_of_here _ _) eq_refl eq_refl eq_refl)
    as (depois & Hfin & Hnone & _).
  exists depois. split; [exact Hfin |].
  exact (eq_trans (Hnone eq_refl) eq_refl).
Defined.

(** ** The critical alerts of a cycle *)

Lemma estende_tipo criticos :
  Forall (fun '(t, d) => t = tipo d) (estende criticos).
Proof.
  destruct criticos as [l|]; cbn [estende]; [| constructor].
  induction l as [|c l IH]; cbn [map]; constructor; auto.
Qed.

Lemma criticos_do_ciclo_tipo w leitura :
  Forall (fun '(t, d) => t = tipo d) (criticos_do_ciclo w leitura).
Proof.
  unfold criticos_do_ciclo. repeat apply Forall_app_2; apply estende_tipo.
Qed.

Lemma gerar_msg_critico_tipo d : gerar_msg_critico (tipo d) d = Some (msg_critico d).
Proof. destruct d; reflexivity. Qed.

Lemma encontra_dados_tipo ac t d :
  Forall (fun '(t, d) => t = tipo d) ac ->
  encontra_dados ac t = Some d -> tipo d = t.
Proof.
  unfold encontra_dados. intros Hac.
  induction Hac as [|[t' d'] ac Ht Hac IH]; cbn [find fmap option_fmap option_map].
  - discriminate.
  - destruct (String.eqb_spec t' t) as [-> | Hne].
    + cbn. intros [= <-]. symmetry. exact Ht.
    + exact IH.
Qed.

(** The four ways one turn of the loop over the critical kinds can go. *)
Lemma passo_critico_casos w ac st log t st' log' :
  Forall (fun '(t, d) => t = tipo d) ac ->
  passo_critico w ac (st, log) t = (st', log') ->
  (exists d, tipo d = t /\ StateManager.get_critical_state st t = false /\
             st' = StateManager.update_critical_state (agora w) t true st /\
             log' = log ++ [(msg_critico d, true)]) \/
  (exists d, tipo d = t /\ StateManager.get_critical_state st t = false /\
             st' = st /\ log' = log ++ [(msg_critico d, false)]) \/
  (st' = StateManager.update_critical_state (agora w) t false st /\ log' = log) \/
  (st' = st /\ log' = log).
Proof.
  intros Hac. unfold passo_critico, StateManager.should_send_critical.
  destruct (StateManager.get_critical_state st t) eqn:Hget,
    (criticos_ativos ac t) eqn:Hat; cbn [Bool.eqb negb andb].
  - intros [= <- <-]. auto.
  - intros [= <- <-]. auto.
  - destruct (encontra_dados ac t) as [d|] eqn:Hd; [| intros [= <- <-]; auto].
    pose proof (encontra_dados_tipo _ _ _ Hac Hd) as Ht. subst t.
    rewrite gerar_msg_critico_tipo.
    destruct (enviar_whatsapp w (msg_critico d)); intros [= <- <-].
    + left. exists d. auto.
    + right. left. exists d. auto.
  - intros [= <- <-]. auto.
Qed.

Lemma get_critical_update agora t a st t' :
  StateManager.get_critical_state (StateManager.update_critical_state agora t a st) t'
  = if String.eqb t t' then a else StateManager.get_critical_state st t'.
Proof.
  unfold StateManager.get_critical_state, StateManager.update_critical_state.
  cbn [st_alertas_criticos].
  destruct (String.eqb_spec t t') as [-> | Hne].
  - rewrite lookup_insert_eq. reflexivity.
  - rewrite lookup_insert_ne by exact Hne. reflexivity.
Qed.

(** Over the whole loop: a flag that ends active was active before or its
    alert went out; an alert whose dispatch failed leaves its flag inactive;
    only critical alerts are dispatched. *)
Lemma fold_criticos_inv w ac ts :
  Forall (fun '(t, d) => t = tipo d) ac -> NoDup ts ->
  forall st log st' log',
    fold_left (passo_critico w ac) ts (st, log) = (st', log') ->
    (forall t, StateManager.get_critical_state st' t = true ->
       StateManager.get_critical_state st t = true \/
       exists d, tipo d = t /\ In (msg_critico d, true) log') /\
    (forall t, ~ In t ts ->
       StateManager.get_critical_state st' t = StateManager.get_critical_state st t) /\
    (forall d, In (msg_critico d, false) log' ->
       In (msg_critico d, false) log \/
       (In (tipo d) ts /\ StateManager.get_critical_state st' (tipo d) = false /\
        StateManager.get_critical_state st (tipo d) = false)) /\
    (forall e, In e log' -> In e log \/ especie (fst e) = e_critico) /\
    (forall e, In e log -> In e log').
Proof.
  intros Hac Hnd. induction Hnd as [|t ts Hnotin Hnd IH];
    intros st log st' log'; cbn [fold_left].
  - intros [= <- <-]. repeat split; auto.
  - destruct (passo_critico w ac (st, log) t) as [st1 log1] eqn:E1.
    intros Hf. destruct (IH _ _ _ _ Hf) as (Ha & Hb & Hc & Hd & He).
    assert (Hnotin' : ~ In t ts) by (rewrite <- list_elem_of_In; exact Hnotin).
    assert (Hout : forall a d', In (tipo d') ts ->
              StateManager.get_critical_state
                (StateManager.update_critical_state (agora w) t a st) (tipo d') = false ->
              StateManager.get_critical_state st (tipo d') = false).
    { intros a d' Hin Hget. rewrite get_critical_update in Hget.
      destruct (String.eqb_spec t (tipo d')) as [Heq | _]; [| exact Hget].
      exfalso. apply Hnotin'. rewrite Heq. exact Hin. }
    destruct (passo_critico_casos _ _ _ _ _ _ _ Hac E1)
      as [(d & Ht & Hg & -> & ->) | [(d & Ht & Hg & -> & ->) | [[-> ->] | [-> ->]]]].
    + (* dispatched and recorded *)
      repeat split.
      * intros t' Ht'. destruct (Ha t' Ht') as [Hold | Hnew]; [| auto].
        rewrite get_critical_update in Hold.
        destruct (String.eqb_spec t t') as [<- | _]; [| auto].
        right. exists d. split; [exact Ht |]. apply He, in_or_app. right. left. reflexivity.
      * intros t' Ht'. rewrite Hb by (intros Hin; apply Ht'; right; exact Hin).
        rewrite get_critical_update.
        destruct (String.eqb_spec t t') as [<- | _]; [| reflexivity].
        exfalso. apply Ht'. left. reflexivity.
      * intros d' Hd'. destruct (Hc d' Hd') as [Hin | (Hin & Hget & Hget0)].
        -- apply in_app_or in Hin. destruct Hin as [Hin | [Hin | []]]; [auto |].
           discriminate Hin.
        -- right. split; [right; exact Hin |]. split; [exact Hget |].
           exact (Hout _ _ Hin Hget0).
      * intros e Hin. destruct (Hd e Hin) as [Hin' | Hin']; [| auto].
        apply in_app_or in Hin'. destruct Hin' as [Hin' | [<- | []]]; auto.
      * intros e Hin. apply He, in_or_app. auto.
    + (* dispatch failed *)
      repeat split.
      * intros t' Ht'. destruct (Ha t' Ht') as [Hold | Hnew]; auto.
      * intros t' Ht'. apply Hb. intros Hin; apply Ht'; right; exact Hin.
      * intros d' Hd'. destruct (Hc d' Hd') as [Hin | (Hin & Hget & Hget0)].
        -- apply in_app_or in Hin. destruct Hin as [Hin | [Hin | []]]; [auto |].
           injection Hin as <-. right. split; [left; symmetry; exact Ht |].
           rewrite Ht. rewrite (Hb t Hnotin'). split; exact Hg.
        -- right. split; [right; exact Hin |]. split; assumption.
      * intros e Hin. destruct (Hd e Hin) as [Hin' | Hin']; [| auto].
        apply in_app_or in Hin'. destruct Hin' as [Hin' | [<- | []]]; auto.
      * intros e Hin. apply He, in_or_app. auto.
    + (* the condition ended *)
      repeat split.
      * intros t' Ht'. destruct (Ha t' Ht') as [Hold | Hnew]; [| auto].
        rewrite get_critical_update in Hold.
        destruct (String.eqb_spec t t') as [<- | _]; [discriminate | auto].
      * intros t' Ht'. rewrite Hb by (intros Hin; apply Ht'; right; exact Hin).
        rewrite get_critical_update.
        destruct (String.eqb_spec t t') as [<- | _]; [| reflexivity].
        exfalso. apply Ht'. left. reflexivity.
      * intros d' Hd'. destruct (Hc d' Hd') as [Hin | (Hin & Hget & Hget0)]; [auto |].
        right. split; [right; exact Hin |]. split; [exact Hget |].
        exact (Hout _ _ Hin Hget0).
      * exact Hd.
      * exact He.
    + (* nothing to do *)
      repeat split.
      * exact Ha.
      * intros t' Ht'. apply Hb. intros Hin; apply Ht'; right; exact Hin.
      * intros d' Hd'. destruct (Hc d' Hd') as [Hin | (Hin & Hget & Hget0)]; [auto |].
        right. split; [right; exact Hin |]. split; assumption.
      * exact Hd.
      * exact He.
Qed.

Lemma tipos_criticos_NoDup : NoDup tipos_criticos.
Proof.
  unfold tipos_criticos.
  repeat (apply NoDup_cons_2;
          [rewrite ?elem_of_cons, elem_of_nil; intros H;
           repeat (destruct H as [H | H]; [discriminate H |]); exact H |]).
  apply NoDup_nil_2.
Qed.

(** ** The dispatches of each block *)

Lemma enviar_inteligentes_especie w ai e :
  In e (enviar_inteligentes w ai) -> especie (fst e) = e_zona.
Proof.
  unfold enviar_inteligentes. rewrite in_map_iff.
  intros ([[n m] msg] & <- & _). reflexivity.
Qed.

Lemma enviar_criticos_especie w ac st st' log e :
  Forall (fun '(t, d) => t = tipo d) ac ->
  enviar_criticos w ac st = (st', log) -> In e log -> especie (fst e) = e_critico.
Proof.
  intros Hac Hf Hin.
  destruct (fold_criticos_inv w ac _ Hac tipos_criticos_NoDup _ _ _ _ Hf)
    as (_ & _ & _ & Hd & _).
  destruct (Hd e Hin) as [[] | He]; exact He.
Qed.

(** One branch of the report block: either nothing is dispatched and the
    state is kept (or the composition raised), or the gate was open, the
    report went out once and is recorded exactly when the dispatch
    succeeded. *)
Lemma relatorio_casos w leitura t resumo compor st r log :
  relatorio w leitura t resumo compor st = (r, log) ->
  (log = [] /\ (r = Ok st \/ r = Raise)) \/
  (exists res m,
     StateManager.should_send_report (agora w) st t (rad_glo leitura)
       (rad_anterior_de w) = true /\
     resumo = Some res /\ compor res leitura = Ok m /\
     log = [(m, enviar_whatsapp w m)] /\
     r = Ok (if enviar_whatsapp w m
             then StateManager.update_report (agora w) t st else st)).
Proof.
  unfold relatorio. fold (rad_anterior_de w).
  destruct (StateManager.should_send_report _ _ _ _ _) eqn:Hs;
    [| intros [= <- <-]; auto].
  destruct resumo as [res|]; [| intros [= <- <-]; auto].
  destruct (compor res leitura) as [m|] eqn:Hc; [| intros [= <- <-]; auto].
  destruct (enviar_whatsapp w m) eqn:He; intros [= <- <-]; right;
    exists res, m; rewrite ?He; auto.
Qed.

Lemma compor_bom_dia_especie res leitura m :
  MessageComposer.compor_relatorio_bom_dia res leitura = Ok m -> especie m = e_bom_dia.
Proof.
  unfold MessageComposer.compor_relatorio_bom_dia.
  repeat match goal with
    | |- context [match ?o with Some _ => _ | None => _ end] => destruct o
    end; try discriminate; intros [= <-]; reflexivity.
Qed.

Lemma compor_boa_noite_especie res leitura m :
  MessageComposer.compor_relatorio_boa_noite res leitura = Ok m ->
  especie m = e_boa_noite.
Proof.
  unfold MessageComposer.compor_relatorio_boa_noite.
  repeat match goal with
    | |- context [match ?o with Some _ => _ | None => _ end] => destruct o
    end; try discriminate; intros [= <-]; reflexivity.
Qed.

(** The name of the report a message is, if it is one. *)
Lemma relatorios_casos w leitura tr st r log :
  relatorios w leitura tr st = (r, log) ->
  (log = [] /\ (r = Ok st \/ r = Raise)) \/
  (exists t m,
     tr = Some t /\
     ((t = "bom_dia" /\ especie m = e_bom_dia) \/
      (t = "boa_noite" /\ especie m = e_boa_noite)) /\
     StateManager.should_send_report (agora w) st t (rad_glo leitura)
       (rad_anterior_de w) = true /\
     log = [(m, enviar_whatsapp w m)] /\
     r = Ok (if enviar_whatsapp w m
             then StateManager.update_report (agora w) t st else st)).
Proof.
  unfold relatorios. destruct tr as [t|]; [| intros [= <- <-]; auto].
  destruct (String.eqb_spec t "bom_dia") as [-> | Hn1].
  - intros H. destruct (relatorio_casos _ _ _ _ _ _ _ _ H)
      as [? | (res & m & Hs & _ & Hc & -> & ->)]; [auto |].
    right. exists "bom_dia", m. repeat split; auto.
    left. split; [reflexivity |]. exact (compor_bom_dia_especie _ _ _ Hc).
  - destruct (String.eqb_spec t "boa_noite") as [-> | Hn2].
    + intros H. destruct (relatorio_casos _ _ _ _ _ _ _ _ H)
        as [? | (res & m & Hs & _ & Hc & -> & ->)]; [auto |].
      right. exists "boa_noite", m. repeat split; auto.
      right. split; [reflexivity |]. exact (compor_boa_noite_especie _ _ _ Hc).
    + intros [= <- <-]; auto.
Qed.

(** The general alert block: the snapshot becomes the values of this
    reading exactly when the alert was due and its dispatch succeeded. *)
Lemma alerta_geral_casos w leitura st st' log :
  alerta_geral w leitura st = (Ok st', log) ->
  (log = [(msg_geral leitura, true)] /\
   (exists motivo,
      StateManager.should_send_general_alert (agora w) st
        (tem_ins leitura) (umd_ins leitura) (pre_ins leitura) = Ok (true, motivo)) /\
   st' = StateManager.update_general_alert (agora w)
           (tem_ins leitura) (umd_ins leitura) (pre_ins leitura) st) \/
  ((log = [] \/ log = [(msg_geral leitura, false)]) /\ st' = st).
Proof.
  unfold alerta_geral.
  destruct (StateManager.should_send_general_alert _ _ _ _ _) as [[[] m]|];
    [| intros [= <- <-]; auto | discriminate].
  unfold MessageComposer.compor_alerta_geral.
  destruct (leitura_3h w) as [[? [?|] ? ?]|]; try discriminate;
    destruct (enviar_whatsapp w (msg_geral leitura)); intros [= <- <-];
    first [ left; split; [reflexivity |]; split; [eexists; reflexivity | reflexivity]
          | right; auto ].
Qed.

Lemma alerta_geral_especie w leitura st r log e :
  alerta_geral w leitura st = (r, log) -> In e log -> especie (fst e) = e_geral.
Proof.
  unfold alerta_geral.
  destruct (StateManager.should_send_general_alert _ _ _ _ _) as [[[] m]|];
    [| intros [= <- <-] [] | intros [= <- <-] []].
  unfold MessageComposer.compor_alerta_geral.
  destruct (leitura_3h w) as [[? [?|] ? ?]|];
    try (intros [= <- <-] []);
    destruct (enviar_whatsapp w (msg_geral leitura)); intros [= <- <-] [<- | []];
    reflexivity.
Qed.

(** ** The cycle as a whole *)

(** A cycle that ends with exit code 0 went through every block. *)
Lemma main_sucesso w :
  exit_code (main w) = 0%Z ->
  let antes := StateManager.load (arquivo w) (agora w) in
  exists leitura ai st2 log2 st3 log3 st4 log4,
    WeatherDatabase.get_latest_reading (linha w) = Some leitura /\
    enviar_criticos w (criticos_do_ciclo w leitura)
      (atualizar_estados (agora w) (estados_do_ciclo (agora w) leitura antes) antes)
    = (st2, log2) /\
    relatorios w leitura
      (ZonaRadiacao.detectar_transicao (rad_glo leitura) (rad_anterior_de w)) st2
    = (Ok st3, log3) /\
    alerta_geral w leitura st3 = (Ok st4, log4) /\
    arquivo_final (main w) = StateManager.save (grava w) (arquivo w) (agora w) st4 /\
    enviadas (main w) = enviar_inteligentes w ai ++ log2 ++ log3 ++ log4.
Proof.
  abre_main w; try discriminate. intros _.
  destruct (processar_zonas_inv _ _ _ _ _ _ _ Hproc) as (-> & -> & ->).
  exists leitura, ai, st2, log2, st3, log3, st4, log4. repeat split; assumption.
Qed.

(** Whatever the exit code, a report that was dispatched came out of the
    report block, run on the state the critical loop left. *)
Lemma main_relatorio_enviado w m b :
  In (m, b) (enviadas (main w)) ->
  especie m = e_bom_dia \/ especie m = e_boa_noite ->
  let antes := StateManager.load (arquivo w) (agora w) in
  exists leitura st2 log2 r log3,
    WeatherDatabase.get_latest_reading (linha w) = Some leitura /\
    enviar_criticos w (criticos_do_ciclo w leitura)
      (atualizar_estados (agora w) (estados_do_ciclo (agora w) leitura antes) antes)
    = (st2, log2) /\
    st_relatorios st2 = st_relatorios antes /\
    relatorios w leitura
      (ZonaRadiacao.detectar_transicao (rad_glo leitura) (rad_anterior_de w)) st2
    = (r, log3) /\
    In (m, b) log3.
Proof.
  intros Hin Hesp antes. revert Hin.
  abre_main w; try (intros []).
  all: destruct (processar_zonas_inv _ _ _ _ _ _ _ Hproc) as (Hea & Hac & Htr);
    subst ea ac tr;
    destruct (enviar_criticos_frame _ _ _ _ _ Hcri) as (_ & _ & Hr2);
    destruct (atualizar_estados_frame (agora w)
                (estados_do_ciclo (agora w) leitura
                   (StateManager.load (arquivo w) (agora w)))
                (StateManager.load (arquivo w) (agora w))) as (_ & Hr1 & _);
    rewrite Hr1 in Hr2;
    rewrite ?in_app_iff;
    intros Hin;
    assert (Hin3 : In (m, b) log3);
    [ | exists leitura, st2, log2; eexists; exists log3; repeat split; eassumption ].
  all: repeat match goal with
         | H : _ \/ _ |- _ => destruct H as [H | H]
         end; try assumption; exfalso.
  all: try (apply enviar_inteligentes_especie in Hin; cbn [fst] in Hin; congruence).
  all: try (apply (enviar_criticos_especie _ _ _ _ _ _
                     (criticos_do_ciclo_tipo w leitura) Hcri) in Hin;
            cbn [fst] in Hin; congruence).
  all: try (apply (alerta_geral_especie _ _ _ _ _ _ Hger) in Hin;
            cbn [fst] in Hin; congruence).
Qed.

(** ** The report gate *)




(** The report dates in the file a cycle leaves: those it loaded, unless a
    report went out with success, which is then recorded. *)
Lemma main_relatorios_final w depois :
  arquivo_final (main w) = Some depois ->
  let antes := StateManager.load (arquivo w) (agora w) in
  st_relatorios depois = st_relatorios antes \/
  exists leitura st2 log2 t m,
    WeatherDatabase.get_latest_reading (linha w) = Some leitura /\
    enviar_criticos w (criticos_do_ciclo w leitura)
      (atualizar_estados (agora w) (estados_do_ciclo (agora w) leitura antes) antes)
    = (st2, log2) /\
    st_relatorios st2 = st_relatorios antes /\
    StateManager.should_send_report (agora w) st2 t (rad_glo leitura)
      (rad_anterior_de w) = true /\
    ((t = "bom_dia" /\ especie m = e_bom_dia) \/
     (t = "boa_noite" /\ especie m = e_boa_noite)) /\
    In (m, true) (enviadas (main w)) /\
    relatorios w leitura
      (ZonaRadiacao.detectar_transicao (rad_glo leitura) (rad_anterior_de w)) st2
    = (Ok (StateManager.update_report (agora w) t st2), [(m, true)]) /\
    st_relatorios depois = st_relatorios (StateManager.update_report (agora w) t st2).
Proof.
  intros Hfin antes. revert Hfin.
  assert (Hfalha : arquivo w = Some depois ->
            st_relatorios depois
            = st_relatorios (StateManager.load (arquivo w) (agora w))).
  { intros ->. reflexivity. }
  abre_main w; try (intros H; left; exact (Hfalha H)).
  unfold StateManager.save. destruct (grava w); [| intros H; left; exact (Hfalha H)].
  intros [= <-]. cbn [st_relatorios].
  destruct (alerta_geral_frame _ _ _ _ _ Hger) as (_ & -> & _).
  destruct (processar_zonas_inv _ _ _ _ _ _ _ Hproc) as (-> & -> & ->).
  destruct (enviar_criticos_frame _ _ _ _ _ Hcri) as (_ & _ & Hr2).
  destruct (atualizar_estados_frame (agora w)
              (estados_do_ciclo (agora w) leitura
                 (StateManager.load (arquivo w) (agora w)))
              (StateManager.load (arquivo w) (agora w))) as (_ & Hr1 & _).
  rewrite Hr1 in Hr2.
  destruct (relatorios_casos _ _ _ _ _ _ Hrel)
    as [[_ [[= ->] | [=]]] | (t & m & _ & Ht & Hs & Hlog & [= Hst])].
  - left. exact Hr2.
  - destruct (enviar_whatsapp w m) eqn:He; subst st3 log3.
    + right. exists leitura, st2, log2, t, m. repeat split; try assumption.
      rewrite !in_app_iff. right. right. left. left. reflexivity.
    + left. exact Hr2.
Qed.







(** ** The general alert *)

Lemma should_send_general_alert_ext agora st st' t u p :
  st_alerta_geral st = st_alerta_geral st' ->
  StateManager.should_send_general_alert agora st t u p
  = StateManager.should_send_general_alert agora st' t u p.
Proof. unfold StateManager.should_send_general_alert. intros ->. reflexivity. Qed.

(** The answer on a complete snapshot: the first cause that holds, in the
    order temperature, humidity, pressure, heartbeat. *)
Lemma should_send_general_alert_causas agora st t u p ut uu up :
  ultima_temp (st_alerta_geral st) = Some ut ->
  ultima_umid (st_alerta_geral st) = Some uu ->
  ultima_pressao (st_alerta_geral st) = Some up ->
  exists b m,
    StateManager.should_send_general_alert agora st t u p = Ok (b, m) /\
    (b = true <->
       desvio t ut (dec 5 10) \/ desvio u uu (of_Z 5) \/ desvio p up (of_Z 2) \/
       seis_horas agora (ultimo_envio (st_alerta_geral st))) /\
    (m = motivo_temp ut t <-> desvio t ut (dec 5 10)) /\
    (m = motivo_umid uu u <-> ~ desvio t ut (dec 5 10) /\ desvio u uu (of_Z 5)) /\
    (m = motivo_pressao up p <->
       ~ desvio t ut (dec 5 10) /\ ~ desvio u uu (of_Z 5) /\ desvio p up (of_Z 2)) /\
    ((exists h, m = motivo_periodica h) <->
       ~ desvio t ut (dec 5 10) /\ ~ desvio u uu (of_Z 5) /\ ~ desvio p up (of_Z 2) /\
       seis_horas agora (ultimo_envio (st_alerta_geral st))) /\
    (m = motivo_vazio <-> b = false).
Proof.
  intros Ht Hu Hp. unfold StateManager.should_send_general_alert, desvio, seis_horas.
  rewrite Ht, Hu, Hp.
  change Config.LIMITE_TEMP with (dec 5 10).
  change Config.LIMITE_UMIDADE with (of_Z 5).
  change Config.LIMITE_PRESSAO with (of_Z 2).
  destruct (ge (abs (sub t ut)) (dec 5 10)) eqn:Et;
    [| destruct (ge (abs (sub u uu)) (of_Z 5)) eqn:Eu;
       [| destruct (ge (abs (sub p up)) (of_Z 2)) eqn:Ep;
          [| destruct (ultimo_envio (st_alerta_geral st)) as [| ultimo |] eqn:Eenv;
             cbn [horas_desde];
             [| destruct (ge (div (StateManager.total_seconds agora ultimo) (of_Z 3600))
                           (of_Z 6)) eqn:Eh |]]]];
    eexists _, _; (split; [reflexivity |]);
    repeat split;
    repeat match goal with
      | |- _ -> _ => intro
      | H : _ /\ _ |- _ => destruct H
      | H : _ \/ _ |- _ => destruct H
      | H : exists _, _ |- _ => destruct H
      | H : ~ (true = true) |- _ => exfalso; apply H; reflexivity
      | H : Some _ = Some _ |- _ => injection H as <-
      end;
    try discriminate; try congruence; try reflexivity; auto.
  all: try (right; right; right; eexists; split; [reflexivity | assumption]).
  all: try (eexists; reflexivity).
  all: try (eexists; split; [reflexivity | assumption]).
  all: exfalso;
    match goal with
    | H : ge _ _ = true, H' : ge _ _ = false |- _ => exact (eq_true_false_abs _ H H')
    end.
Qed.

(** The snapshot in the file after a cycle that completed and wrote: the
    values of this reading when the general alert was due and went out
    with success, the snapshot the cycle loaded otherwise. *)
Lemma main_alerta_geral_final w leitura :
  WeatherDatabase.get_latest_reading (linha w) = Some leitura ->
  exit_code (main w) = 0%Z -> grava w = true ->
  exists depois,
    arquivo_final (main w) = Some depois /\
    ((In (msg_geral leitura, true) (enviadas (main w)) /\
      (exists motivo,
         StateManager.should_send_general_alert (agora w)
           (StateManager.load (arquivo w) (agora w))
           (tem_ins leitura) (umd_ins leitura) (pre_ins leitura) = Ok (true, motivo)) /\
      st_alerta_geral depois
      = {| ultima_temp := Some (tem_ins leitura);
           ultima_umid := Some (umd_ins leitura);
           ultima_pressao := Some (pre_ins leitura);
           ultimo_envio := JIso (agora w) |}) \/
     ((forall l, ~ In (msg_geral l, true) (enviadas (main w))) /\
      st_alerta_geral depois
      = st_alerta_geral (StateManager.load (arquivo w) (agora w)))).
Proof.
  intros Hl Hex Hg.
  destruct (main_sucesso w Hex)
    as (leitura' & ai & st2 & log2 & st3 & log3 & st4 & log4 &
        Hl' & Hcri & Hrel & Hger & Hfin & Henv).
  rewrite Hl in Hl'. injection Hl' as <-.
  unfold StateManager.save in Hfin. rewrite Hg in Hfin.
  eexists. split; [exact Hfin |]. cbn [st_alerta_geral].
  destruct (relatorios_frame _ _ _ _ _ _ Hrel) as (_ & Hg3 & _).
  destruct (enviar_criticos_frame _ _ _ _ _ Hcri) as (_ & Hg2 & _).
  destruct (atualizar_estados_frame (agora w)
              (estados_do_ciclo (agora w) leitura
                 (StateManager.load (arquivo w) (agora w)))
              (StateManager.load (arquivo w) (agora w))) as (Hg1 & _).
  assert (Hag : st_alerta_geral st3
                = st_alerta_geral (StateManager.load (arquivo w) (agora w)))
    by congruence.
  destruct (alerta_geral_casos _ _ _ _ _ Hger)
    as [(-> & (motivo & Hm) & ->) | (Hlog & ->)].
  - left. split; [| split].
    + rewrite Henv, !in_app_iff. right. right. right. left. reflexivity.
    + exists motivo. rewrite <- Hm. apply should_send_general_alert_ext.
      symmetry. exact Hag.
    + reflexivity.
  - right. split; [| exact Hag].
    intros l Hin. rewrite Henv, !in_app_iff in Hin.
    destruct Hin as [Hin | [Hin | [Hin | Hin]]].
    + apply enviar_inteligentes_especie in Hin. discriminate Hin.
    + apply (enviar_criticos_especie _ _ _ _ _ _
               (criticos_do_ciclo_tipo w leitura) Hcri) in Hin. discriminate Hin.
    + destruct (relatorios_casos _ _ _ _ _ _ Hrel)
        as [[-> _] | (t & m & _ & Ht & _ & -> & _)]; [destruct Hin |].
      destruct Hin as [[= -> _] | []].
      destruct Ht as [[_ Hm] | [_ Hm]]; discriminate Hm.
    + destruct Hlog as [-> | ->]; [destruct Hin |].
      destruct Hin as [Hin | []]. discriminate Hin.
Qed.

(** C6, as the code has it. The general alert is due: on a state with no
    snapshot (no stored temperature), as first reading; on a complete
    snapshot, exactly when the temperature moved by at least 0.5, or the
    humidity by at least 5, or the pressure by at least 2.0 against the
    stored values, or the stored dispatch time reads back and at least 6
    hours have elapsed since. One cause is reported, the first that holds
    in the order temperature, humidity, pressure, heartbeat. The stored
    values are those of the last alert dispatched with success: a cycle
    replaces them by its reading exactly when its alert went out, and
    keeps them otherwise. With the snapshot 24.0, 60, 1015 of midnight:
    24.4, 60, 1015 at 2:00 is not due; the same values as the snapshot are
    not due at 5:59:59.999999 and due, as heartbeat, at 6:00 and 6:01. *)
Theorem C6_alerta_geral_causas_e_instantaneo :
  (forall agora st t u p,
     ultima_temp (st_alerta_geral st) = None ->
     StateManager.should_send_general_alert agora st t u p
     = Ok (true, motivo_primeira_leitura)) /\
  (forall agora st t u p ut uu up,
     ultima_temp (st_alerta_geral st) = Some ut ->
     ultima_umid (st_alerta_geral st) = Some uu ->
     ultima_pressao (st_alerta_geral st) = Some up ->
     exists b m,
       StateManager.should_send_general_alert agora st t u p = Ok (b, m) /\
       (b = true <->
          desvio t ut (dec 5 10) \/ desvio u uu (of_Z 5) \/ desvio p up (of_Z 2) \/
          seis_horas agora (ultimo_envio (st_alerta_geral st))) /\
       (m = motivo_temp ut t <-> desvio t ut (dec 5 10)) /\
       (m = motivo_umid uu u <-> ~ desvio t ut (dec 5 10) /\ desvio u uu (of_Z 5)) /\
       (m = motivo_pressao up p <->
          ~ desvio t ut (dec 5 10) /\ ~ desvio u uu (of_Z 5) /\
          desvio p up (of_Z 2)) /\
       ((exists h, m = motivo_periodica h) <->
          ~ desvio t ut (dec 5 10) /\ ~ desvio u uu (of_Z 5) /\
          ~ desvio p up (of_Z 2) /\
          seis_horas agora (ultimo_envio (st_alerta_geral st))) /\
       (m = motivo_vazio <-> b = false)) /\
  (forall w leitura,
     WeatherDatabase.get_latest_reading (linha w) = Some leitura ->
     exit_code (main w) = 0%Z -> grava w = true ->
     exists depois,
       arquivo_final (main w) = Some depois /\
       ((In (msg_geral leitura, true) (enviadas (main w)) /\
         (exists motivo,
            StateManager.should_send_general_alert (agora w)
              (StateManager.load (arquivo w) (agora w))
              (tem_ins leitura) (umd_ins leitura) (pre_ins leitura)
            = Ok (true, motivo)) /\
         st_alerta_geral depois
         = {| ultima_temp := Some (tem_ins leitura);
              ultima_umid := Some (umd_ins leitura);
              ultima_pressao := Some (pre_ins leitura);
              ultimo_envio := JIso (agora w) |}) \/
        ((forall l, ~ In (msg_geral l, true) (enviadas (main w))) /\
         st_alerta_geral depois
         = st_alerta_geral (StateManager.load (arquivo w) (agora w))))) /\
  StateManager.should_send_general_alert as_2h estado_exemplo
    (dec 244 10) (of_Z 60) (of_Z 1015) = Ok (false, motivo_vazio) /\
  StateManager.should_send_general_alert as_5h59 estado_exemplo
    (of_Z 24) (of_Z 60) (of_Z 1015) = Ok (false, motivo_vazio) /\
  StateManager.should_send_general_alert as_6h estado_exemplo
    (of_Z 24) (of_Z 60) (of_Z 1015) = Ok (true, motivo_periodica (of_Z 6)) /\
  StateManager.should_send_general_alert as_6h01 estado_exemplo
    (of_Z 24) (of_Z 60) (of_Z 1015)
  = Ok (true, motivo_periodica (div (div (of_Z 21660000000) (of_Z 1000000))
                                  (of_Z 3600))).
Proof.
  split; [| split; [| split]].
  - intros agora st t u p H. unfold StateManager.should_send_general_alert.
    rewrite H. reflexivity.
  - exact should_send_general_alert_causas.
  - exact main_alerta_geral_final.
  - repeat split; vm_compute; reflexivity.
Qed.

(** Exactly 6 hours after the last dispatch, with the very values of the
    snapshot: there is a snapshot, nothing drifted, not more than 6 hours
    have elapsed, and yet the alert is due, as heartbeat. *)
Lemma C6_counterexample_seis_horas_exatas :
  ultima_temp (st_alerta_geral estado_exemplo) = Some (of_Z 24) /\
  ultimo_envio (st_alerta_geral estado_exemplo) = JIso meia_noite /\
  micros_entre as_6h meia_noite = (6 * 3600 * 1000000)%Z /\
  ge (abs (sub (of_Z 24) (of_Z 24))) (dec 5 10) = false /\
  ge (abs (sub (of_Z 60) (of_Z 60))) (of_Z 5) = false /\
  ge (abs (sub (of_Z 1015) (of_Z 1015))) (of_Z 2) = false /\
  StateManager.should_send_general_alert as_6h estado_exemplo
    (of_Z 24) (of_Z 60) (of_Z 1015) = Ok (true, motivo_periodica (of_Z 6)).
Proof. repeat split; vm_compute; reflexivity. Qed.

(** The general alert of the sample cycle at 6:05 goes out (the
    temperature moved from 24.0 to 23.5) and its values are stored. *)
Lemma C6_witness_instantaneo :
  exists depois,
    arquivo_final (main (mundo_exemplo linha_exemplo (sempre true) estado_exemplo))
    = Some depois /\
    ultima_temp (st_alerta_geral depois) = Some (dec 235 10).
Proof.
  destruct (proj1 (proj2 (proj2 C6_alerta_geral_causas_e_instantaneo))
              (mundo_exemplo linha_exemplo (sempre true) estado_exemplo)
              (default (Build_Leitura zero zero zero zero zero zero zero)
                 (WeatherDatabase.get_latest_reading (Some linha_exemplo)))
              eq_refl eq_refl eq_refl)
    as (depois & Hfin & [(_ & _ & Hsnap) | (Hnot & _)]).
  - exists depois. split; [exact Hfin |]. rewrite Hsnap. reflexivity.
  - exfalso. apply (Hnot (default (Build_Leitura zero zero zero zero zero zero zero)
                           (WeatherDatabase.get_latest_reading (Some linha_exemplo)))).
    vm_compute. right. right. left. reflexivity.
Defined.

(** ** What a cycle records of its dispatches *)

Lemma get_critical_state_ext st st' t :
  st_alertas_criticos st = st_alertas_criticos st' ->
  StateManager.get_critical_state st t = StateManager.get_critical_state st' t.
Proof. unfold StateManager.get_critical_state. intros ->. reflexivity. Qed.

(** Whatever the exit code, a critical alert that was dispatched came out
    of the loop over the critical kinds. *)
Lemma main_critico_enviado w d b :
  In (msg_critico d, b) (enviadas (main w)) ->
  exists leitura st2 log2,
    WeatherDatabase.get_latest_reading (linha w) = Some leitura /\
    enviar_criticos w (criticos_do_ciclo w leitura)
      (atualizar_estados (agora w)
         (estados_do_ciclo (agora w) leitura (StateManager.load (arquivo w) (agora w)))
         (StateManager.load (arquivo w) (agora w)))
    = (st2, log2) /\
    In (msg_critico d, b) log2.
Proof.
  abre_main w; try (intros []).
  all: destruct (processar_zonas_inv _ _ _ _ _ _ _ Hproc) as (Hea & Hac & Htr);
    subst ea ac tr;
    rewrite ?in_app_iff; intros Hin;
    assert (Hin2 : In (msg_critico d, b) log2);
    [ | exists leitura, st2, log2; repeat split; assumption ].
  all: repeat match goal with
         | H : _ \/ _ |- _ => destruct H as [H | H]
         end; try assumption; exfalso.
  all: try (apply enviar_inteligentes_especie in Hin; discriminate Hin).
  all: try (apply (alerta_geral_especie _ _ _ _ _ _ Hger) in Hin; discriminate Hin).
  all: destruct (relatorios_casos _ _ _ _ _ _ Hrel)
         as [[-> _] | (t & m & _ & Ht & _ & -> & _)]; [destruct Hin |];
       destruct Hin as [[= -> _] | []];
       destruct Ht as [[_ Hm] | [_ Hm]]; discriminate Hm.
Qed.

(** The critical flags in the file a cycle leaves: those it loaded, or
    those the loop over the critical kinds left. *)
Lemma main_criticos_final w depois :
  arquivo_final (main w) = Some depois ->
  st_alertas_criticos depois
  = st_alertas_criticos (StateManager.load (arquivo w) (agora w)) \/
  exists leitura st2 log2,
    WeatherDatabase.get_latest_reading (linha w) = Some leitura /\
    enviar_criticos w (criticos_do_ciclo w leitura)
      (atualizar_estados (agora w)
         (estados_do_ciclo (agora w) leitura (StateManager.load (arquivo w) (agora w)))
         (StateManager.load (arquivo w) (agora w)))
    = (st2, log2) /\
    st_alertas_criticos depois = st_alertas_criticos st2 /\
    (forall e, In e log2 -> In e (enviadas (main w))).
Proof.
  assert (Hfalha : arquivo w = Some depois ->
            st_alertas_criticos depois
            = st_alertas_criticos (StateManager.load (arquivo w) (agora w))).
  { intros ->. reflexivity. }
  abre_main w; try (intros H; left; exact (Hfalha H)).
  unfold StateManager.save. destruct (grava w); [| intros H; left; exact (Hfalha H)].
  intros [= <-]. cbn [st_alertas_criticos]. right.
  destruct (alerta_geral_frame _ _ _ _ _ Hger) as (_ & _ & ->).
  destruct (relatorios_frame _ _ _ _ _ _ Hrel) as (_ & _ & ->).
  destruct (processar_zonas_inv _ _ _ _ _ _ _ Hproc) as (-> & -> & _).
  exists leitura, st2, log2. repeat split; try assumption.
  intros e Hin. rewrite !in_app_iff. auto.
Qed.

Lemma enviar_criticos_inv w leitura st st2 log2 :
  enviar_criticos w (criticos_do_ciclo w leitura) st = (st2, log2) ->
  (forall t, StateManager.get_critical_state st2 t = true ->
     StateManager.get_critical_state st t = true \/
     exists d, tipo d = t /\ In (msg_critico d, true) log2) /\
  (forall d, In (msg_critico d, false) log2 ->
     StateManager.get_critical_state st2 (tipo d) = false /\
     StateManager.get_critical_state st (tipo d) = false).
Proof.
  intros H.
  destruct (fold_criticos_inv w _ _ (criticos_do_ciclo_tipo w leitura)
              tipos_criticos_NoDup _ _ _ _ H) as (Ha & _ & Hc & _ & _).
  split; [exact Ha |].
  intros d Hd. destruct (Hc d Hd) as [[] | (_ & H1 & H2)]. auto.
Qed.

Lemma main_flags_final w depois :
  arquivo_final (main w) = Some depois ->
  (forall t,
     StateManager.get_critical_state (StateManager.load (arquivo w) (agora w)) t = false ->
     StateManager.get_critical_state depois t = true ->
     exists d, tipo d = t /\ In (msg_critico d, true) (enviadas (main w))) /\
  (forall d, In (msg_critico d, false) (enviadas (main w)) ->
     StateManager.get_critical_state depois (tipo d) = false).
Proof.
  intros Hfin.
  assert (Hantes : forall ea t,
            StateManager.get_critical_state
              (atualizar_estados (agora w) ea (StateManager.load (arquivo w) (agora w))) t
            = StateManager.get_critical_state
                (StateManager.load (arquivo w) (agora w)) t).
  { intros ea t. apply get_critical_state_ext.
    apply (atualizar_estados_frame (agora w) ea). }
  split.
  - intros t H0 H1.
    destruct (main_criticos_final w depois Hfin)
      as [Heq | (leitura & st2 & log2 & _ & Hcri & Heq & Hlog)].
    + rewrite (get_critical_state_ext _ _ t Heq) in H1. congruence.
    + rewrite (get_critical_state_ext _ _ t Heq) in H1.
      destruct (proj1 (enviar_criticos_inv _ _ _ _ _ Hcri) t H1)
        as [Hold | (d & Ht & Hin)].
      * rewrite Hantes in Hold. congruence.
      * exists d. split; [exact Ht |]. apply Hlog. exact Hin.
  - intros d Hin.
    destruct (main_critico_enviado w d false Hin)
      as (leitura & st2 & log2 & Hl & Hcri & Hin2).
    destruct (proj2 (enviar_criticos_inv _ _ _ _ _ Hcri) d Hin2) as [H2 H0].
    rewrite Hantes in H0.
    destruct (main_criticos_final w depois Hfin)
      as [Heq | (leitura' & st2' & log2' & Hl' & Hcri' & Heq & _)].
    + rewrite (get_critical_state_ext _ _ _ Heq). exact H0.
    + rewrite Hl in Hl'. injection Hl' as <-.
      rewrite Hcri in Hcri'. injection Hcri' as <- <-.
      rewrite (get_critical_state_ext _ _ _ Heq). exact H2.
Qed.

(** ** The dispatch outcomes and the rest of the cycle *)

Lemma relatorios_raise_indep f w leitura tr stA stB :
  st_relatorios stA = st_relatorios stB ->
  (fst (relatorios w leitura tr stA) = Raise <->
   fst (relatorios (com_envio f w) leitura tr stB) = Raise).
Proof.
  intros H. unfold relatorios, relatorio, StateManager.should_send_report.
  cbn [com_envio agora leitura_1h resumo_noite resumo_dia enviar_whatsapp].
  rewrite H.
  destruct tr as [t|]; [| split; discriminate].
  destruct (String.eqb t "bom_dia"); [| destruct (String.eqb t "boa_noite")];
    cbn [String.eqb Ascii.eqb Bool.eqb];
    repeat match goal with
      | |- context [match ?o with Some _ => _ | None => _ end] => destruct o
      | |- context [match ?o with Ok _ => _ | Raise => _ end] => destruct o
      | |- context [if ?b then _ else _] => destruct b
      end;
    split; intros; try discriminate; reflexivity.
Qed.

Lemma alerta_geral_raise_indep f w leitura stA stB :
  st_alerta_geral stA = st_alerta_geral stB ->
  (fst (alerta_geral w leitura stA) = Raise <->
   fst (alerta_geral (com_envio f w) leitura stB) = Raise).
Proof.
  intros H. unfold alerta_geral.
  cbn [com_envio agora leitura_3h enviar_whatsapp].
  rewrite (should_send_general_alert_ext _ stA stB _ _ _ H).
  destruct (StateManager.should_send_general_alert _ _ _ _ _) as [[[] m]|];
    [| split; discriminate | split; reflexivity].
  destruct (leitura_3h w) as [[? [?|] ? ?]|];
    repeat match goal with
      | |- context [if ?b then _ else _] => destruct b
      end;
    split; intros; try discriminate; reflexivity.
Qed.

(** The exit code of a cycle does not depend on the dispatch outcomes,
    and neither do the zone entries it writes. *)
Lemma main_com_envio f w :
  exit_code (main (com_envio f w)) = exit_code (main w) /\
  (forall depois depois',
     exit_code (main w) = 0%Z -> grava w = true ->
     arquivo_final (main w) = Some depois ->
     arquivo_final (main (com_envio f w)) = Some depois' ->
     st_zonas depois' = st_zonas depois).
Proof.
  abre_main w.
  all: unfold main; cbn [com_envio conecta linha agora arquivo grava];
    rewrite ?Hcon, ?Hlei; cbn [negb].
  all: try (split; [reflexivity | discriminate]).
  all: change (processar_zonas (com_envio f w) leitura
                 (StateManager.load (arquivo w) (agora w)))
         with (processar_zonas w leitura (StateManager.load (arquivo w) (agora w)));
    rewrite Hproc.
  all: try (split; [reflexivity | discriminate]).
  all: destruct (enviar_criticos (com_envio f w) ac
                   (atualizar_estados (agora w) ea
                      (StateManager.load (arquivo w) (agora w))))
         as [st2' log2'] eqn:Hcri';
    destruct (enviar_criticos_frame _ _ _ _ _ Hcri) as (Hz2 & Hg2 & Hr2);
    destruct (enviar_criticos_frame _ _ _ _ _ Hcri') as (Hz2' & Hg2' & Hr2');
    assert (Hrr : st_relatorios st2 = st_relatorios st2') by congruence;
    pose proof (relatorios_raise_indep f w leitura tr st2 st2' Hrr) as Hir;
    rewrite Hrel in Hir; cbn [fst] in Hir;
    destruct (relatorios (com_envio f w) leitura tr st2') as [[st3'|] log3'] eqn:Hrel';
    cbn [fst] in Hir.
  all: try (exfalso; destruct Hir as [Hir1 Hir2];
            first [ discriminate (Hir1 eq_refl) | discriminate (Hir2 eq_refl) ]).
  all: try (cbn [falha exit_code]; split; [reflexivity | discriminate]).
  all: destruct (relatorios_frame _ _ _ _ _ _ Hrel) as (Hz3 & Hg3 & _);
    destruct (relatorios_frame _ _ _ _ _ _ Hrel') as (Hz3' & Hg3' & _);
    assert (Hgg : st_alerta_geral st3 = st_alerta_geral st3') by congruence;
    pose proof (alerta_geral_raise_indep f w leitura st3 st3' Hgg) as Hig;
    rewrite Hger in Hig; cbn [fst] in Hig;
    destruct (alerta_geral (com_envio f w) leitura st3') as [[st4'|] log4'] eqn:Hger';
    cbn [fst] in Hig.
  all: try (exfalso; destruct Hig as [Hig1 Hig2];
            first [ discriminate (Hig1 eq_refl) | discriminate (Hig2 eq_refl) ]).
  all: cbn [falha exit_code arquivo_final com_envio arquivo];
    split; try reflexivity; try discriminate.
  intros depois depois' _ Hgr. unfold StateManager.save. rewrite Hgr.
  intros [= <-] [= <-]. cbn [st_zonas].
  destruct (alerta_geral_frame _ _ _ _ _ Hger) as (-> & _ & _).
  destruct (alerta_geral_frame _ _ _ _ _ Hger') as (-> & _ & _).
  congruence.
Qed.

(** C8, as the code has it. In the state a cycle persists: a critical flag
    that was inactive and is now active had its alert dispatched with
    success, and an alert whose dispatch failed leaves its flag inactive;
    the zone entries do not depend on the dispatch outcomes (nor does the
    exit code); and a report is recorded only when its dispatch succeeded:
    report dates that changed had a report dispatched with success, and a
    report whose dispatch failed leaves them as they were. *)
Theorem C8_o_que_depende_do_envio (w : Mundo) (depois : States) :
  arquivo_final (main w) = Some depois ->
  let antes := StateManager.load (arquivo w) (agora w) in
  (forall t,
     StateManager.get_critical_state antes t = false ->
     StateManager.get_critical_state depois t = true ->
     exists d, tipo d = t /\ In (msg_critico d, true) (enviadas (main w))) /\
  (forall d, In (msg_critico d, false) (enviadas (main w)) ->
     StateManager.get_critical_state depois (tipo d) = false) /\
  (forall f,
     exit_code (main (com_envio f w)) = exit_code (main w) /\
     forall depois',
       exit_code (main w) = 0%Z -> grava w = true ->
       arquivo_final (main (com_envio f w)) = Some depois' ->
       st_zonas depois' = st_zonas depois) /\
  (st_relatorios depois <> st_relatorios antes ->
     exists m, (especie m = e_bom_dia \/ especie m = e_boa_noite) /\
               In (m, true) (enviadas (main w))) /\
  (forall m, especie m = e_bom_dia \/ especie m = e_boa_noite ->
     In (m, false) (enviadas (main w)) ->
     st_relatorios depois = st_relatorios antes).
Proof.
  intros Hfin antes.
  destruct (main_flags_final w depois Hfin) as [Ha Hb].
  split; [exact Ha |]. split; [exact Hb |]. split; [| split].
  - intros f. destruct (main_com_envio f w) as [He Hz]. split; [exact He |].
    intros depois' Hex Hg Hfin'. exact (Hz depois depois' Hex Hg Hfin Hfin').
  - intros Hne.
    destruct (main_relatorios_final w depois Hfin)
      as [Heq | (_ & _ & _ & t & m & _ & _ & _ & _ & Ht & Hin & _ & _)];
      [contradiction |].
    exists m. split; [| exact Hin].
    destruct Ht as [[_ Hm] | [_ Hm]]; auto.
  - intros m Hesp Hin.
    destruct (main_relatorios_final w depois Hfin)
      as [Heq | (leitura & st2 & log2 & t & m' & Hl & Hcri & _ & _ & _ & _ & Hrel & _)];
      [exact Heq |].
    exfalso.
    destruct (main_relatorio_enviado w m false Hin Hesp)
      as (leitura' & st2' & log2' & r & log3 & Hl' & Hcri' & _ & Hrel' & Hin3).
    rewrite Hl in Hl'. injection Hl' as <-.
    cbv zeta in Hcri, Hcri'. rewrite Hcri in Hcri'. injection Hcri' as <- <-.
    rewrite Hrel in Hrel'. injection Hrel' as <- <-.
    destruct Hin3 as [Hin3 | []]. discriminate Hin3.
Qed.

(** At 6:05 the sunrise report is due and every dispatch fails: the report
    was attempted and the file records none, where the claim has it
    recorded regardless; with every dispatch succeeding the same cycle
    records it. *)
Lemma C8_counterexample_relatorio_nao_gravado :
  In (msg_bom_dia resumo_exemplo
        (default (Build_Leitura zero zero zero zero zero zero zero)
           (WeatherDatabase.get_latest_reading (Some linha_exemplo))), false)
     (enviadas (main (mundo_exemplo linha_exemplo (sempre false) estado_exemplo))) /\
  exit_code (main (mundo_exemplo linha_exemplo (sempre false) estado_exemplo)) = 0%Z /\
  st_relatorios <$>
    arquivo_final (main (mundo_exemplo linha_exemplo (sempre false) estado_exemplo))
  = Some {| ultimo_bom_dia := JNull; ultimo_boa_noite := JNull |} /\
  st_relatorios <$>
    arquivo_final (main (mundo_exemplo linha_exemplo (sempre true) estado_exemplo))
  = Some {| ultimo_bom_dia := JIso as_6h05; ultimo_boa_noite := JNull |}.
Proof.
  split; [vm_compute; right; left; reflexivity |].
  repeat split; vm_compute; reflexivity.
Qed.

(** The same failing cycle: the radiation entry is rewritten although the
    alert of that zone change did not go out, and the report dates are
    those loaded. *)
Lemma C8_witness_envio_falho :
  exists depois,
    arquivo_final (main (mundo_exemplo linha_exemplo (sempre false) estado_exemplo))
    = Some depois /\
    st_zonas depois !! "radiacao" = Some (zona_gravada as_6h05 "CREPUSCULO" (of_Z 30)) /\
    st_relatorios depois = st_relatorios estado_exemplo.
Proof.
  eexists. split; [vm_compute; reflexivity |].
  split; [vm_compute; reflexivity |].
  refine (proj2 (proj2 (proj2 (proj2
            (C8_o_que_depende_do_envio
               (mundo_exemplo linha_exemplo (sempre false) estado_exemplo) _ _))))
            (msg_bom_dia resumo_exemplo
               (default (Build_Leitura zero zero zero zero zero zero zero)
                  (WeatherDatabase.get_latest_reading (Some linha_exemplo))))
            (or_introl eq_refl) _).
  - vm_compute. reflexivity.
  - vm_compute. right. left. reflexivity.
Defined.

(** ** Missing fields and missing readings *)

(** C9, as the code has it. A NULL column of the newest row is read as 0.0
    and its domain is evaluated on that value: the blocks of all six
    domains and all six critical evaluators run on every reading, none is
    skipped, and a cycle that completes writes for each domain what its
    detector found. With no newest row, or no database connection, the
    cycle stops with exit code 1, dispatches nothing and leaves the state
    file as it was; every cycle that ends with exit code 1 leaves the
    state file as it was. *)
Theorem C9_campos_nulos_e_leitura_ausente (w : Mundo) :
  (linha w = None ->
   main w = {| exit_code := 1; arquivo_final := arquivo w; enviadas := [] |}) /\
  (conecta w = false ->
   main w = {| exit_code := 1; arquivo_final := arquivo w; enviadas := [] |}) /\
  (exit_code (main w) = 1%Z -> arquivo_final (main w) = arquivo w) /\
  (forall r, linha w = Some r ->
     WeatherDatabase.get_latest_reading (linha w)
     = Some {| tem_ins := default zero (raw_tem_ins r);
               umd_ins := default zero (raw_umd_ins r);
               pre_ins := default zero (raw_pre_ins r);
               ven_vel := default zero (raw_ven_vel r);
               ven_raj := default zero (raw_ven_raj r);
               chuva := default zero (raw_chuva r);
               rad_glo := default zero (raw_rad_glo r) |}) /\
  (forall leitura st ai ac ea tr,
     processar_zonas w leitura st = Ok (ai, ac, ea, tr) ->
     ea = estados_do_ciclo (agora w) leitura st /\
     ac = criticos_do_ciclo w leitura) /\
  (forall leitura,
     WeatherDatabase.get_latest_reading (linha w) = Some leitura ->
     exit_code (main w) = 0%Z -> grava w = true ->
     exists depois,
       arquivo_final (main w) = Some depois /\
       forall d, d ∈ dominios_do_sistema ->
         st_zonas depois !! dom_nome d
         = match dom_detectar d (agora w) (valor_lido leitura (dom_nome d))
                   (StateManager.get_zone_state
                      (StateManager.load (arquivo w) (agora w)) (dom_nome d)) with
           | Some m => Some (zona_gravada (agora w) (zona_atual_de m)
                               (valor_lido leitura (dom_nome d)))
           | None => st_zonas (StateManager.load (arquivo w) (agora w)) !! dom_nome d
           end).
Proof.
  split; [| split; [| split; [| split; [| split]]]].
  - intros H. unfold main. rewrite H. cbn [WeatherDatabase.get_latest_reading].
    destruct (conecta w); reflexivity.
  - intros H. unfold main. rewrite H. reflexivity.
  - exact (proj2 (main_falha_nao_grava w)).
  - intros r ->. reflexivity.
  - intros leitura st ai ac ea tr H.
    destruct (processar_zonas_inv _ _ _ _ _ _ _ H) as (-> & -> & _). split; reflexivity.
  - intros leitura Hl Hex Hg.
    destruct (main_zonas w Hex Hg) as (l' & depois & Hl' & Hfin & Hz).
    rewrite Hl in Hl'. injection Hl' as <-.
    exists depois. split; [exact Hfin | exact Hz].
Qed.

(** The newest row has a NULL temperature. The claim has the temperature
    skipped; the cycle evaluates it on 0.0: it dispatches the cold alert
    for 0.0 degrees and rewrites the temperature entry to FRIO at 0.0. *)
Lemma C9_counterexample_temperatura_nula :
  raw_tem_ins linha_sem_temperatura = None /\
  exit_code (main (mundo_exemplo linha_sem_temperatura (sempre true) estado_exemplo))
  = 0%Z /\
  In (msg_critico (frio_extremo zero (of_Z 18)), true)
     (enviadas (main (mundo_exemplo linha_sem_temperatura (sempre true)
                        estado_exemplo))) /\
  (fun s : States => st_zonas s !! "temperatura") <$>
    arquivo_final (main (mundo_exemplo linha_sem_temperatura (sempre true)
                           estado_exemplo))
  = Some (Some (zona_gravada as_6h05 "FRIO" zero)).
Proof.
  split; [reflexivity |]. split; [vm_compute; reflexivity |].
  split; [vm_compute; right; right; left; reflexivity |].
  vm_compute. reflexivity.
Qed.

(** With no row the cycle stops at once; with the NULL temperature it
    completes, and the temperature entry is what the detector found on
    0.0. *)
Lemma C9_witness_sem_leitura :
  main mundo_sem_leitura
  = {| exit_code := 1; arquivo_final := Some estado_exemplo; enviadas := [] |} /\
  exists depois,
    arquivo_final (main (mundo_exemplo linha_sem_temperatura (sempre true)
                           estado_exemplo)) = Some depois /\
    st_zonas depois !! "temperatura" = Some (zona_gravada as_6h05 "FRIO" zero).
Proof.
  split.
  - exact (proj1 (C9_campos_nulos_e_leitura_ausente mundo_sem_leitura) eq_refl).
  - destruct (proj2 (proj2 (proj2 (proj2 (proj2
                (C9_campos_nulos_e_leitura_ausente
                   (mundo_exemplo linha_sem_temperatura (sempre true) estado_exemplo))))))
                (default (Build_Leitura zero zero zero zero zero zero zero)
                   (WeatherDatabase.get_latest_reading (Some linha_sem_temperatura)))
                eq_refl eq_refl eq_refl) as (depois & Hfin & Hz).
    exists depois. split; [exact Hfin |].
    exact (Hz dom_temperatura (list_elem_of_here _ _)).
Defined.

(** * Further properties of the code *)

(** ** More on the order of floats *)

Lemma lt_nao_nan x y : lt x y = true -> is_nan x = false /\ is_nan y = false.
Proof.
  unfold lt, SFltb. destruct x as [| | |[] ? ?], y as [| | |[] ? ?];
    cbn; try discriminate; auto.
Qed.

Lemma le_nao_nan x y : le x y = true -> is_nan x = false /\ is_nan y = false.
Proof.
  unfold le, SFleb. destruct x as [| | |[] ? ?], y as [| | |[] ? ?];
    cbn; try discriminate; auto.
Qed.

Lemma lt_le x y : lt x y = true -> le x y = true.
Proof.
  unfold lt, le, SFltb, SFleb. destruct (SFcompare x y) as [[]|]; congruence.
Qed.

Lemma lt_le_false x y : lt x y = true -> le y x = false.
Proof.
  intros H. destruct (lt_nao_nan _ _ H) as [Hx Hy].
  apply (lt_lexlt x y Hx Hy) in H. apply (le_false_lexle y x Hy Hx).
  destruct (key x) as [[a b] c], (key y) as [[a' b'] c'];
    unfold lexlt, lexle in *. lia.
Qed.

Lemma le_lt_false x y : le x y = true -> lt y x = false.
Proof.
  intros H. destruct (le_nao_nan _ _ H) as [Hx Hy].
  apply (le_lexle x y Hx Hy) in H. apply (lt_false_lexlt y x Hy Hx).
  destruct (key x) as [[a b] c], (key y) as [[a' b'] c'];
    unfold lexlt, lexle in *. lia.
Qed.

(** Among floats that are no NaN the order is total. *)
Lemma lt_false_le x y :
  is_nan x = false -> is_nan y = false -> lt x y = false -> le y x = true.
Proof.
  intros Hx Hy H. apply (lt_false_lexlt x y Hx Hy) in H. apply (le_lexle y x Hy Hx).
  destruct (key x) as [[a b] c], (key y) as [[a' b'] c'];
    unfold lexlt, lexle in *. lia.
Qed.

Lemma le_trans x y z : le x y = true -> le y z = true -> le x z = true.
Proof.
  intros H1 H2. destruct (le_nao_nan _ _ H1) as [Hx Hy].
  destruct (le_nao_nan _ _ H2) as [_ Hz].
  apply (le_lexle x y Hx Hy) in H1. apply (le_lexle y z Hy Hz) in H2.
  apply (le_lexle x z Hx Hz).
  destruct (key x) as [[a b] c], (key y) as [[a' b'] c'], (key z) as [[a'' b''] c''];
    unfold lexle in *. lia.
Qed.

Lemma lt_le_trans x y z : lt x y = true -> le y z = true -> lt x z = true.
Proof.
  intros H1 H2. destruct (lt_nao_nan _ _ H1) as [Hx Hy].
  destruct (le_nao_nan _ _ H2) as [_ Hz].
  apply (lt_lexlt x y Hx Hy) in H1. apply (le_lexle y z Hy Hz) in H2.
  apply (lt_lexlt x z Hx Hz).
  destruct (key x) as [[a b] c], (key y) as [[a' b'] c'], (key z) as [[a'' b''] c''];
    unfold lexlt, lexle in *. lia.
Qed.

Lemma le_lt_trans x y z : le x y = true -> lt y z = true -> lt x z = true.
Proof.
  intros H1 H2. destruct (le_nao_nan _ _ H1) as [Hx Hy].
  destruct (lt_nao_nan _ _ H2) as [_ Hz].
  apply (le_lexle x y Hx Hy) in H1. apply (lt_lexlt y z Hy Hz) in H2.
  apply (lt_lexlt x z Hx Hz).
  destruct (key x) as [[a b] c], (key y) as [[a' b'] c'], (key z) as [[a'' b''] c''];
    unfold lexlt, lexle in *. lia.
Qed.

Lemma lt_negb_le x y :
  is_nan x = false -> is_nan y = false -> lt x y = negb (le y x).
Proof.
  intros Hx Hy. destruct (lt x y) eqn:E.
  - rewrite (lt_le_false _ _ E). reflexivity.
  - rewrite (lt_false_le _ _ Hx Hy E). reflexivity.
Qed.

Lemma finito_nao_nan x : finito x = true -> is_nan x = false.
Proof. destruct x; cbn; congruence. Qed.

(** ** The critical alerts and the zones *)

(** X1. Each critical alert with an absolute threshold is raised only inside
    the extreme zone of its domain: heat only in EXTREMO, cold only in
    FRIO, dry air only in MUITO_SECA, low pressure only in MUITO_BAIXA. *)
Theorem X1_critico_so_na_zona_extrema (t u p d : float) (la : option LeituraAnterior) :
  (emite (ZonaTemperatura.verificar_critico t la) "calor_extremo" = true ->
   ZonaTemperatura.classificar t = "EXTREMO") /\
  (emite (ZonaTemperatura.verificar_critico t la) "frio_extremo" = true ->
   ZonaTemperatura.classificar t = "FRIO") /\
  (emite (ZonaUmidade.verificar_critico u) "ar_muito_seco" = true ->
   ZonaUmidade.classificar u = "MUITO_SECA") /\
  (emite (ZonaPressao.verificar_critico p d) "pressao_muito_baixa" = true ->
   ZonaPressao.classificar p = "MUITO_BAIXA").
Proof.
  repeat split.
  - intros H. apply (calor_frio_sem_leitura_anterior t la) in H.
    apply (classificar_temperatura_tabela t). left. apply lt_le. exact H.
  - intros H. apply (calor_frio_sem_leitura_anterior t la) in H.
    apply (classificar_temperatura_tabela t).
    apply (lt_le_trans _ _ _ H). reflexivity.
  - unfold ZonaUmidade.verificar_critico. rewrite emite_ou_None.
    destruct (lt u (of_Z 20)) eqn:E; cbn; [intros _ | discriminate].
    apply (classificar_umidade_tabela u).
    apply (lt_le_trans _ _ _ E). reflexivity.
  - unfold ZonaPressao.verificar_critico. rewrite emite_ou_None.
    destruct (lt d (SFopp (of_Z 5))); [cbn; discriminate |].
    destruct (lt p (of_Z 1005)) eqn:E; cbn; [intros _ | discriminate].
    apply (classificar_pressao_tabela p). exact E.
Qed.

Lemma X1_witness_zonas_extremas :
  ZonaTemperatura.classificar (of_Z 35) = "EXTREMO" /\
  ZonaTemperatura.classificar (of_Z 10) = "FRIO" /\
  ZonaUmidade.classificar (of_Z 15) = "MUITO_SECA" /\
  ZonaPressao.classificar (of_Z 1000) = "MUITO_BAIXA".
Proof.
  split; [| split; [| split]].
  - exact (proj1 (X1_critico_so_na_zona_extrema (of_Z 35) (of_Z 15) (of_Z 1000) zero None)
             eq_refl).
  - exact (proj1 (proj2
             (X1_critico_so_na_zona_extrema (of_Z 10) (of_Z 15) (of_Z 1000) zero None))
             eq_refl).
  - exact (proj1 (proj2 (proj2
             (X1_critico_so_na_zona_extrema (of_Z 35) (of_Z 15) (of_Z 1000) zero None)))
             eq_refl).
  - exact (proj2 (proj2 (proj2
             (X1_critico_so_na_zona_extrema (of_Z 35) (of_Z 15) (of_Z 1000) zero None)))
             eq_refl).
Defined.

(** X2. For a finite reading the UV alert is raised exactly in the zone
    EXTREMA of the radiation, and the heavy-rain alert exactly in the zone
    MUITO_FORTE of the rain, whatever the 24-hour total. *)
Theorem X2_uv_e_chuva_intensa_na_zona_maxima (x acumulado : float) :
  finito x = true ->
  (emite (ZonaRadiacao.verificar_critico x) "uv_extremo" = true
   <-> ZonaRadiacao.classificar x = "EXTREMA") /\
  (emite (ZonaChuva.verificar_critico x acumulado) "chuva_intensa" = true
   <-> ZonaChuva.classificar x = "MUITO_FORTE").
Proof.
  intros Hf. apply finito_nao_nan in Hf. split.
  - unfold ZonaRadiacao.verificar_critico. rewrite emite_ou_None.
    change (ge x Config.RAD_LIMITS_EXTREMA) with (le (of_Z 3000) x).
    destruct (classificar_radiacao_tabela x) as (_ & _ & _ & _ & _ & _ & Ht).
    rewrite Ht, Hf. destruct (le (of_Z 3000) x); cbn; split; auto;
      try discriminate; intros [H | H]; discriminate H.
  - unfold ZonaChuva.verificar_critico. rewrite emite_ou_None.
    change (ge x Config.CHUVA_LIMITS_MUITO_FORTE) with (le (of_Z 50) x).
    destruct (classificar_chuva_tabela x) as (_ & _ & _ & _ & _ & Ht).
    rewrite Ht, Hf.
    destruct (le (of_Z 50) x), (gt acumulado Config.CHUVA_ACUMULADA_ALERTA);
      cbn; split; auto; try discriminate; intros H; destruct H as [H | H];
      discriminate H.
Qed.

Lemma X2_witness_leitura_3200 :
  ZonaRadiacao.classificar (of_Z 3200) = "EXTREMA" /\
  ZonaChuva.classificar (of_Z 3200) = "MUITO_FORTE".
Proof.
  destruct (X2_uv_e_chuva_intensa_na_zona_maxima (of_Z 3200) zero eq_refl) as [H1 H2].
  split; [apply H1 | apply H2]; reflexivity.
Defined.

(** X3. The gust alert is raised exactly above 15 m/s (the truthiness guard
    on the gust changes nothing), reports the sustained wind and the gust
    as read, and its Beaufort label, computed from the gust, is always
    VENTANIA. *)
Theorem X3_vento_forte_so_pela_rajada (vento rajada : float) :
  ZonaVento.verificar_critico vento rajada
  = if gt rajada (of_Z 15) then Some [vento_forte vento rajada "VENTANIA"] else None.
Proof.
  unfold ZonaVento.verificar_critico.
  change ZonaVento.LIMITE_RAJADA_CRITICA with (of_Z 15).
  destruct (gt rajada (of_Z 15)) eqn:E.
  - assert (Ht : truthy rajada = true).
    { destruct rajada as [[]| | |]; try reflexivity; discriminate E. }
    rewrite Ht. cbn [andb app ou_None].
    assert (Hz : ZonaVento.classificar rajada = "VENTANIA").
    { apply (classificar_vento_tabela rajada). left.
      apply (le_trans _ (of_Z 15)); [reflexivity | apply lt_le; exact E]. }
    rewrite Hz. reflexivity.
  - rewrite andb_false_r. reflexivity.
Qed.

(** X4. The heat and the cold alert are never raised on the same reading, and
    neither are the two rain alerts. *)
Theorem X4_criticos_que_se_excluem (t c acumulado : float)
    (la : option LeituraAnterior) :
  emite (ZonaTemperatura.verificar_critico t la) "calor_extremo" &&
  emite (ZonaTemperatura.verificar_critico t la) "frio_extremo" = false /\
  emite (ZonaChuva.verificar_critico c acumulado) "chuva_intensa" &&
  emite (ZonaChuva.verificar_critico c acumulado) "chuva_acumulada" = false.
Proof.
  split.
  - destruct (calor_frio_sem_leitura_anterior t la) as [Hc Hf].
    destruct (emite _ "calor_extremo") eqn:Ec; [| reflexivity].
    destruct (emite _ "frio_extremo") eqn:Ef; [| reflexivity].
    exfalso. pose proof (proj1 Hc eq_refl) as H1. pose proof (proj1 Hf eq_refl) as H2.
    assert (H3 : lt (of_Z 33) (of_Z 18) = true).
    { unfold gt in H1. apply (lt_le_trans _ t); [exact H1 | apply lt_le; exact H2]. }
    discriminate H3.
  - unfold ZonaChuva.verificar_critico. rewrite !emite_ou_None.
    destruct (ge c Config.CHUVA_LIMITS_MUITO_FORTE); [reflexivity |].
    destruct (gt acumulado Config.CHUVA_ACUMULADA_ALERTA); reflexivity.
Qed.

(** ** Sunrise, sunset and the report gate *)

Lemma noite_le x : ZonaRadiacao.classificar x = "NOITE" <-> le x zero = true.
Proof. exact (proj1 (classificar_radiacao_tabela x)). Qed.

(** X5. The transition detector, read on the zones: between two readings
    that are no NaN it answers ['bom_dia'] exactly when the radiation
    left the zone NOITE, ['boa_noite'] exactly when it entered it, and
    nothing when both readings lie on the same side. *)
Theorem X5_transicao_e_cruzar_a_zona_noite (rad_atual rad_anterior : float) :
  is_nan rad_atual = false -> is_nan rad_anterior = false ->
  (ZonaRadiacao.detectar_transicao rad_atual (Some rad_anterior) = Some "bom_dia"
   <-> ZonaRadiacao.classificar rad_anterior = "NOITE" /\
       ZonaRadiacao.classificar rad_atual <> "NOITE") /\
  (ZonaRadiacao.detectar_transicao rad_atual (Some rad_anterior) = Some "boa_noite"
   <-> ZonaRadiacao.classificar rad_anterior <> "NOITE" /\
       ZonaRadiacao.classificar rad_atual = "NOITE") /\
  (ZonaRadiacao.detectar_transicao rad_atual (Some rad_anterior) = None
   <-> (ZonaRadiacao.classificar rad_anterior = "NOITE"
        <-> ZonaRadiacao.classificar rad_atual = "NOITE")).
Proof.
  intros Ha Hp. unfold ZonaRadiacao.detectar_transicao.
  change (gt rad_atual zero) with (lt zero rad_atual).
  change (gt rad_anterior zero) with (lt zero rad_anterior).
  rewrite (lt_negb_le zero rad_atual), (lt_negb_le zero rad_anterior)
    by (assumption || reflexivity).
  rewrite !noite_le.
  destruct (le rad_anterior zero), (le rad_atual zero); cbn;
    repeat split; intros; try discriminate; try congruence; try tauto;
    intuition congruence.
Qed.

Lemma X5_witness_nascer_do_sol :
  ZonaRadiacao.detectar_transicao (of_Z 30) (Some (SFopp (of_Z 5))) = Some "bom_dia".
Proof.
  apply (X5_transicao_e_cruzar_a_zona_noite (of_Z 30) (SFopp (of_Z 5)) eq_refl eq_refl).
  split; [reflexivity | discriminate].
Defined.

Lemma transicao_tipos rad ra t :
  ZonaRadiacao.detectar_transicao rad ra = Some t -> t = "bom_dia" \/ t = "boa_noite".
Proof.
  unfold ZonaRadiacao.detectar_transicao. destruct ra as [r|]; [| discriminate].
  destruct (le r zero && gt rad zero); [intros [= <-]; auto |].
  destruct (gt r zero && le rad zero); [intros [= <-]; auto | discriminate].
Qed.

(** What [should_send_report] answers: the transition of its kind and the
    once-a-day gate. *)
Lemma should_send_report_transicao agora st tipo rad ra :
  StateManager.should_send_report agora st tipo rad ra = true <->
  ZonaRadiacao.detectar_transicao rad ra = Some tipo /\
  StateManager.ainda_nao_enviou_hoje agora (ultimo_relatorio st tipo) = true.
Proof.
  unfold StateManager.should_send_report, ultimo_relatorio.
  destruct (String.eqb_spec tipo "bom_dia") as [-> | Hm].
  - cbn [String.eqb Ascii.eqb Bool.eqb]. unfold ZonaRadiacao.detectar_transicao.
    destruct ra as [r|]; [| split; [discriminate | intros [? _]; discriminate]].
    destruct (le r zero && gt rad zero); [split; auto; intros [_ ?]; assumption |].
    split; [discriminate |].
    destruct (gt r zero && le rad zero); intros [? _]; discriminate.
  - destruct (String.eqb_spec tipo "boa_noite") as [-> | Hn].
    + unfold ZonaRadiacao.detectar_transicao.
      destruct ra as [r|]; [| split; [discriminate | intros [? _]; discriminate]].
      destruct (gt r zero) eqn:Eg; cbn [andb].
      * rewrite (lt_le_false _ _ Eg). cbn [andb].
        destruct (le rad zero); [split; auto; intros [_ ?]; assumption |].
        split; [discriminate | intros [? _]; discriminate].
      * split; [discriminate |].
        destruct (le r zero && gt rad zero); intros [? _]; discriminate.
    + split; [discriminate |]. intros [H _].
      destruct (transicao_tipos _ _ _ H); contradiction.
Qed.

(** X6. A report is due exactly on the transition of its kind with no report
    of that kind recorded today. Once [update_report] has recorded one,
    the same kind is due again only on a transition of another date, and
    the gate of the other kind is as it was. *)
Theorem X6_relatorio_devido_uma_vez_por_dia (agora depois : datetime) (st : States)
    (tipo : string) (rad_atual : float) (rad_anterior : option float) :
  (StateManager.should_send_report agora st tipo rad_atual rad_anterior = true <->
   ZonaRadiacao.detectar_transicao rad_atual rad_anterior = Some tipo /\
   StateManager.ainda_nao_enviou_hoje agora (ultimo_relatorio st tipo) = true) /\
  (StateManager.should_send_report depois (StateManager.update_report agora tipo st)
     tipo rad_atual rad_anterior = true <->
   ZonaRadiacao.detectar_transicao rad_atual rad_anterior = Some tipo /\
   date agora <> date depois) /\
  StateManager.should_send_report depois (StateManager.update_report agora "bom_dia" st)
    "boa_noite" rad_atual rad_anterior
  = StateManager.should_send_report depois st "boa_noite" rad_atual rad_anterior /\
  StateManager.should_send_report depois (StateManager.update_report agora "boa_noite" st)
    "bom_dia" rad_atual rad_anterior
  = StateManager.should_send_report depois st "bom_dia" rad_atual rad_anterior.
Proof.
  split; [apply should_send_report_transicao |].
  split; [| split; reflexivity].
  rewrite should_send_report_transicao.
  split; intros [Ht Hg]; (split; [exact Ht |]);
    destruct (transicao_tipos _ _ _ Ht) as [-> | ->];
    revert Hg; unfold ultimo_relatorio, StateManager.update_report,
      StateManager.ainda_nao_enviou_hoje;
    cbn [String.eqb Ascii.eqb Bool.eqb st_relatorios ultimo_bom_dia ultimo_boa_noite];
    destruct (Z.eqb_spec (date agora) (date depois)); congruence.
Qed.

(** ** The general alert after its own dispatch *)

Lemma sub_diag_abs_abaixo x c : lt zero c = true -> ge (abs (sub x x)) c = false.
Proof.
  intros Hc.
  assert (Hs : abs (sub x x) = zero \/ abs (sub x x) = S754_nan).
  { destruct x as [s | s | | s m e]; cbn.
    - left. destruct s; reflexivity.
    - right. destruct s; reflexivity.
    - right. reflexivity.
    - left. rewrite Z.sub_diag. reflexivity. }
  destruct Hs as [-> | ->].
  - apply lt_le_false. exact Hc.
  - unfold ge, le, SFleb. destruct c; reflexivity.
Qed.

(** X7. Once [update_general_alert] has recorded a reading, the same reading
    is due again only as the heartbeat: no drift is seen, whatever the
    values, and the answer is true exactly when 6 hours have elapsed
    since the recorded dispatch. It never raises. *)
Theorem X7_alerta_geral_sem_desvio_apos_envio (agora depois : datetime)
    (temp umid pressao : float) (st : States) :
  StateManager.should_send_general_alert depois
    (StateManager.update_general_alert agora temp umid pressao st) temp umid pressao
  = (let horas := div (StateManager.total_seconds depois agora) (of_Z 3600) in
     if ge horas (of_Z 6) then Ok (true, motivo_periodica horas)
     else Ok (false, motivo_vazio)).
Proof.
  unfold StateManager.should_send_general_alert, StateManager.update_general_alert.
  cbn [st_alerta_geral ultima_temp ultima_umid ultima_pressao ultimo_envio].
  rewrite !sub_diag_abs_abaixo by reflexivity. reflexivity.
Qed.

(** ** The zone alerts of a cycle *)

Ltac no_sistema := unfold dominios_do_sistema; rewrite !elem_of_cons; auto 10.

Lemma bloco_zona_alertas nome mud v gerar e a :
  bloco_zona nome mud v gerar = Ok (e, a) ->
  a = [] \/
  exists m msg, mud = Some m /\ tipo_mudanca m = "mudanca_zona" /\
                gerar m = Ok (Some msg) /\ a = [(nome, m, msg)].
Proof.
  unfold bloco_zona. destruct mud as [m|]; [| intros [= <- <-]; auto].
  destruct (String.eqb_spec (tipo_mudanca m) "mudanca_zona") as [Ht | Ht];
    [| intros [= <- <-]; auto].
  destruct (gerar m) as [[msg|]|] eqn:Hg; try discriminate;
    intros [= <- <-]; [right | left]; eauto 7.
Qed.

(** Every queued zone alert comes from the detector of its domain, which
    saw a zone change, and there is at most one per domain. *)
Lemma processar_zonas_alertas w leitura st ai ac ea tr :
  processar_zonas w leitura st = Ok (ai, ac, ea, tr) ->
  Forall (fun '(n, m, msg) =>
            exists d extra,
              d ∈ dominios_do_sistema /\ n = dom_nome d /\
              dom_detectar d (agora w) (valor_lido leitura n)
                (StateManager.get_zone_state st n) = Some m /\
              tipo_mudanca m = "mudanca_zona" /\
              dom_gerar d m extra = Ok (Some msg)) ai /\
  (length ai <= 6)%nat.
Proof.
  unfold processar_zonas.
  repeat match goal with
    | |- context [bloco_zona ?n ?m ?v ?g] =>
        let E := fresh "E" in
        destruct (bloco_zona n m v g) as [[? ?]|] eqn:E; [| discriminate];
        apply bloco_zona_alertas in E
    end.
  intros [= <- _ _ _]. split.
  - repeat apply Forall_app_2;
      match goal with
      | H : ?a = [] \/ _ |- Forall _ ?a =>
          destruct H as [-> | (m & msg & Hm & Ht & Hg & ->)];
          [constructor | constructor; [| constructor]]
      end.
    + exists dom_temperatura, None. repeat split; try assumption. no_sistema.
    + exists dom_umidade, None. repeat split; try assumption. no_sistema.
    + exists dom_vento, (Some (ven_raj leitura)). repeat split; try assumption. no_sistema.
    + exists dom_chuva, None. repeat split; try assumption. no_sistema.
    + exists dom_radiacao, None. repeat split; try assumption. no_sistema.
    + eexists dom_pressao, (Some _). repeat split; try eassumption. no_sistema.
  - rewrite !length_app.
    repeat match goal with
      | H : ?a = [] \/ _ |- _ =>
          destruct H as [-> | (? & ? & _ & _ & _ & ->)]
      end; cbn [length]; lia.
Qed.

(** The message the renderer of a domain returns for a zone change. *)
Lemma dom_gerar_mensagem d m extra msg :
  d ∈ dominios_do_sistema -> dom_gerar d m extra = Ok (Some msg) ->
  mz_dominio msg = dom_nome d /\ mz_mudanca msg = m.
Proof.
  unfold dominios_do_sistema. rewrite !elem_of_cons, elem_of_nil.
  intros [-> | [-> | [-> | [-> | [-> | [-> | []]]]]]];
    cbv beta iota delta
      [dom_gerar dom_nome dom_temperatura dom_umidade dom_vento dom_chuva
       dom_radiacao dom_pressao
       ZonaTemperatura.gerar_alerta_inteligente ZonaUmidade.gerar_alerta_inteligente
       ZonaVento.gerar_alerta_inteligente ZonaChuva.gerar_alerta_inteligente
       ZonaRadiacao.gerar_alerta_inteligente ZonaPressao.gerar_alerta_inteligente
       gerar_alerta_inteligente_com];
    destruct m as [? ? | za z [va|] v t]; try discriminate;
    match goal with
    | |- context [if ?b then _ else _] => destruct b
    end; try discriminate; intros [= <-]; split; reflexivity.
Qed.

(** Whatever the exit code, a zone alert that was dispatched was queued
    by [processar_zonas] for a zone change of its domain. *)
Lemma main_zona_enviada w mz b :
  In (msg_zona mz, b) (enviadas (main w)) ->
  exists d leitura m,
    d ∈ dominios_do_sistema /\
    WeatherDatabase.get_latest_reading (linha w) = Some leitura /\
    dom_detectar d (agora w) (valor_lido leitura (dom_nome d))
      (StateManager.get_zone_state (StateManager.load (arquivo w) (agora w))
         (dom_nome d)) = Some m /\
    tipo_mudanca m = "mudanca_zona" /\
    mz_dominio mz = dom_nome d /\ mz_mudanca mz = m /\
    b = enviar_whatsapp w (msg_zona mz).
Proof.
  abre_main w; try (intros []).
  all: pose proof (processar_zonas_alertas _ _ _ _ _ _ _ Hproc) as [Hai _];
    destruct (processar_zonas_inv _ _ _ _ _ _ _ Hproc) as (Hea & Hac & Htr);
    subst ea ac tr;
    rewrite ?in_app_iff; intros Hin;
    assert (Hin1 : In (msg_zona mz, b) (enviar_inteligentes w ai));
    [ repeat match goal with
        | H : _ \/ _ |- _ => destruct H as [H | H]
        end; try assumption; exfalso
    | unfold enviar_inteligentes in Hin1; apply in_map_iff in Hin1;
      destruct Hin1 as ([[n m] msg] & [= -> <-] & Hin1);
      rewrite Forall_forall in Hai; apply list_elem_of_In in Hin1;
      destruct (Hai _ Hin1) as (d & extra & Hd & -> & Hdet & Ht & Hg);
      destruct (dom_gerar_mensagem _ _ _ _ Hd Hg) as [Hn Hm];
      exists d, leitura, m; repeat split; assumption ].
  all: try (apply (enviar_criticos_especie _ _ _ _ _ _
                     (criticos_do_ciclo_tipo w leitura) Hcri) in Hin;
            discriminate Hin).
  all: try (apply (alerta_geral_especie _ _ _ _ _ _ Hger) in Hin; discriminate Hin).
  all: destruct (relatorios_casos _ _ _ _ _ _ Hrel)
         as [[-> _] | (t & m & _ & Ht & _ & -> & _)]; [destruct Hin |];
       destruct Hin as [[= -> _] | []];
       destruct Ht as [[_ Hm] | [_ Hm]]; discriminate Hm.
Qed.

Lemma detectar_mudanca_zona classificar agora v est m :
  detectar_mudanca_com classificar agora v est = Some m ->
  tipo_mudanca m = "mudanca_zona" ->
  exists za, zona est = Some za /\ za <> classificar v /\
             m = mudanca_zona za (classificar v) (valor est) v agora.
Proof.
  unfold detectar_mudanca_com. destruct (zona est) as [za|].
  - destruct (String.eqb_spec (classificar v) za) as [He | Hne]; [discriminate |].
    intros [= <-] _. exists za. repeat split; congruence.
  - intros [= <-]. discriminate.
Qed.

(** X8. A zone alert leaves only on a zone change. Whatever the exit code of
    the cycle, every zone alert it dispatched belongs to one of the six
    domains, whose persisted zone differs from the zone of this reading;
    the message carries the persisted zone and value as the earlier ones
    and the zone and value of this reading as the current ones. *)
Theorem X8_alerta_de_zona_so_na_mudanca (w : Mundo) (mz : MensagemZona) (b : bool) :
  In (msg_zona mz, b) (enviadas (main w)) ->
  let antes := StateManager.load (arquivo w) (agora w) in
  exists d leitura za,
    d ∈ dominios_do_sistema /\ mz_dominio mz = dom_nome d /\
    WeatherDatabase.get_latest_reading (linha w) = Some leitura /\
    zona (StateManager.get_zone_state antes (dom_nome d)) = Some za /\
    za <> dom_classificar d (valor_lido leitura (dom_nome d)) /\
    mz_mudanca mz
    = mudanca_zona za (dom_classificar d (valor_lido leitura (dom_nome d)))
        (valor (StateManager.get_zone_state antes (dom_nome d)))
        (valor_lido leitura (dom_nome d)) (agora w) /\
    b = enviar_whatsapp w (msg_zona mz).
Proof.
  intros Hin antes.
  destruct (main_zona_enviada w mz b Hin)
    as (d & leitura & m & Hd & Hl & Hdet & Ht & Hn & Hm & Hb).
  destruct (dominio_detecta_com d Hd) as [Hcom _]. rewrite Hcom in Hdet.
  destruct (detectar_mudanca_zona _ _ _ _ _ Hdet Ht) as (za & Hz & Hne & ->).
  exists d, leitura, za. repeat split; assumption.
Qed.

Lemma X8_witness_radiacao :
  exists d leitura za,
    d ∈ dominios_do_sistema /\ "radiacao" = dom_nome d /\
    WeatherDatabase.get_latest_reading (Some linha_exemplo) = Some leitura /\
    zona (StateManager.get_zone_state estado_exemplo (dom_nome d)) = Some za /\
    za <> dom_classificar d (valor_lido leitura (dom_nome d)).
Proof.
  destruct (X8_alerta_de_zona_so_na_mudanca
              (mundo_exemplo linha_exemplo (sempre true) estado_exemplo)
              {| mz_dominio := "radiacao";
                 mz_mudanca := mudanca_zona "NOITE" "CREPUSCULO" (Some zero)
                                 (of_Z 30) as_6h05;
                 mz_extra := None |} true)
    as (d & leitura & za & Hd & Hn & Hl & Hz & Hne & _).
  - vm_compute. auto.
  - exists d, leitura, za. repeat split; assumption.
Defined.

Lemma zona_apos_detectar classificar agora v est :
  zona (match detectar_mudanca_com classificar agora v est with
        | Some m => zona_gravada agora (zona_atual_de m) v
        | None => est
        end) = Some (classificar v).
Proof.
  unfold detectar_mudanca_com. destruct (zona est) as [za|] eqn:Hz; [| reflexivity].
  destruct (String.eqb_spec (classificar v) za) as [He | Hne]; cbn [negb].
  - rewrite Hz, He. reflexivity.
  - reflexivity.
Qed.

(** X9. After a cycle that completed and wrote the file, the zone persisted
    for each domain is the zone of the reading of that cycle, whether the
    entry was rewritten or kept. Hence a following cycle that finds the
    same newest row sends no zone alert, whatever the clock, the earlier
    rows and the dispatch outcomes are by then. *)
Theorem X9_zonas_gravadas_e_ciclo_seguinte (w w' : Mundo) :
  exit_code (main w) = 0%Z -> grava w = true ->
  exists leitura depois,
    WeatherDatabase.get_latest_reading (linha w) = Some leitura /\
    arquivo_final (main w) = Some depois /\
    (forall d, d ∈ dominios_do_sistema ->
       zona (StateManager.get_zone_state depois (dom_nome d))
       = Some (dom_classificar d (valor_lido leitura (dom_nome d)))) /\
    (arquivo w' = Some depois -> linha w' = linha w ->
     forall m b, In (m, b) (enviadas (main w')) -> especie m <> e_zona).
Proof.
  intros Hex Hg.
  destruct (main_zonas w Hex Hg) as (leitura & depois & Hl & Hfin & Hz).
  exists leitura, depois. split; [exact Hl |]. split; [exact Hfin |].
  assert (Hzona : forall d, d ∈ dominios_do_sistema ->
            zona (StateManager.get_zone_state depois (dom_nome d))
            = Some (dom_classificar d (valor_lido leitura (dom_nome d)))).
  { intros d Hd. specialize (Hz d Hd).
    destruct (dominio_detecta_com d Hd) as [Hcom _]. rewrite Hcom in Hz.
    pose proof (zona_apos_detectar (dom_classificar d) (agora w)
                  (valor_lido leitura (dom_nome d))
                  (StateManager.get_zone_state
                     (StateManager.load (arquivo w) (agora w)) (dom_nome d))) as Hza.
    unfold StateManager.get_zone_state at 1. rewrite Hz.
    destruct (detectar_mudanca_com _ _ _ _) as [m|]; [exact Hza |].
    exact Hza. }
  split; [exact Hzona |].
  intros Harq Hlin m b Hin Hesp.
  destruct m as [mz | | | |]; try discriminate Hesp.
  destruct (main_zona_enviada w' mz b Hin)
    as (d & leitura' & m & Hd & Hl' & Hdet & Ht & _).
  rewrite Hlin, Hl in Hl'. injection Hl' as <-.
  rewrite Harq in Hdet. cbn [StateManager.load] in Hdet.
  destruct (dominio_detecta_com d Hd) as [Hcom _]. rewrite Hcom in Hdet.
  destruct (detectar_mudanca_zona _ _ _ _ _ Hdet Ht) as (za & Hza & Hne & _).
  rewrite (Hzona d Hd) in Hza. congruence.
Qed.

Lemma X9_witness_crepusculo :
  exists depois,
    arquivo_final (main (mundo_exemplo linha_exemplo (sempre true) estado_exemplo))
    = Some depois /\
    zona (StateManager.get_zone_state depois "radiacao") = Some "CREPUSCULO".
Proof.
  destruct (X9_zonas_gravadas_e_ciclo_seguinte
              (mundo_exemplo linha_exemplo (sempre true) estado_exemplo)
              (mundo_exemplo linha_exemplo (sempre false) estado_exemplo)
              eq_refl eq_refl)
    as (leitura & depois & Hl & Hfin & Hz & _).
  exists depois. split; [exact Hfin |].
  injection Hl as <-.
  exact (Hz dom_radiacao ltac:(no_sistema)).
Defined.

(** ** Where the critical alerts of a cycle come from *)

Lemma encontra_dados_In ac t d : encontra_dados ac t = Some d -> In (t, d) ac.
Proof.
  unfold encontra_dados. induction ac as [|[t' d'] ac IH]; cbn [find]; [discriminate |].
  destruct (String.eqb_spec t' t) as [-> | Hne].
  - cbn. intros [= <-]. left. reflexivity.
  - intros H. right. exact (IH H).
Qed.

(** One turn of the loop adds at most one dispatch, of the alert found
    for its kind, and only when the flag of the kind was inactive; it
    touches the flag of no other kind. *)
Lemma passo_critico_origem w ac st log t st' log' :
  Forall (fun '(t, d) => t = tipo d) ac ->
  passo_critico w ac (st, log) t = (st', log') ->
  (log' = log \/
   exists d, log' = log ++ [(msg_critico d, enviar_whatsapp w (msg_critico d))] /\
             tipo d = t /\ StateManager.get_critical_state st t = false /\
             In (t, d) ac) /\
  (forall t', t' <> t ->
     StateManager.get_critical_state st' t' = StateManager.get_critical_state st t').
Proof.
  intros Hac. unfold passo_critico, StateManager.should_send_critical.
  assert (Hupd : forall a t', t' <> t ->
            StateManager.get_critical_state
              (StateManager.update_critical_state (agora w) t a st) t'
            = StateManager.get_critical_state st t').
  { intros a t' Hne. rewrite get_critical_update.
    destruct (String.eqb_spec t t'); congruence. }
  destruct (StateManager.get_critical_state st t) eqn:Hget,
    (criticos_ativos ac t) eqn:Hat; cbn [Bool.eqb negb andb].
  - intros [= <- <-]. auto.
  - intros [= <- <-]. auto.
  - destruct (encontra_dados ac t) as [d|] eqn:Hd; [| intros [= <- <-]; auto].
    pose proof (encontra_dados_tipo _ _ _ Hac Hd) as Ht. subst t.
    apply encontra_dados_In in Hd.
    rewrite gerar_msg_critico_tipo.
    destruct (enviar_whatsapp w (msg_critico d)) eqn:He; intros [= <- <-];
      (split; [right; exists d; rewrite He; auto | auto]).
  - intros [= <- <-]. auto.
Qed.

Lemma fold_criticos_origem w ac ts :
  Forall (fun '(t, d) => t = tipo d) ac -> NoDup ts ->
  forall st log st' log',
    fold_left (passo_critico w ac) ts (st, log) = (st', log') ->
    exists novos,
      log' = log ++ novos /\ (length novos <= length ts)%nat /\
      forall e, In e novos ->
        exists d, e = (msg_critico d, enviar_whatsapp w (msg_critico d)) /\
                  In (tipo d) ts /\
                  StateManager.get_critical_state st (tipo d) = false /\
                  In (tipo d, d) ac.
Proof.
  intros Hac Hnd. induction Hnd as [|t ts Hnotin Hnd IH];
    intros st log st' log'; cbn [fold_left].
  - intros [= <- <-]. exists []. rewrite app_nil_r. repeat split; auto.
    intros e [].
  - destruct (passo_critico w ac (st, log) t) as [st1 log1] eqn:E1.
    intros Hf. destruct (IH _ _ _ _ Hf) as (novos & -> & Hlen & Hnovos).
    destruct (passo_critico_origem _ _ _ _ _ _ _ Hac E1) as [Hlog Hframe].
    assert (Hrest : forall e, In e novos ->
              exists d, e = (msg_critico d, enviar_whatsapp w (msg_critico d)) /\
                        In (tipo d) (t :: ts) /\
                        StateManager.get_critical_state st (tipo d) = false /\
                        In (tipo d, d) ac).
    { intros e He. destruct (Hnovos e He) as (d & -> & Hin & Hget & Hd).
      exists d. repeat split; auto.
      - right. exact Hin.
      - rewrite <- Hframe; [exact Hget |].
        intros Heq. apply Hnotin. rewrite <- Heq. apply list_elem_of_In. exact Hin. }
    destruct Hlog as [-> | (d & -> & Ht & Hget & Hd)].
    + exists novos. repeat split; auto. cbn [length]. lia.
    + exists ((msg_critico d, enviar_whatsapp w (msg_critico d)) :: novos).
      rewrite <- app_assoc. repeat split; auto.
      * cbn [length]. lia.
      * intros e [<- | He]; [| exact (Hrest e He)].
        exists d. subst t. repeat split; auto. left. reflexivity.
Qed.

Lemma enviar_criticos_origem w leitura st st2 log2 :
  enviar_criticos w (criticos_do_ciclo w leitura) st = (st2, log2) ->
  (length log2 <= 10)%nat /\
  forall e, In e log2 ->
    exists d, e = (msg_critico d, enviar_whatsapp w (msg_critico d)) /\
              StateManager.get_critical_state st (tipo d) = false /\
              In (tipo d, d) (criticos_do_ciclo w leitura).
Proof.
  intros H.
  destruct (fold_criticos_origem w _ _ (criticos_do_ciclo_tipo w leitura)
              tipos_criticos_NoDup _ _ _ _ H) as (novos & -> & Hlen & Hn).
  cbn [app]. split; [exact Hlen |].
  intros e He. destruct (Hn e He) as (d & -> & _ & Hget & Hd). eauto.
Qed.

(** X10. A critical alert leaves only for a condition that is new. Whatever
    the exit code of the cycle, every critical alert it dispatched was
    emitted by an evaluator on this reading, and the flag of its kind was
    inactive in the state the cycle loaded: while the flag is active the
    condition is not alerted again. *)
Theorem X10_critico_enviado_so_se_novo (w : Mundo) (d : Critico) (b : bool) :
  In (msg_critico d, b) (enviadas (main w)) ->
  exists leitura,
    WeatherDatabase.get_latest_reading (linha w) = Some leitura /\
    In (tipo d, d) (criticos_do_ciclo w leitura) /\
    StateManager.get_critical_state
      (StateManager.load (arquivo w) (agora w)) (tipo d) = false /\
    b = enviar_whatsapp w (msg_critico d).
Proof.
  intros Hin.
  destruct (main_critico_enviado w d b Hin) as (leitura & st2 & log2 & Hl & Hcri & Hin2).
  destruct (enviar_criticos_origem _ _ _ _ _ Hcri) as [_ Ho].
  destruct (Ho _ Hin2) as (d' & [= <- ->] & Hget & Hd).
  exists leitura. repeat split; auto.
  rewrite <- Hget. apply get_critical_state_ext. symmetry.
  exact (proj1 (proj2 (proj2 (atualizar_estados_frame (agora w) _ _)))).
Qed.

Lemma X10_witness_frio_extremo :
  StateManager.get_critical_state estado_exemplo "frio_extremo" = false.
Proof.
  destruct (X10_critico_enviado_so_se_novo
              (mundo_exemplo linha_sem_temperatura (sempre true) estado_exemplo)
              (frio_extremo zero (of_Z 18)) true)
    as (leitura & _ & _ & Hget & _).
  - vm_compute. repeat (try (left; reflexivity); right).
  - exact Hget.
Defined.

Lemma criticos_ativos_encontra ac t :
  criticos_ativos ac t = true -> exists d, encontra_dados ac t = Some d.
Proof.
  unfold criticos_ativos, encontra_dados.
  induction ac as [|[t' d'] ac IH]; cbn [existsb find]; [discriminate |].
  destruct (String.eqb t' t); cbn [orb]; [intros _; exists d'; reflexivity | exact IH].
Qed.

Lemma In_criticos_ativos ac t d : In (t, d) ac -> criticos_ativos ac t = true.
Proof.
  intros Hin. unfold criticos_ativos. apply existsb_exists.
  exists (t, d). split; [exact Hin | apply String.eqb_refl].
Qed.

Lemma fold_criticos_completo w ac ts :
  Forall (fun '(t, d) => t = tipo d) ac -> NoDup ts ->
  forall st log st' log',
    fold_left (passo_critico w ac) ts (st, log) = (st', log') ->
    forall t, In t ts -> StateManager.get_critical_state st t = false ->
      criticos_ativos ac t = true ->
      exists d, tipo d = t /\ In (t, d) ac /\
                In (msg_critico d, enviar_whatsapp w (msg_critico d)) log'.
Proof.
  intros Hac Hnd. induction Hnd as [|t0 ts Hnotin Hnd IH];
    intros st log st' log'; cbn [fold_left]; [intros _ t [] |].
  destruct (passo_critico w ac (st, log) t0) as [st1 log1] eqn:E1.
  intros Hf t [<- | Hin] Hget Hat.
  - destruct (criticos_ativos_encontra _ _ Hat) as [d Hd].
    pose proof (encontra_dados_tipo _ _ _ Hac Hd) as Ht.
    exists d. split; [exact Ht |]. split; [exact (encontra_dados_In _ _ _ Hd) |].
    destruct (fold_criticos_inv w ac ts Hac Hnd _ _ _ _ Hf) as (_ & _ & _ & _ & Hmono).
    apply Hmono. revert E1.
    unfold passo_critico, StateManager.should_send_critical.
    rewrite Hget, Hat, Hd. cbn [Bool.eqb negb andb]. rewrite <- Ht at 1.
    rewrite gerar_msg_critico_tipo.
    destruct (enviar_whatsapp w (msg_critico d)); intros [= _ <-];
      apply in_or_app; right; left; reflexivity.
  - apply (IH _ _ _ _ Hf t Hin); [| exact Hat].
    destruct (passo_critico_origem _ _ _ _ _ _ _ Hac E1) as [_ Hframe].
    rewrite Hframe; [exact Hget |].
    intros ->. apply Hnotin. apply list_elem_of_In. exact Hin.
Qed.

Lemma tipo_em_tipos_criticos d : In (tipo d) tipos_criticos.
Proof. destruct d; cbn; auto 12. Qed.

(** X11. In a cycle that completes no new critical condition is dropped: for
    every alert an evaluator emits on this reading while the flag of its
    kind is inactive in the loaded state, an alert of that kind emitted on
    this reading is dispatched. *)
Theorem X11_critico_novo_e_enviado (w : Mundo) (leitura : Leitura) (d : Critico) :
  exit_code (main w) = 0%Z ->
  WeatherDatabase.get_latest_reading (linha w) = Some leitura ->
  In (tipo d, d) (criticos_do_ciclo w leitura) ->
  StateManager.get_critical_state
    (StateManager.load (arquivo w) (agora w)) (tipo d) = false ->
  exists d',
    tipo d' = tipo d /\ In (tipo d, d') (criticos_do_ciclo w leitura) /\
    In (msg_critico d', enviar_whatsapp w (msg_critico d')) (enviadas (main w)).
Proof.
  intros Hex Hl Hin Hget.
  destruct (main_sucesso w Hex)
    as (l' & ai & st2 & log2 & st3 & log3 & st4 & log4 & Hl' & Hcri & _ & _ & _ & Henv).
  rewrite Hl in Hl'. injection Hl' as <-.
  destruct (fold_criticos_completo w _ _ (criticos_do_ciclo_tipo w leitura)
              tipos_criticos_NoDup _ _ _ _ Hcri (tipo d)) as (d' & Ht & Hd' & Hlog).
  - apply tipo_em_tipos_criticos.
  - rewrite <- Hget. apply get_critical_state_ext.
    exact (proj1 (proj2 (proj2 (atualizar_estados_frame (agora w) _ _)))).
  - exact (In_criticos_ativos _ _ _ Hin).
  - exists d'. repeat split; auto. rewrite Henv, !in_app_iff. auto.
Qed.

Lemma X11_witness_frio_extremo :
  exists d',
    tipo d' = "frio_extremo" /\
    In (msg_critico d', true)
      (enviadas (main (mundo_exemplo linha_sem_temperatura (sempre true)
                         estado_exemplo))).
Proof.
  destruct (X11_critico_novo_e_enviado
              (mundo_exemplo linha_sem_temperatura (sempre true) estado_exemplo)
              (default (Build_Leitura zero zero zero zero zero zero zero)
                 (WeatherDatabase.get_latest_reading (Some linha_sem_temperatura)))
              (frio_extremo zero (of_Z 18)) eq_refl eq_refl)
    as (d' & Ht & _ & Hin).
  - vm_compute. repeat (try (left; reflexivity); right).
  - reflexivity.
  - exists d'. split; [exact Ht | exact Hin].
Defined.

(** ** The critical flags after a cycle *)

Lemma criticos_ativos_false_encontra ac t :
  criticos_ativos ac t = false -> encontra_dados ac t = None.
Proof.
  unfold criticos_ativos, encontra_dados.
  induction ac as [|[t' d'] ac IH]; cbn [existsb find]; [reflexivity |].
  destruct (String.eqb t' t); cbn [orb]; [discriminate | exact IH].
Qed.

Lemma passo_critico_flag w ac st log t st' log' :
  Forall (fun '(t, d) => t = tipo d) ac ->
  passo_critico w ac (st, log) t = (st', log') ->
  StateManager.get_critical_state st' t
  = match encontra_dados ac t with
    | Some d => StateManager.get_critical_state st t || enviar_whatsapp w (msg_critico d)
    | None => false
    end.
Proof.
  intros Hac. unfold passo_critico, StateManager.should_send_critical.
  destruct (StateManager.get_critical_state st t) eqn:Hget,
    (criticos_ativos ac t) eqn:Hat; cbn [Bool.eqb negb andb].
  - destruct (criticos_ativos_encontra _ _ Hat) as [d ->].
    intros [= <- _]. rewrite Hget. reflexivity.
  - rewrite (criticos_ativos_false_encontra _ _ Hat).
    intros [= <- _]. rewrite get_critical_update, String.eqb_refl. reflexivity.
  - destruct (criticos_ativos_encontra _ _ Hat) as [d Hd]. rewrite Hd.
    pose proof (encontra_dados_tipo _ _ _ Hac Hd) as Ht. subst t.
    rewrite gerar_msg_critico_tipo.
    destruct (enviar_whatsapp w (msg_critico d)); intros [= <- _].
    + rewrite get_critical_update, String.eqb_refl. reflexivity.
    + rewrite Hget. reflexivity.
  - rewrite (criticos_ativos_false_encontra _ _ Hat).
    intros [= <- _]. exact Hget.
Qed.

Lemma fold_criticos_flag w ac ts :
  Forall (fun '(t, d) => t = tipo d) ac -> NoDup ts ->
  forall st log st' log',
    fold_left (passo_critico w ac) ts (st, log) = (st', log') ->
    forall t, In t ts ->
      StateManager.get_critical_state st' t
      = match encontra_dados ac t with
        | Some d =>
            StateManager.get_critical_state st t || enviar_whatsapp w (msg_critico d)
        | None => false
        end.
Proof.
  intros Hac Hnd. induction Hnd as [|t0 ts Hnotin Hnd IH];
    intros st log st' log'; cbn [fold_left]; [intros _ t [] |].
  destruct (passo_critico w ac (st, log) t0) as [st1 log1] eqn:E1.
  intros Hf t [<- | Hin].
  - destruct (fold_criticos_inv w ac ts Hac Hnd _ _ _ _ Hf) as (_ & Hfora & _).
    rewrite (Hfora t0); [| intros Hin; apply Hnotin; apply list_elem_of_In; exact Hin].
    exact (passo_critico_flag _ _ _ _ _ _ _ Hac E1).
  - rewrite (IH _ _ _ _ Hf t Hin).
    destruct (passo_critico_origem _ _ _ _ _ _ _ Hac E1) as [_ Hframe].
    rewrite Hframe; [reflexivity |].
    intros ->. apply Hnotin. apply list_elem_of_In. exact Hin.
Qed.

(** X12. The flag of each critical kind in the file a cycle leaves, when the
    cycle completed and wrote. If no evaluator emits the kind on this
    reading the flag is inactive: a condition that ended is cleared at
    once and without a message. If one does, the flag is active exactly
    when it was active in the loaded state or the alert went out with
    success. *)
Theorem X12_estado_critico_apos_o_ciclo (w : Mundo) (tipo_critico : string) :
  exit_code (main w) = 0%Z -> grava w = true -> In tipo_critico tipos_criticos ->
  exists leitura depois,
    WeatherDatabase.get_latest_reading (linha w) = Some leitura /\
    arquivo_final (main w) = Some depois /\
    StateManager.get_critical_state depois tipo_critico
    = match encontra_dados (criticos_do_ciclo w leitura) tipo_critico with
      | Some d =>
          StateManager.get_critical_state
            (StateManager.load (arquivo w) (agora w)) tipo_critico
          || enviar_whatsapp w (msg_critico d)
      | None => false
      end.
Proof.
  intros Hex Hg Hin.
  destruct (main_sucesso w Hex)
    as (leitura & ai & st2 & log2 & st3 & log3 & st4 & log4
        & Hl & Hcri & Hrel & Hger & Hfin & _).
  unfold StateManager.save in Hfin. rewrite Hg in Hfin.
  exists leitura. eexists. split; [exact Hl |]. split; [exact Hfin |].
  destruct (alerta_geral_frame _ _ _ _ _ Hger) as (_ & _ & H4).
  destruct (relatorios_frame _ _ _ _ _ _ Hrel) as (_ & _ & H3).
  unfold StateManager.get_critical_state at 1. cbn [st_alertas_criticos].
  rewrite H4, H3. fold (StateManager.get_critical_state st2 tipo_critico).
  rewrite (fold_criticos_flag w _ _ (criticos_do_ciclo_tipo w leitura)
             tipos_criticos_NoDup _ _ _ _ Hcri tipo_critico Hin).
  rewrite (get_critical_state_ext _ (StateManager.load (arquivo w) (agora w))
             tipo_critico); [reflexivity |].
  exact (proj1 (proj2 (proj2 (atualizar_estados_frame (agora w) _ _)))).
Qed.

Lemma X12_witness_envio_falho :
  exists depois,
    arquivo_final (main (mundo_exemplo linha_sem_temperatura (sempre false)
                           estado_exemplo)) = Some depois /\
    StateManager.get_critical_state depois "frio_extremo" = false.
Proof.
  destruct (X12_estado_critico_apos_o_ciclo
              (mundo_exemplo linha_sem_temperatura (sempre false) estado_exemplo)
              "frio_extremo" eq_refl eq_refl)
    as (leitura & depois & Hl & Hfin & Hflag).
  - vm_compute. auto.
  - exists depois. split; [exact Hfin |].
    injection Hl as <-. exact Hflag.
Defined.

(** ** A cycle with no row of one hour ago *)

Lemma criticos_sem_leitura_1h w leitura t d :
  leitura_1h w = None -> In (t, d) (criticos_do_ciclo w leitura) ->
  t <> "mudanca_brusca" /\ t <> "queda_brusca".
Proof.
  intros H1. unfold criticos_do_ciclo. rewrite H1.
  unfold ZonaTemperatura.verificar_critico, ZonaUmidade.verificar_critico,
    ZonaVento.verificar_critico, ZonaChuva.verificar_critico,
    ZonaRadiacao.verificar_critico, ZonaPressao.verificar_critico,
    WeatherDatabase.get_pressure_variation.
  assert (Hp : forall o : option Leitura,
            match o with Some _ => zero | None => zero end = zero)
    by (intros []; reflexivity).
  rewrite Hp. change (lt zero (SFopp (of_Z 5))) with false.
  rewrite !in_app_iff.
  repeat match goal with
    | |- context [if ?b then _ else _] => destruct b
    end; cbn [app ou_None estende map In tipo];
    intros H; repeat (destruct H as [H | H]); try contradiction;
    injection H as <- _; split; discriminate.
Qed.

(** X13. Without a row of one hour ago (an empty history, or a first row
    with an unreadable time) the cycle sends no sunrise or sunset report,
    no abrupt-change alert and no sharp-drop alert, whatever the reading
    and the state are. *)
Theorem X13_sem_leitura_de_uma_hora_atras (w : Mundo) (m : Mensagem) (b : bool) :
  leitura_1h w = None -> In (m, b) (enviadas (main w)) ->
  especie m <> e_bom_dia /\ especie m <> e_boa_noite /\
  forall d, m = msg_critico d -> tipo d <> "mudanca_brusca" /\ tipo d <> "queda_brusca".
Proof.
  intros H1 Hin.
  assert (Hrel : ~ (especie m = e_bom_dia \/ especie m = e_boa_noite)).
  { intros Hesp.
    destruct (main_relatorio_enviado w m b Hin Hesp)
      as (leitura & st2 & log2 & r & log3 & _ & _ & _ & Hr & Hin3).
    unfold rad_anterior_de in Hr. rewrite H1 in Hr. cbn in Hr.
    injection Hr as _ <-. destruct Hin3. }
  split; [tauto |]. split; [tauto |].
  intros d ->.
  destruct (main_critico_enviado w d b Hin) as (leitura & st2 & log2 & _ & Hcri & Hin2).
  destruct (enviar_criticos_origem _ _ _ _ _ Hcri) as [_ Ho].
  destruct (Ho _ Hin2) as (d' & [= <- _] & _ & Hd).
  exact (criticos_sem_leitura_1h _ _ _ _ H1 Hd).
Qed.

Lemma X13_witness_sem_historico :
  especie (msg_zona {| mz_dominio := "radiacao";
                       mz_mudanca := mudanca_zona "NOITE" "CREPUSCULO" (Some zero)
                                       (of_Z 30) as_6h05;
                       mz_extra := None |}) <> e_bom_dia.
Proof.
  refine (proj1 (X13_sem_leitura_de_uma_hora_atras mundo_sem_historico _ true eq_refl _)).
  vm_compute. repeat (try (left; reflexivity); right).
Defined.

(** ** The order and the number of the dispatches *)

Lemma alerta_geral_um w leitura st r log :
  alerta_geral w leitura st = (r, log) -> (length log <= 1)%nat.
Proof.
  unfold alerta_geral.
  destruct (StateManager.should_send_general_alert _ _ _ _ _) as [[[] m]|];
    [| intros [= _ <-]; cbn; lia | intros [= _ <-]; cbn; lia].
  destruct (leitura_3h w) as [[? [?|] ? ?]|];
    try (intros [= _ <-]; cbn; lia);
    destruct (enviar_whatsapp w _); intros [= _ <-]; cbn; lia.
Qed.

Lemma relatorios_um w leitura tr st r log :
  relatorios w leitura tr st = (r, log) ->
  (length log <= 1)%nat /\
  Forall (fun e : Envio => especie (fst e) = e_bom_dia \/ especie (fst e) = e_boa_noite)
    log.
Proof.
  intros H. destruct (relatorios_casos _ _ _ _ _ _ H)
    as [[-> _] | (t & m & _ & Ht & _ & -> & _)].
  - split; [cbn; lia | constructor].
  - split; [cbn; lia |]. constructor; [| constructor]. cbn [fst].
    destruct Ht as [[_ Hm] | [_ Hm]]; auto.
Qed.

(** X14. The dispatches of a cycle, whatever its exit code, come in four
    blocks in this order: at most 6 zone alerts, at most 10 critical
    alerts, at most one report and at most one general alert. *)
Theorem X14_ordem_e_numero_dos_envios (w : Mundo) :
  exists zonas criticos relatorio geral : list Envio,
    enviadas (main w) = zonas ++ criticos ++ relatorio ++ geral /\
    Forall (fun e => especie (fst e) = e_zona) zonas /\
    Forall (fun e => especie (fst e) = e_critico) criticos /\
    Forall (fun e => especie (fst e) = e_bom_dia \/ especie (fst e) = e_boa_noite)
      relatorio /\
    Forall (fun e => especie (fst e) = e_geral) geral /\
    (length zonas <= 6)%nat /\ (length criticos <= 10)%nat /\
    (length relatorio <= 1)%nat /\ (length geral <= 1)%nat.
Proof.
  assert (Hvazio : exists zonas criticos relatorio geral : list Envio,
            @nil Envio = zonas ++ criticos ++ relatorio ++ geral /\
            Forall (fun e => especie (fst e) = e_zona) zonas /\
            Forall (fun e => especie (fst e) = e_critico) criticos /\
            Forall (fun e => especie (fst e) = e_bom_dia \/
                             especie (fst e) = e_boa_noite) relatorio /\
            Forall (fun e => especie (fst e) = e_geral) geral /\
            (length zonas <= 6)%nat /\ (length criticos <= 10)%nat /\
            (length relatorio <= 1)%nat /\ (length geral <= 1)%nat).
  { exists [], [], [], []. cbn. repeat split; try constructor; lia. }
  abre_main w; try exact Hvazio.
  all: pose proof (processar_zonas_alertas _ _ _ _ _ _ _ Hproc) as [_ Hlen1];
    destruct (processar_zonas_inv _ _ _ _ _ _ _ Hproc) as (Hea & Hac & Htr);
    subst ea ac tr;
    destruct (enviar_criticos_origem _ _ _ _ _ Hcri) as [Hlen2 _];
    destruct (relatorios_um _ _ _ _ _ _ Hrel) as [Hlen3 Hesp3];
    assert (Hesp1 : Forall (fun e : Envio => especie (fst e) = e_zona)
                      (enviar_inteligentes w ai))
      by (apply Forall_forall; intros e He; apply list_elem_of_In in He;
          exact (enviar_inteligentes_especie _ _ _ He));
    assert (Hesp2 : Forall (fun e : Envio => especie (fst e) = e_critico) log2)
      by (apply Forall_forall; intros e He; apply list_elem_of_In in He;
          exact (enviar_criticos_especie _ _ _ _ _ _
                   (criticos_do_ciclo_tipo w leitura) Hcri He));
    assert (Hlen1' : (length (enviar_inteligentes w ai) <= 6)%nat)
      by (unfold enviar_inteligentes; rewrite length_map; exact Hlen1).
  1, 2: exists (enviar_inteligentes w ai), log2, log3, log4;
    pose proof (alerta_geral_um _ _ _ _ _ Hger) as Hlen4;
    repeat split; try assumption;
    apply Forall_forall; intros e He; apply list_elem_of_In in He;
    exact (alerta_geral_especie _ _ _ _ _ _ Hger He).
  exists (enviar_inteligentes w ai), log2, log3, [].
  rewrite app_nil_r. repeat split; try assumption; try constructor.
  all: cbn [length]; lia.
Qed.

(** ** The first cycle *)

Lemma get_zone_state_default agora d :
  d ∈ dominios_do_sistema ->
  StateManager.get_zone_state (StateManager._create_default_states agora) (dom_nome d)
  = StateManager.zona_vazia.
Proof.
  unfold dominios_do_sistema. rewrite !elem_of_cons, elem_of_nil.
  intros [-> | [-> | [-> | [-> | [-> | [-> | []]]]]]]; reflexivity.
Qed.

(** X15. A cycle that finds no readable states.json starts from the default
    document: it sends no zone alert; if it completes, the general alert
    left (the bootstrap), and if it also writes, the file holds for each
    of the six domains the zone and the value of this reading. *)
Theorem X15_primeira_execucao (w : Mundo) :
  arquivo w = None ->
  (forall m b, In (m, b) (enviadas (main w)) -> especie m <> e_zona) /\
  (exit_code (main w) = 0%Z ->
   exists leitura,
     WeatherDatabase.get_latest_reading (linha w) = Some leitura /\
     In (msg_geral leitura, enviar_whatsapp w (msg_geral leitura)) (enviadas (main w)) /\
     (grava w = true ->
      exists depois,
        arquivo_final (main w) = Some depois /\
        forall d, d ∈ dominios_do_sistema ->
          st_zonas depois !! dom_nome d
          = Some (zona_gravada (agora w)
                    (dom_classificar d (valor_lido leitura (dom_nome d)))
                    (valor_lido leitura (dom_nome d))))).
Proof.
  intros Harq. split.
  - intros m b Hin Hesp. destruct m as [mz | | | |]; try discriminate Hesp.
    destruct (main_zona_enviada w mz b Hin)
      as (d & leitura & m & Hd & _ & Hdet & Ht & _).
    rewrite Harq in Hdet. cbn [StateManager.load] in Hdet.
    rewrite (get_zone_state_default _ _ Hd) in Hdet.
    destruct (dominio_detecta_com d Hd) as [Hcom _]. rewrite Hcom in Hdet.
    destruct (detectar_mudanca_zona _ _ _ _ _ Hdet Ht) as (za & Hza & _).
    discriminate Hza.
  - intros Hex.
    destruct (main_sucesso w Hex)
      as (leitura & ai & st2 & log2 & st3 & log3 & st4 & log4
          & Hl & Hcri & Hrel & Hger & _ & Henv).
    exists leitura. split; [exact Hl |]. split.
    + rewrite Henv, !in_app_iff. right; right; right.
      destruct (relatorios_frame _ _ _ _ _ _ Hrel) as (_ & Hg3 & _).
      destruct (enviar_criticos_frame _ _ _ _ _ Hcri) as (_ & Hg2 & _).
      rewrite (proj1 (atualizar_estados_frame (agora w) _ _)) in Hg2.
      rewrite Harq in Hg2. cbn [StateManager.load] in Hg2.
      revert Hger. unfold alerta_geral, StateManager.should_send_general_alert.
      rewrite Hg3, Hg2.
      cbn [StateManager._create_default_states st_alerta_geral ultima_temp].
      unfold MessageComposer.compor_alerta_geral.
      destruct (leitura_3h w) as [[? [?|] ? ?]|]; try discriminate;
        destruct (enviar_whatsapp w (msg_geral leitura)); intros [= _ <-];
        left; reflexivity.
    + intros Hg. destruct (main_zonas w Hex Hg) as (l' & depois & Hl' & Hfin & Hz).
      rewrite Hl in Hl'. injection Hl' as <-.
      exists depois. split; [exact Hfin |].
      intros d Hd. rewrite (Hz d Hd), Harq. cbn [StateManager.load].
      rewrite (get_zone_state_default _ _ Hd).
      destruct (dominio_detecta_com d Hd) as [Hcom _]. rewrite Hcom.
      reflexivity.
Qed.

Lemma X15_witness_sem_arquivo :
  exists leitura,
    WeatherDatabase.get_latest_reading (linha mundo_sem_arquivo) = Some leitura /\
    In (msg_geral leitura, true) (enviadas (main mundo_sem_arquivo)).
Proof.
  destruct (proj2 (X15_primeira_execucao mundo_sem_arquivo eq_refl) eq_refl)
    as (leitura & Hl & Hin & _).
  exists leitura. split; [exact Hl | exact Hin].
Defined.

(** ** A state document the renderers can read *)

Lemma bem_formado_dominios st :
  bem_formado st = true <->
  forall d, d ∈ dominios_do_sistema ->
    entrada_bem_formada (dom_nome d) (StateManager.get_zone_state st (dom_nome d)) = true.
Proof.
  unfold bem_formado, StateManager.dominios, dominios_do_sistema.
  cbn [forallb]. rewrite !andb_true_iff. split.
  - intros (H1 & H2 & H3 & H4 & H5 & H6 & _) d.
    rewrite !elem_of_cons, elem_of_nil.
    intros [-> | [-> | [-> | [-> | [-> | [-> | []]]]]]]; assumption.
  - intros H. repeat split.
    + apply (H dom_temperatura). no_sistema.
    + apply (H dom_umidade). no_sistema.
    + apply (H dom_vento). no_sistema.
    + apply (H dom_chuva). no_sistema.
    + apply (H dom_radiacao). no_sistema.
    + apply (H dom_pressao). no_sistema.
Qed.

(** Every zone a classifier answers is a key of the renderer of its
    domain. *)
Lemma classificar_em_zonas d v :
  d ∈ dominios_do_sistema -> em (dom_classificar d v) (zonas_de (dom_nome d)) = true.
Proof.
  unfold dominios_do_sistema. rewrite !elem_of_cons, elem_of_nil.
  intros [-> | [-> | [-> | [-> | [-> | [-> | []]]]]]];
    cbv beta iota delta
      [dom_classificar dom_nome dom_temperatura dom_umidade dom_vento dom_chuva
       dom_radiacao dom_pressao ZonaTemperatura.classificar ZonaUmidade.classificar
       ZonaVento.classificar ZonaChuva.classificar ZonaRadiacao.classificar
       ZonaPressao.classificar];
    repeat match goal with
      | |- context [if ?b then _ else _] =>
          lazymatch b with
          | lt _ _ => destruct b
          | le _ _ => destruct b
          | eq _ _ => destruct b
          end
      end; reflexivity.
Qed.

Lemma valor_lido_finito leitura n :
  leitura_finita leitura = true -> finito (valor_lido leitura n) = true.
Proof.
  unfold leitura_finita, valor_lido. rewrite !andb_true_iff.
  intros ((((((H1 & H2) & H3) & H4) & H5) & H6) & H7).
  repeat match goal with
    | |- context [if ?b then _ else _] => destruct b
    end; auto.
Qed.

(** The renderer of a domain does not raise on a change detected against
    a well-formed entry. *)
Lemma bloco_zona_bem_formado d agora v est extra :
  d ∈ dominios_do_sistema ->
  entrada_bem_formada (dom_nome d) est = true ->
  exists r,
    bloco_zona (dom_nome d) (dom_detectar d agora v est) v
      (fun m => dom_gerar d m extra) = Ok r.
Proof.
  intros Hd Hbf. destruct (dominio_detecta_com d Hd) as [Hcom _]. rewrite Hcom.
  pose proof (classificar_em_zonas d v Hd) as Hcl.
  unfold entrada_bem_formada in Hbf. unfold detectar_mudanca_com.
  destruct (zona est) as [za|]; [| eexists; reflexivity].
  destruct (valor est) as [va|]; [| discriminate].
  apply andb_true_iff in Hbf as [Hza _].
  destruct (negb (dom_classificar d v =? za)%string); [| eexists; reflexivity].
  unfold bloco_zona. cbn [tipo_mudanca String.eqb Ascii.eqb Bool.eqb].
  revert Hd Hza Hcl. generalize (dom_classificar d v) as z. intros z.
  unfold dominios_do_sistema. rewrite !elem_of_cons, elem_of_nil.
  intros [-> | [-> | [-> | [-> | [-> | [-> | []]]]]]];
    cbv beta iota delta
      [dom_gerar dom_nome dom_temperatura dom_umidade dom_vento dom_chuva
       dom_radiacao dom_pressao
       ZonaTemperatura.gerar_alerta_inteligente ZonaUmidade.gerar_alerta_inteligente
       ZonaVento.gerar_alerta_inteligente ZonaChuva.gerar_alerta_inteligente
       ZonaRadiacao.gerar_alerta_inteligente ZonaPressao.gerar_alerta_inteligente
       gerar_alerta_inteligente_com];
    change (zonas_de "temperatura") with ZonaTemperatura.zonas;
    change (zonas_de "umidade") with ZonaUmidade.zonas;
    change (zonas_de "vento") with ZonaVento.zonas;
    change (zonas_de "chuva") with ZonaChuva.zonas;
    change (zonas_de "radiacao") with ZonaRadiacao.zonas;
    change (zonas_de "pressao") with ZonaPressao.zonas;
    intros -> ->; cbn [andb]; eexists; reflexivity.
Qed.

Lemma processar_zonas_bem_formado w leitura st :
  bem_formado st = true -> exists r, processar_zonas w leitura st = Ok r.
Proof.
  intros Hbf. rewrite bem_formado_dominios in Hbf.
  unfold processar_zonas.
  destruct (bloco_zona_bem_formado dom_temperatura (agora w) (tem_ins leitura)
              _ None ltac:(no_sistema) (Hbf dom_temperatura ltac:(no_sistema)))
    as [[e1 a1] H1].
  destruct (bloco_zona_bem_formado dom_umidade (agora w) (umd_ins leitura)
              _ None ltac:(no_sistema) (Hbf dom_umidade ltac:(no_sistema)))
    as [[e2 a2] H2].
  destruct (bloco_zona_bem_formado dom_vento (agora w) (ven_vel leitura)
              _ (Some (ven_raj leitura)) ltac:(no_sistema)
              (Hbf dom_vento ltac:(no_sistema)))
    as [[e3 a3] H3].
  destruct (bloco_zona_bem_formado dom_chuva (agora w)
              (if truthy (chuva leitura) then chuva leitura else zero)
              _ None ltac:(no_sistema) (Hbf dom_chuva ltac:(no_sistema)))
    as [[e4 a4] H4].
  destruct (bloco_zona_bem_formado dom_radiacao (agora w) (rad_glo leitura)
              _ None ltac:(no_sistema) (Hbf dom_radiacao ltac:(no_sistema)))
    as [[e5 a5] H5].
  destruct (bloco_zona_bem_formado dom_pressao (agora w) (pre_ins leitura)
              _ (Some (WeatherDatabase.get_pressure_variation
                         (WeatherDatabase.get_latest_reading (linha w)) (leitura_3h w)))
              ltac:(no_sistema) (Hbf dom_pressao ltac:(no_sistema)))
    as [[e6 a6] H6].
  cbv beta iota delta [dom_nome dom_detectar dom_gerar dom_temperatura dom_umidade
                       dom_vento dom_chuva dom_radiacao dom_pressao] in H1, H2, H3, H4, H5, H6.
  change (fun m => ZonaTemperatura.gerar_alerta_inteligente m)
    with ZonaTemperatura.gerar_alerta_inteligente in H1.
  change (fun m => ZonaUmidade.gerar_alerta_inteligente m)
    with ZonaUmidade.gerar_alerta_inteligente in H2.
  change (fun m => ZonaChuva.gerar_alerta_inteligente m)
    with ZonaChuva.gerar_alerta_inteligente in H4.
  change (fun m => ZonaRadiacao.gerar_alerta_inteligente m)
    with ZonaRadiacao.gerar_alerta_inteligente in H5.
  rewrite H1, H2, H3, H4, H5, H6. eexists; reflexivity.
Qed.

(** X16. The well-formed state documents are an invariant of the program. The
    default document is well-formed; on a well-formed document and a
    finite reading [processar_zonas] does not raise, so no zone renderer
    fails on a missing key or a missing value; and a cycle that loads a
    well-formed document (or none), reads a finite row, completes and
    writes leaves a well-formed document. *)
Theorem X16_estado_bem_formado_e_invariante (w : Mundo) (leitura : Leitura) :
  bem_formado (StateManager.load (arquivo w) (agora w)) = true ->
  leitura_finita leitura = true ->
  bem_formado (StateManager._create_default_states (agora w)) = true /\
  (exists r, processar_zonas w leitura (StateManager.load (arquivo w) (agora w)) = Ok r) /\
  (WeatherDatabase.get_latest_reading (linha w) = Some leitura ->
   exit_code (main w) = 0%Z -> grava w = true ->
   exists depois, arquivo_final (main w) = Some depois /\ bem_formado depois = true).
Proof.
  intros Hbf Hfin. split; [reflexivity |].
  split; [exact (processar_zonas_bem_formado w leitura _ Hbf) |].
  intros Hl Hex Hg.
  destruct (main_zonas w Hex Hg) as (l' & depois & Hl' & Harq & Hz).
  rewrite Hl in Hl'. injection Hl' as <-.
  exists depois. split; [exact Harq |].
  rewrite bem_formado_dominios in Hbf |- *.
  intros d Hd. specialize (Hz d Hd). specialize (Hbf d Hd).
  unfold StateManager.get_zone_state at 1. rewrite Hz.
  destruct (dominio_detecta_com d Hd) as [Hcom _]. rewrite Hcom.
  unfold detectar_mudanca_com.
  destruct (zona (StateManager.get_zone_state _ (dom_nome d))) as [za|] eqn:Hza.
  - destruct (negb (dom_classificar d (valor_lido leitura (dom_nome d)) =? za)%string).
    + cbn [default from_option id zona_atual_de]. unfold entrada_bem_formada.
      unfold zona_gravada. cbn [zona valor]. rewrite (classificar_em_zonas d _ Hd).
      rewrite (valor_lido_finito _ _ Hfin). reflexivity.
    + exact Hbf.
  - cbn [default from_option id zona_atual_de]. unfold entrada_bem_formada.
    unfold zona_gravada. cbn [zona valor]. rewrite (classificar_em_zonas d _ Hd).
    rewrite (valor_lido_finito _ _ Hfin). reflexivity.
Qed.

Lemma X16_witness_ciclo_exemplo :
  exists depois,
    arquivo_final (main (mundo_exemplo linha_exemplo (sempre true) estado_exemplo))
    = Some depois /\
    bem_formado depois = true.
Proof.
  exact (proj2 (proj2
           (X16_estado_bem_formado_e_invariante
              (mundo_exemplo linha_exemplo (sempre true) estado_exemplo)
              (default (Build_Leitura zero zero zero zero zero zero zero)
                 (WeatherDatabase.get_latest_reading (Some linha_exemplo)))
              eq_refl eq_refl))
           eq_refl eq_refl eq_refl).
Defined.

(** ** The labels of config.py and the zones *)

Ltac cadeia :=
  repeat match goal with
    | |- context [if ?b then _ else _] =>
        lazymatch b with
        | lt _ _ => destruct b eqn:?
        | le _ _ => destruct b eqn:?
        | eq _ _ => destruct b eqn:?
        end
    end.

(** X17. The labels the messages take from [Config] agree with the zones
    of the zone modules, which compare against thresholds of their own.
    For every value the comfort category is the temperature zone and the
    Beaufort label is that of the wind zone; the rain intensity is the
    rain zone except at 0, where the zone is SEM_CHUVA and [Config] says
    GAROA; the radiation label is that of the radiation zone, except that
    [Config] has no twilight (it says NOITE wherever the zone is
    CREPUSCULO) and spells MUITO ALTA with a space. *)
Theorem X17_rotulos_de_config_e_zonas (x : float) :
  ConfigMetodos.get_conforto_termico x = ZonaTemperatura.classificar x /\
  ConfigMetodos.get_beaufort_scale x = rotulo_beaufort (ZonaVento.classificar x) /\
  ConfigMetodos.get_chuva_intensity x
  = (if eq x zero then "GAROA" else ZonaChuva.classificar x) /\
  ConfigMetodos.get_rad_zone x = rotulo_radiacao (ZonaRadiacao.classificar x).
Proof.
  split; [reflexivity |]. split; [| split].
  - unfold ConfigMetodos.get_beaufort_scale, ZonaVento.classificar.
    change ConfigMetodos.VENTO_CALMO with ZonaVento.VENTO_CALMO.
    change ConfigMetodos.VENTO_ARAGEM with ZonaVento.VENTO_ARAGEM.
    change ConfigMetodos.VENTO_BRISA_LEVE with ZonaVento.VENTO_BRISA_LEVE.
    change ConfigMetodos.VENTO_BRISA_MODERADA with ZonaVento.VENTO_BRISA_MODERADA.
    change ConfigMetodos.VENTO_BRISA_FRESCA with ZonaVento.VENTO_BRISA_FRESCA.
    change ConfigMetodos.VENTO_MODERADO with ZonaVento.VENTO_MODERADO.
    change ConfigMetodos.VENTO_FORTE with ZonaVento.VENTO_FORTE.
    cadeia; reflexivity.
  - unfold ConfigMetodos.get_chuva_intensity, ZonaChuva.classificar.
    destruct (eq x zero) eqn:E; [| reflexivity].
    assert (H : lt x Config.CHUVA_LIMITS_GAROA = true).
    { destruct x as [s | s | | s m e]; try destruct s; vm_compute in E;
        try discriminate E; reflexivity. }
    rewrite H. reflexivity.
  - unfold ConfigMetodos.get_rad_zone, ZonaRadiacao.classificar.
    change ConfigMetodos.RAD_LIMITS_NOITE with (of_Z 50).
    destruct (le x zero) eqn:E.
    + assert (H : lt x (of_Z 50) = true).
      { apply (le_lt_trans _ zero); [exact E | reflexivity]. }
      rewrite H. reflexivity.
    + cadeia; reflexivity.
Qed.

(** ** The dispatch through send_whatsapp.py *)

Lemma send_message_code r :
  (SendWhatsapp.code (SendWhatsapp.send_message r) =? 0)%Z = SendWhatsapp.aceita r.
Proof.
  destruct r as [s | c | |]; cbn; try reflexivity.
  - destruct ((s =? 200)%Z || (s =? 201)%Z); reflexivity.
  - destruct ((c =? 400)%Z || (c =? 403)%Z); reflexivity.
Qed.

Lemma fold_passo tentativas results ok results' ok' :
  fold_left SendWhatsapp.passo_numero tentativas (results, ok) = (results', ok') ->
  ok' = ok && forallb (fun t => SendWhatsapp.aceita (snd t)) tentativas /\
  (map_Forall (fun _ r => SendWhatsapp.code r = 0%Z) results -> ok' = true ->
   map_Forall (fun _ r => SendWhatsapp.code r = 0%Z) results').
Proof.
  revert results ok. induction tentativas as [|[num r] ts IH]; intros results ok;
    cbn [fold_left forallb snd].
  - intros [= <- <-]. rewrite andb_true_r. auto.
  - unfold SendWhatsapp.passo_numero at 2. rewrite send_message_code.
    intros H. destruct (IH _ _ H) as [-> Hres]. split.
    + destruct (SendWhatsapp.aceita r), ok; reflexivity.
    + intros Hall Hok. apply Hres; [| exact Hok].
      apply map_Forall_insert_2; [| exact Hall].
      apply Z.eqb_eq. rewrite send_message_code.
      destruct (SendWhatsapp.aceita r); [reflexivity |].
      cbn [negb] in Hok. rewrite andb_false_l in Hok. discriminate Hok.
Qed.

Lemma todos_code_0_Forall resultados :
  map_Forall (fun _ r => SendWhatsapp.code r = 0%Z) resultados ->
  SendWhatsapp.todos_code_0 resultados = true.
Proof.
  intros H. unfold SendWhatsapp.todos_code_0. apply forallb_forall.
  intros [k r] Hin. apply Z.eqb_eq. apply (H k).
  apply elem_of_map_to_list. apply list_elem_of_In. exact Hin.
Qed.

(** X18. When the subprocess ends in time, [enviar_whatsapp] answers true
    exactly when every request of the list was answered with HTTP 200 or
    201: the exit code of send_whatsapp.py already says so, and the check
    of the printed codes never changes the answer. With no number in the
    list the answer is true although nothing was sent. A subprocess that
    expires, ends with another exit code or prints no JSON counts as a
    failure; a permanent error (code 2) is an HTTP error 400 or 403. *)
Theorem X18_enviar_whatsapp_e_todas_as_respostas
    (tentativas : list (string * SendWhatsapp.Resposta)) :
  SendWhatsapp.enviar_whatsapp (SendWhatsapp.executa tentativas)
  = forallb (fun t => SendWhatsapp.aceita (snd t)) tentativas /\
  (fst (SendWhatsapp.main tentativas) = 0%Z <->
   forallb (fun t => SendWhatsapp.aceita (snd t)) tentativas = true) /\
  SendWhatsapp.enviar_whatsapp (SendWhatsapp.executa []) = true /\
  SendWhatsapp.enviar_whatsapp SendWhatsapp.expirou = false /\
  (forall stdout, SendWhatsapp.enviar_whatsapp (SendWhatsapp.terminou 1 stdout) = false) /\
  (forall r, SendWhatsapp.code (SendWhatsapp.send_message r) = 2%Z <->
             r = SendWhatsapp.http_error 400 \/ r = SendWhatsapp.http_error 403).
Proof.
  assert (Hmain : fst (SendWhatsapp.main tentativas)
                  = (if forallb (fun t => SendWhatsapp.aceita (snd t)) tentativas
                     then 0 else 1)%Z /\
                  (forallb (fun t => SendWhatsapp.aceita (snd t)) tentativas = true ->
                   SendWhatsapp.todos_code_0 (snd (SendWhatsapp.main tentativas)) = true)).
  { unfold SendWhatsapp.main.
    destruct (fold_left SendWhatsapp.passo_numero tentativas (∅, true))
      as [results ok] eqn:E.
    destruct (fold_passo _ _ _ _ _ E) as [-> Hres]. cbn [fst snd andb].
    split; [reflexivity |]. intros Hok. apply todos_code_0_Forall.
    apply Hres; [apply map_Forall_empty | exact Hok]. }
  destruct Hmain as [Hcode Hjson].
  split; [| split; [| split; [| split; [| split]]]].
  - unfold SendWhatsapp.executa, SendWhatsapp.enviar_whatsapp. rewrite Hcode.
    destruct (forallb _ tentativas); cbn; [apply Hjson; reflexivity | reflexivity].
  - rewrite Hcode. destruct (forallb _ tentativas); split; congruence.
  - reflexivity.
  - reflexivity.
  - intros stdout. reflexivity.
  - intros [s | c | |]; cbn.
    + destruct ((s =? 200)%Z || (s =? 201)%Z); cbn;
        split; try discriminate; intros [H | H]; discriminate H.
    + destruct (Z.eqb_spec c 400) as [-> | H4]; cbn; [split; auto |].
      destruct (Z.eqb_spec c 403) as [-> | H3]; cbn; [split; auto |].
      split; [discriminate |]. intros [[= ->] | [= ->]]; contradiction.
    + split; [discriminate |]. intros [H | H]; discriminate H.
    + split; [discriminate |]. intros [H | H]; discriminate H.
Qed.

(** ** The row of some hours ago *)

Lemma lt_irrefl x : lt x x = false.
Proof.
  destruct (lt x x) eqn:E; [| reflexivity].
  pose proof (lt_le_false _ _ E) as H1. pose proof (lt_le _ _ E) as H2. congruence.
Qed.

Lemma lt_trans x y z : lt x y = true -> lt y z = true -> lt x z = true.
Proof. intros H1 H2. apply (lt_le_trans _ y); [exact H1 | apply lt_le; exact H2]. Qed.

Lemma lt_asym x y : lt x y = true -> lt y x = false.
Proof.
  intros H. destruct (lt y x) eqn:E; [| reflexivity].
  pose proof (lt_trans _ _ _ H E) as Hxx. rewrite lt_irrefl in Hxx. discriminate Hxx.
Qed.

(** A difference that did not beat [d] does not beat what replaced [d]. *)
Lemma nao_supera x d d' :
  lt x d = false -> d' = d \/ lt d' d = true -> lt x d' = false.
Proof.
  intros Hx [-> | Hd]; [exact Hx |].
  destruct (lt x d') eqn:E; [| reflexivity].
  pose proof (lt_trans _ _ _ E Hd). congruence.
Qed.

(** The loop of [get_reading_hours_ago]: the row it keeps is one of the
    rows with a time, and no row with a time is strictly closer. *)
Lemma fold_passo_mais_proximo hb registros :
  forall melhor menor melhor' menor',
    fold_left (Database.passo_registro hb) registros (melhor, menor) = (melhor', menor') ->
    match melhor, menor with
    | Some r, Some dif =>
        exists m, Database.medicao_real r = Some m /\ dif = Database.diferenca hb m
    | None, None => True
    | _, _ => False
    end ->
    match melhor', menor' with
    | Some r, Some dif =>
        (exists m, Database.medicao_real r = Some m /\ dif = Database.diferenca hb m) /\
        (melhor = Some r \/ In r registros) /\
        (forall d, menor = Some d -> dif = d \/ lt dif d = true) /\
        (forall r' m', In r' registros -> Database.medicao_real r' = Some m' ->
           lt (Database.diferenca hb m') dif = false)
    | None, None =>
        melhor = None /\ forall r', In r' registros -> Database.medicao_real r' = None
    | _, _ => False
    end.
Proof.
  induction registros as [|r rs IH]; intros melhor menor melhor' menor';
    cbn [fold_left].
  - intros [= <- <-] Hinv. destruct melhor as [b|], menor as [d|]; try contradiction.
    + split; [exact Hinv |]. split; [auto |]. split; [| intros ? ? []].
      intros d0 [= <-]. auto.
    + split; [reflexivity | intros ? []].
  - intros Hf Hinv.
    destruct (Database.passo_registro hb (melhor, menor) r) as [melhor1 menor1] eqn:E1.
    specialize (IH _ _ _ _ Hf).
    unfold Database.passo_registro in E1.
    destruct (Database.medicao_real r) as [m|] eqn:Hm.
    + assert (Hnovo : exists m0, Database.medicao_real r = Some m0 /\
                        Database.diferenca hb m = Database.diferenca hb m0)
        by (exists m; auto).
      destruct menor as [d|].
      * destruct melhor as [b|]; [| contradiction].
        destruct (lt (Database.diferenca hb m) d) eqn:Elt; injection E1 as <- <-.
        -- specialize (IH Hnovo).
           destruct melhor' as [b'|], menor' as [d'|]; try contradiction;
             [| destruct IH as [Hn _]; discriminate Hn].
           destruct IH as (Hb' & Hin & Hprev & Hmin).
           split; [exact Hb' |]. split.
           { right. destruct Hin as [[= <-] | Hin]; [left | right]; auto. }
           split.
           { intros d0 [= <-]. right.
             destruct (Hprev _ eq_refl) as [-> | Hd]; [exact Elt |].
             exact (lt_trans _ _ _ Hd Elt). }
           intros r' m' [<- | Hin'] Hm'; [| exact (Hmin r' m' Hin' Hm')].
           rewrite Hm in Hm'. injection Hm' as <-.
           destruct (Hprev _ eq_refl) as [-> | Hd]; [apply lt_irrefl |].
           exact (lt_asym _ _ Hd).
        -- specialize (IH Hinv).
           destruct melhor' as [b'|], menor' as [d'|]; try contradiction;
             [| destruct IH as [Hn _]; discriminate Hn].
           destruct IH as (Hb' & Hin & Hprev & Hmin).
           split; [exact Hb' |]. split.
           { destruct Hin as [Hin | Hin]; [left | right; right]; auto. }
           split; [exact Hprev |].
           intros r' m' [<- | Hin'] Hm'; [| exact (Hmin r' m' Hin' Hm')].
           rewrite Hm in Hm'. injection Hm' as <-.
           exact (nao_supera _ _ _ Elt (Hprev _ eq_refl)).
      * destruct melhor as [b|]; [contradiction |]. injection E1 as <- <-.
        specialize (IH Hnovo).
        destruct melhor' as [b'|], menor' as [d'|]; try contradiction;
          [| destruct IH as [Hn _]; discriminate Hn].
        destruct IH as (Hb' & Hin & Hprev & Hmin).
        split; [exact Hb' |]. split.
        { right. destruct Hin as [[= <-] | Hin]; [left | right]; auto. }
        split; [intros ? [=] |].
        intros r' m' [<- | Hin'] Hm'; [| exact (Hmin r' m' Hin' Hm')].
        rewrite Hm in Hm'. injection Hm' as <-.
        destruct (Hprev _ eq_refl) as [-> | Hd]; [apply lt_irrefl |].
        exact (lt_asym _ _ Hd).
    + injection E1 as <- <-. specialize (IH Hinv).
      destruct melhor' as [b'|], menor' as [d'|]; try contradiction.
      * destruct IH as (Hb' & Hin & Hprev & Hmin).
        split; [exact Hb' |]. split.
        { destruct Hin as [Hin | Hin]; [left | right; right]; auto. }
        split; [exact Hprev |].
        intros r' m' [<- | Hin'] Hm'; [congruence | exact (Hmin r' m' Hin' Hm')].
      * destruct IH as [Hn Hnone]. split; [exact Hn |].
        intros r' [<- | Hin']; [exact Hm | exact (Hnone r' Hin')].
Qed.

(** X19. [get_reading_hours_ago] answers nothing exactly when the query
    fetched no row or the newest row has no readable time. Otherwise it
    answers one of the fetched rows with a readable time, and no fetched
    row is strictly closer to the instant aimed at, as the code measures
    it. In particular, when the newest row is the only one, it is itself
    the row of any number of hours ago. *)
Theorem X19_leitura_de_horas_atras_mais_proxima
    (registros : list Database.Registro) (hours : Z) :
  (Database.get_reading_hours_ago registros hours = None
   <-> Database.hora_busca_de registros hours = None) /\
  (forall r,
     Database.get_reading_hours_ago registros hours = Some r ->
     exists hora_busca m,
       Database.hora_busca_de registros hours = Some hora_busca /\
       In r registros /\ Database.medicao_real r = Some m /\
       forall r' m', In r' registros -> Database.medicao_real r' = Some m' ->
         lt (Database.diferenca hora_busca m') (Database.diferenca hora_busca m)
         = false) /\
  (forall r m, Database.medicao_real r = Some m ->
     Database.get_reading_hours_ago [r] hours = Some r).
Proof.
  assert (Hgeral : forall r0 rs alvo,
            Database.medicao_real r0 = Some alvo ->
            exists r m,
              Database.get_reading_hours_ago (r0 :: rs) hours = Some r /\
              In r (r0 :: rs) /\ Database.medicao_real r = Some m /\
              forall r' m', In r' (r0 :: rs) -> Database.medicao_real r' = Some m' ->
                lt (Database.diferenca (Database.menos_horas alvo hours) m')
                   (Database.diferenca (Database.menos_horas alvo hours) m) = false).
  { intros r0 rs alvo H0. unfold Database.get_reading_hours_ago. rewrite H0.
    destruct (fold_left (Database.passo_registro (Database.menos_horas alvo hours))
                (r0 :: rs) (None, None)) as [melhor menor] eqn:E.
    pose proof (fold_passo_mais_proximo _ _ _ _ _ _ E I) as H.
    destruct melhor as [r|], menor as [d|]; try contradiction.
    - destruct H as ((m & Hm & ->) & [Hin | Hin] & _ & Hmin); [discriminate Hin |].
      exists r, m. repeat split; auto.
    - destruct H as [_ Hnone]. rewrite (Hnone r0 (or_introl eq_refl)) in H0.
      discriminate H0. }
  split; [| split].
  - destruct registros as [|r0 rs]; [split; reflexivity |].
    cbn [Database.hora_busca_de].
    destruct (Database.medicao_real r0) as [alvo|] eqn:H0.
    + destruct (Hgeral r0 rs alvo H0) as (r & m & Hr & _). rewrite Hr.
      split; discriminate.
    + unfold Database.get_reading_hours_ago. rewrite H0. split; reflexivity.
  - intros r Hr. destruct registros as [|r0 rs]; [discriminate Hr |].
    cbn [Database.hora_busca_de].
    destruct (Database.medicao_real r0) as [alvo|] eqn:H0.
    + destruct (Hgeral r0 rs alvo H0) as (r' & m & Hr' & Hin & Hm & Hmin).
      rewrite Hr in Hr'. injection Hr' as <-.
      exists (Database.menos_horas alvo hours), m. repeat split; auto.
    + unfold Database.get_reading_hours_ago in Hr. rewrite H0 in Hr. discriminate Hr.
  - intros r m Hm. unfold Database.get_reading_hours_ago, Database.passo_registro.
    cbn [fold_left]. rewrite Hm. reflexivity.
Qed.

Lemma X19_witness_tres_registros :
  exists r,
    Database.get_reading_hours_ago registros_exemplo 1 = Some r /\
    Database.colunas r = anterior_20_graus /\ In r registros_exemplo.
Proof.
  destruct (proj1 (proj2 (X19_leitura_de_horas_atras_mais_proxima registros_exemplo 1))
              {| Database.medicao_real := Some {| dia := 739000; micro := 18000000000 |};
                 Database.colunas := anterior_20_graus |})
    as (hb & m & _ & Hin & _).
  - vm_compute. reflexivity.
  - eexists. split; [vm_compute; reflexivity |]. split; [reflexivity | exact Hin].
Defined.

(** ** From one cycle to the next *)

(** X20. The critical debounce across two cycles. Let a cycle complete
    and write, and let the next cycle load the file it left. If the first
    cycle left the flag of a kind active (an evaluator emitted the kind,
    and the flag was already active or the alert went out with success),
    the next cycle dispatches no alert of that kind, whatever it reads.
    If it left the flag inactive (the kind was not emitted, or its
    dispatch failed), then every alert of that kind an evaluator emits in
    the next cycle is dispatched, provided that cycle completes: a failed
    dispatch is tried again, and an ended condition is armed again. *)
Theorem X20_critico_uma_vez_enquanto_durar (w w' : Mundo) (tipo_critico : string) :
  exit_code (main w) = 0%Z -> grava w = true ->
  arquivo w' = arquivo_final (main w) -> In tipo_critico tipos_criticos ->
  exists leitura,
    WeatherDatabase.get_latest_reading (linha w) = Some leitura /\
    let gravado :=
      match encontra_dados (criticos_do_ciclo w leitura) tipo_critico with
      | Some d =>
          StateManager.get_critical_state
            (StateManager.load (arquivo w) (agora w)) tipo_critico
          || enviar_whatsapp w (msg_critico d)
      | None => false
      end in
    (gravado = true ->
     forall d' b, In (msg_critico d', b) (enviadas (main w')) ->
                  tipo d' <> tipo_critico) /\
    (gravado = false ->
     forall leitura' d',
       exit_code (main w') = 0%Z ->
       WeatherDatabase.get_latest_reading (linha w') = Some leitura' ->
       In (tipo_critico, d') (criticos_do_ciclo w' leitura') ->
       exists d'',
         tipo d'' = tipo_critico /\
         In (msg_critico d'', enviar_whatsapp w' (msg_critico d''))
           (enviadas (main w'))).
Proof.
  intros Hex Hg Harq Hin.
  destruct (main_sucesso w Hex)
    as (leitura & ai & st2 & log2 & st3 & log3 & st4 & log4
        & Hl & Hcri & Hrel & Hger & Hfin & _).
  unfold StateManager.save in Hfin. rewrite Hg in Hfin.
  exists leitura. split; [exact Hl |]. intros gravado.
  assert (Hflag : StateManager.get_critical_state
                    (StateManager.load (arquivo w') (agora w')) tipo_critico
                  = gravado).
  { rewrite Harq, Hfin. cbn [StateManager.load].
    destruct (alerta_geral_frame _ _ _ _ _ Hger) as (_ & _ & H4).
    destruct (relatorios_frame _ _ _ _ _ _ Hrel) as (_ & _ & H3).
    unfold StateManager.get_critical_state at 1. cbn [st_alertas_criticos].
    rewrite H4, H3. fold (StateManager.get_critical_state st2 tipo_critico).
    rewrite (fold_criticos_flag w _ _ (criticos_do_ciclo_tipo w leitura)
               tipos_criticos_NoDup _ _ _ _ Hcri tipo_critico Hin).
    rewrite (get_critical_state_ext _ (StateManager.load (arquivo w) (agora w))
               tipo_critico); [reflexivity |].
    exact (proj1 (proj2 (proj2 (atualizar_estados_frame (agora w) _ _)))). }
  assert (Hantes' : forall t,
            StateManager.get_critical_state
              (atualizar_estados (agora w')
                 (estados_do_ciclo (agora w')
                    (default (Build_Leitura zero zero zero zero zero zero zero)
                       (WeatherDatabase.get_latest_reading (linha w')))
                    (StateManager.load (arquivo w') (agora w')))
                 (StateManager.load (arquivo w') (agora w'))) t
            = StateManager.get_critical_state
                (StateManager.load (arquivo w') (agora w')) t).
  { intros t. apply get_critical_state_ext.
    exact (proj1 (proj2 (proj2 (atualizar_estados_frame (agora w') _ _)))). }
  split.
  - intros Hgrav d' b Hin' Ht.
    destruct (main_critico_enviado w' d' b Hin')
      as (leitura' & st2' & log2' & Hl' & Hcri' & Hin2).
    destruct (enviar_criticos_origem _ _ _ _ _ Hcri') as [_ Ho].
    destruct (Ho _ Hin2) as (d0 & [= <- _] & Hget & _).
    rewrite Hl' in Hantes'. cbn [default from_option id] in Hantes'.
    rewrite Hantes', Ht, Hflag, Hgrav in Hget. discriminate Hget.
  - intros Hgrav leitura' d' Hex' Hl' Hd'.
    destruct (main_sucesso w' Hex')
      as (l0 & ai' & st2' & log2' & st3' & log3' & st4' & log4'
          & Hl0 & Hcri' & _ & _ & _ & Henv').
    rewrite Hl' in Hl0. injection Hl0 as <-.
    rewrite Hl' in Hantes'. cbn [default from_option id] in Hantes'.
    destruct (fold_criticos_completo w' _ _ (criticos_do_ciclo_tipo w' leitura')
                tipos_criticos_NoDup _ _ _ _ Hcri' tipo_critico Hin)
      as (d'' & Ht & _ & Hlog).
    + rewrite Hantes', Hflag. exact Hgrav.
    + exact (In_criticos_ativos _ _ _ Hd').
    + exists d''. split; [exact Ht |]. rewrite Henv', !in_app_iff. auto.
Qed.

Lemma X20_witness_frio_ja_avisado :
  ~ In (msg_critico (frio_extremo zero (of_Z 18)), true)
      (enviadas (main (ciclo_seguinte
                         (mundo_exemplo linha_sem_temperatura (sempre true)
                            estado_exemplo) as_6h10))).
Proof.
  destruct (X20_critico_uma_vez_enquanto_durar
              (mundo_exemplo linha_sem_temperatura (sempre true) estado_exemplo)
              (ciclo_seguinte
                 (mundo_exemplo linha_sem_temperatura (sempre true) estado_exemplo)
                 as_6h10)
              "frio_extremo" eq_refl eq_refl eq_refl)
    as (leitura & Hl & Hsim & _).
  - vm_compute. auto.
  - injection Hl as <-. intros Hin. exact (Hsim eq_refl _ _ Hin eq_refl).
Defined.

(** Whatever the exit code, a general alert that was dispatched came out
    of the general alert block, run on a state that holds the snapshot
    the cycle loaded. *)
Lemma main_geral_enviado w m b :
  In (m, b) (enviadas (main w)) -> especie m = e_geral ->
  exists leitura st3 r log4,
    WeatherDatabase.get_latest_reading (linha w) = Some leitura /\
    st_alerta_geral st3 = st_alerta_geral (StateManager.load (arquivo w) (agora w)) /\
    alerta_geral w leitura st3 = (r, log4) /\
    In (m, b) log4.
Proof.
  intros Hin Hesp. revert Hin.
  abre_main w; try (intros []).
  all: destruct (processar_zonas_inv _ _ _ _ _ _ _ Hproc) as (Hea & Hac & Htr);
    subst ea ac tr;
    destruct (enviar_criticos_frame _ _ _ _ _ Hcri) as (_ & Hg2 & _);
    rewrite (proj1 (atualizar_estados_frame (agora w) _ _)) in Hg2;
    rewrite ?in_app_iff; intros Hin.
  1, 2: destruct (relatorios_frame _ _ _ _ _ _ Hrel) as (_ & Hg3 & _);
    assert (Hin4 : In (m, b) log4);
    [ | exists leitura, st3; eexists; exists log4;
        repeat split; try eassumption; congruence ].
  all: repeat match goal with
         | H : _ \/ _ |- _ => destruct H as [H | H]
         end; try assumption; exfalso.
  all: try (apply enviar_inteligentes_especie in Hin; cbn [fst] in Hin; congruence).
  all: try (apply (enviar_criticos_especie _ _ _ _ _ _
                     (criticos_do_ciclo_tipo w leitura) Hcri) in Hin;
            cbn [fst] in Hin; congruence).
  all: destruct (relatorios_um _ _ _ _ _ _ Hrel) as [_ Hesp3];
    rewrite Forall_forall in Hesp3; apply list_elem_of_In in Hin;
    destruct (Hesp3 _ Hin) as [H3 | H3]; cbn [fst] in H3; congruence.
Qed.

(** X21. The general alert is not repeated while nothing changes. After
    a cycle that completed, wrote and dispatched its general alert with
    success, a following cycle that loads the file it left and finds the
    same newest row dispatches no general alert as long as fewer than 6
    hours have elapsed. *)
Theorem X21_alerta_geral_nao_se_repete (w w' : Mundo) (leitura : Leitura) :
  WeatherDatabase.get_latest_reading (linha w) = Some leitura ->
  exit_code (main w) = 0%Z -> grava w = true ->
  In (msg_geral leitura, true) (enviadas (main w)) ->
  arquivo w' = arquivo_final (main w) -> linha w' = linha w ->
  ge (div (StateManager.total_seconds (agora w') (agora w)) (of_Z 3600)) (of_Z 6)
  = false ->
  forall m b, In (m, b) (enviadas (main w')) -> especie m <> e_geral.
Proof.
  intros Hl Hex Hg Hsent Harq Hlin Hhoras m b Hin Hesp.
  destruct (main_alerta_geral_final w leitura Hl Hex Hg)
    as (depois & Hfin & [(_ & _ & Hsnap) | (Hnot & _)]);
    [| exact (Hnot _ Hsent)].
  destruct (main_geral_enviado w' m b Hin Hesp)
    as (leitura' & st3 & r & log4 & Hl' & Hag & Hger & Hin4).
  rewrite Hlin, Hl in Hl'. injection Hl' as <-.
  rewrite Harq, Hfin in Hag. cbn [StateManager.load] in Hag. rewrite Hsnap in Hag.
  revert Hger. unfold alerta_geral, StateManager.should_send_general_alert.
  rewrite Hag. cbn [ultima_temp ultima_umid ultima_pressao ultimo_envio].
  rewrite !sub_diag_abs_abaixo by reflexivity. rewrite Hhoras.
  intros [= _ <-]. destruct Hin4.
Qed.

Lemma X21_witness_cinco_minutos_depois :
  ~ In (msg_geral (default (Build_Leitura zero zero zero zero zero zero zero)
                     (WeatherDatabase.get_latest_reading (Some linha_exemplo))), true)
      (enviadas (main (ciclo_seguinte
                         (mundo_exemplo linha_exemplo (sempre true) estado_exemplo)
                         as_6h10))).
Proof.
  intros Hin.
  refine (X21_alerta_geral_nao_se_repete
            (mundo_exemplo linha_exemplo (sempre true) estado_exemplo)
            (ciclo_seguinte
               (mundo_exemplo linha_exemplo (sempre true) estado_exemplo) as_6h10)
            (default (Build_Leitura zero zero zero zero zero zero zero)
               (WeatherDatabase.get_latest_reading (Some linha_exemplo)))
            eq_refl eq_refl eq_refl _ eq_refl eq_refl eq_refl _ _ Hin eq_refl).
  vm_compute. repeat (try (left; reflexivity); right).
Defined.

(** ** The insights of the general alert *)

(** Appending the sentences of a later block keeps a list free of
    repetitions. *)
Lemma NoDup_bloco (k : nat) (l novos : list Insight) :
  NoDup l /\ Forall (fun x => bloco_do_insight x < k) l ->
  NoDup novos -> Forall (fun x => bloco_do_insight x = k) novos ->
  NoDup (l ++ novos) /\ Forall (fun x => bloco_do_insight x < S k) (l ++ novos).
Proof.
  intros [Hl Hk] Hn Hb. split.
  - apply NoDup_app. split; [exact Hl |]. split; [| exact Hn].
    intros x Hx Hx'. rewrite Forall_forall in Hk, Hb.
    specialize (Hk x Hx). specialize (Hb x Hx'). lia.
  - apply Forall_app. split.
    + eapply Forall_impl; [exact Hk |]. intros x Hx. cbn in Hx. lia.
    + eapply Forall_impl; [exact Hb |]. intros x Hx. cbn in Hx. lia.
Qed.

Lemma contem_elem x l : contem x l = true <-> x ∈ l.
Proof. unfold contem. apply bool_decide_eq_true. Qed.

Lemma contem_nao_elem x l : contem x l = false <-> x ∉ l.
Proof. unfold contem. apply bool_decide_eq_false. Qed.

Ltac membros :=
  repeat match goal with
    | |- context [if ?b then _ else _] => destruct b
    end;
  rewrite ?app_nil_r, ?elem_of_app, ?elem_of_cons, ?elem_of_nil;
  intuition (discriminate || congruence).

(** What [gerar_insights] returns, block after block: no sentence twice,
    and where the three sentences that the combined conditions test or
    append come from. *)
Lemma gerar_insights_blocos leitura dt dp :
  NoDup (gerar_insights leitura dt dp) /\
  (calor_intensificando ∈ gerar_insights leitura dt dp <->
   (lt dt (SFopp (of_Z 2)) = false /\ gt dt (of_Z 3) = true /\
    gt dt (of_Z 5) = true /\ gt (tem_ins leitura) (of_Z 30) = true) \/
   (gt (tem_ins leitura) (of_Z 30) = true /\ lt (umd_ins leitura) (of_Z 40) = true)) /\
  (ar_saturado ∈ gerar_insights leitura dt dp <->
   lt (umd_ins leitura) (of_Z 30) = false /\ gt (umd_ins leitura) (of_Z 85) = true) /\
  (chuva_em_breve ∈ gerar_insights leitura dt dp <->
   lt (pre_ins leitura) (of_Z 1010) = true /\ gt (umd_ins leitura) (of_Z 80) = true /\
   ~ (lt (umd_ins leitura) (of_Z 30) = false /\
      gt (umd_ins leitura) (of_Z 85) = true)).
Proof.
  unfold gerar_insights. cbv zeta. cbn [app].
  match goal with
  | |- context [if lt dt (SFopp (of_Z 2)) then ?a else ?b] =>
      set (l1 := if lt dt (SFopp (of_Z 2)) then a else b)
  end.
  assert (N1 : NoDup l1 /\ Forall (fun x => bloco_do_insight x < 2) l1).
  { subst l1.
    repeat match goal with
      | |- context [if ?b then _ else _] => destruct b
      end; split; repeat constructor; rewrite ?elem_of_cons, ?elem_of_nil;
      intuition discriminate. }
  assert (C1 : calor_intensificando ∈ l1 <->
               lt dt (SFopp (of_Z 2)) = false /\ gt dt (of_Z 3) = true /\
               gt dt (of_Z 5) = true /\ gt (tem_ins leitura) (of_Z 30) = true)
    by (subst l1; membros).
  assert (A1 : ar_saturado ∉ l1) by (subst l1; membros).
  assert (B1 : chuva_em_breve ∉ l1) by (subst l1; membros).
  match goal with
  | |- context [if lt dp (SFopp (of_Z 3)) then ?a else ?b] =>
      set (l2 := if lt dp (SFopp (of_Z 3)) then a else b)
  end.
  assert (N2 : NoDup l2 /\ Forall (fun x => bloco_do_insight x < 3) l2).
  { subst l2. destruct N1 as [N1 F1].
    repeat match goal with
      | |- context [if ?b then _ else _] => destruct b
      end;
      first [ apply (NoDup_bloco 2); [split; assumption | ..];
              repeat constructor; rewrite ?elem_of_cons, ?elem_of_nil;
              intuition discriminate
            | split; [exact N1 |];
              eapply Forall_impl; [exact F1 |]; intros x Hx; cbn in Hx; lia ]. }
  assert (C2 : calor_intensificando ∈ l2 <-> calor_intensificando ∈ l1)
    by (subst l2; membros).
  assert (A2 : ar_saturado ∉ l2) by (subst l2; membros).
  assert (B2 : chuva_em_breve ∉ l2) by (subst l2; membros).
  clearbody l1.
  match goal with
  | |- context [if lt (umd_ins leitura) (of_Z 30) then ?a else ?b] =>
      set (l3 := if lt (umd_ins leitura) (of_Z 30) then a else b)
  end.
  assert (N3 : NoDup l3 /\ Forall (fun x => bloco_do_insight x < 4) l3).
  { subst l3. destruct N2 as [N2 F2].
    repeat match goal with
      | |- context [if ?b then _ else _] => destruct b
      end;
      first [ apply (NoDup_bloco 3); [split; assumption | ..];
              repeat constructor; rewrite ?elem_of_cons, ?elem_of_nil;
              intuition discriminate
            | split; [exact N2 |];
              eapply Forall_impl; [exact F2 |]; intros x Hx; cbn in Hx; lia ]. }
  assert (C3 : calor_intensificando ∈ l3 <-> calor_intensificando ∈ l2)
    by (subst l3; membros).
  assert (A3 : ar_saturado ∈ l3 <->
               lt (umd_ins leitura) (of_Z 30) = false /\
               gt (umd_ins leitura) (of_Z 85) = true)
    by (subst l3; membros).
  assert (B3 : chuva_em_breve ∉ l3) by (subst l3; membros).
  clearbody l2.
  match goal with
  | |- context [if gt (rad_glo leitura) (of_Z 3000) then ?a else ?b] =>
      set (l4 := if gt (rad_glo leitura) (of_Z 3000) then a else b)
  end.
  assert (N4 : NoDup l4 /\ Forall (fun x => bloco_do_insight x < 5) l4).
  { subst l4. destruct N3 as [N3 F3].
    repeat match goal with
      | |- context [if ?b then _ else _] => destruct b
      end;
      first [ apply (NoDup_bloco 4); [split; assumption | ..];
              repeat constructor; rewrite ?elem_of_cons, ?elem_of_nil;
              intuition discriminate
            | split; [exact N3 |];
              eapply Forall_impl; [exact F3 |]; intros x Hx; cbn in Hx; lia ]. }
  assert (C4 : calor_intensificando ∈ l4 <-> calor_intensificando ∈ l3)
    by (subst l4; membros).
  assert (A4 : ar_saturado ∈ l4 <-> ar_saturado ∈ l3) by (subst l4; membros).
  assert (B4 : chuva_em_breve ∉ l4) by (subst l4; membros).
  clearbody l3.
  match goal with
  | |- context [if lt (tem_ins leitura) (of_Z 18) then ?a else ?b] =>
      set (l5 := if lt (tem_ins leitura) (of_Z 18) then a else b)
  end.
  assert (N5 : NoDup l5 /\ Forall (fun x => bloco_do_insight x < 6) l5).
  { subst l5. destruct N4 as [N4 F4].
    repeat match goal with
      | |- context [if ?b then _ else _] => destruct b
      end;
      first [ apply (NoDup_bloco 5); [split; assumption | ..];
              repeat constructor; rewrite ?elem_of_cons, ?elem_of_nil;
              intuition discriminate
            | split; [exact N4 |];
              eapply Forall_impl; [exact F4 |]; intros x Hx; cbn in Hx; lia ]. }
  assert (C5 : calor_intensificando ∈ l5 <-> calor_intensificando ∈ l4)
    by (subst l5; membros).
  assert (A5 : ar_saturado ∈ l5 <-> ar_saturado ∈ l4) by (subst l5; membros).
  assert (B5 : chuva_em_breve ∉ l5) by (subst l5; membros).
  clearbody l4.
  match goal with
  | |- context [if gt (tem_ins leitura) (of_Z 30) && lt (umd_ins leitura) (of_Z 40)
                then ?a else ?b] =>
      set (l6 := if gt (tem_ins leitura) (of_Z 30) && lt (umd_ins leitura) (of_Z 40)
                 then a else b)
  end.
  clearbody l5.
  assert (N6 : NoDup l6).
  { subst l6. destruct N5 as [N5 _].
    destruct (gt (tem_ins leitura) (of_Z 30) && lt (umd_ins leitura) (of_Z 40));
      [| exact N5].
    destruct (contem calor_intensificando l5) eqn:E; cbn [negb]; [exact N5 |].
    apply contem_nao_elem in E. apply NoDup_app. split; [exact N5 |].
    split; [| repeat constructor; rewrite elem_of_nil; tauto].
    intros x Hx Hx'. apply list_elem_of_singleton in Hx'. subst x. contradiction. }
  assert (C6 : calor_intensificando ∈ l6 <->
               calor_intensificando ∈ l5 \/
               (gt (tem_ins leitura) (of_Z 30) = true /\
                lt (umd_ins leitura) (of_Z 40) = true)).
  { subst l6.
    destruct (gt (tem_ins leitura) (of_Z 30)), (lt (umd_ins leitura) (of_Z 40));
      cbn [andb]; try (intuition discriminate).
    destruct (contem calor_intensificando l5) eqn:E; cbn [negb].
    - apply contem_elem in E. tauto.
    - rewrite elem_of_app, list_elem_of_singleton. tauto. }
  assert (A6 : ar_saturado ∈ l6 <-> ar_saturado ∈ l5).
  { subst l6.
    destruct (gt (tem_ins leitura) (of_Z 30) && lt (umd_ins leitura) (of_Z 40));
      [| tauto].
    destruct (negb (contem calor_intensificando l5)); [| tauto].
    rewrite elem_of_app, list_elem_of_singleton. intuition discriminate. }
  assert (B6 : chuva_em_breve ∉ l6).
  { subst l6.
    destruct (gt (tem_ins leitura) (of_Z 30) && lt (umd_ins leitura) (of_Z 40));
      [| exact B5].
    destruct (negb (contem calor_intensificando l5)); [| exact B5].
    rewrite elem_of_app, list_elem_of_singleton. intuition discriminate. }
  clearbody l6.
  assert (A : ar_saturado ∈ l6 <->
              lt (umd_ins leitura) (of_Z 30) = false /\
              gt (umd_ins leitura) (of_Z 85) = true) by tauto.
  assert (C : calor_intensificando ∈ l6 <->
              (lt dt (SFopp (of_Z 2)) = false /\ gt dt (of_Z 3) = true /\
               gt dt (of_Z 5) = true /\ gt (tem_ins leitura) (of_Z 30) = true) \/
              (gt (tem_ins leitura) (of_Z 30) = true /\
               lt (umd_ins leitura) (of_Z 40) = true)) by tauto.
  clear C1 C2 C3 C4 C5 C6 A1 A2 A3 A4 A5 A6 B1 B2 B3 B4 B5 N1 N2 N3 N4 N5.
  destruct (lt (pre_ins leitura) (of_Z 1010)), (gt (umd_ins leitura) (of_Z 80));
    cbn [andb];
    try (repeat split; try assumption; try tauto; intuition discriminate).
  destruct (contem ar_saturado l6) eqn:E; cbn [negb].
  - apply contem_elem in E. repeat split; try assumption; try tauto.
  - apply contem_nao_elem in E.
    assert (Hn : NoDup (l6 ++ [chuva_em_breve])).
    { apply NoDup_app. split; [exact N6 |].
      split; [| repeat constructor; rewrite elem_of_nil; tauto].
      intros x Hx Hx'. apply list_elem_of_singleton in Hx'. subst x. contradiction. }
    rewrite !elem_of_app, !list_elem_of_singleton.
    repeat split; try assumption; try tauto; intuition discriminate.
Qed.

(** X22. [gerar_insights] never returns a sentence twice. The heat
    warning is in the list exactly when the temperature is above 30 and
    either the 3-hour rise is above 5 degrees or the humidity is below
    40. The sentence on coming rain is in the list exactly when the
    pressure is below 1010 and the humidity is above 80 and not above 85:
    the guard of that sentence looks for the saturated-air sentence, so
    the two are never in the list together. *)
Theorem X22_insights_sem_repeticao (leitura : Leitura) (delta_temp delta_pressao : float) :
  NoDup (gerar_insights leitura delta_temp delta_pressao) /\
  (calor_intensificando ∈ gerar_insights leitura delta_temp delta_pressao <->
   gt (tem_ins leitura) (of_Z 30) = true /\
   (gt delta_temp (of_Z 5) = true \/ lt (umd_ins leitura) (of_Z 40) = true)) /\
  (chuva_em_breve ∈ gerar_insights leitura delta_temp delta_pressao <->
   lt (pre_ins leitura) (of_Z 1010) = true /\
   gt (umd_ins leitura) (of_Z 80) = true /\ gt (umd_ins leitura) (of_Z 85) = false) /\
  ~ (chuva_em_breve ∈ gerar_insights leitura delta_temp delta_pressao /\
     ar_saturado ∈ gerar_insights leitura delta_temp delta_pressao).
Proof.
  destruct (gerar_insights_blocos leitura delta_temp delta_pressao)
    as (Hn & Hc & Ha & Hb).
  assert (H5 : gt delta_temp (of_Z 5) = true ->
               lt delta_temp (SFopp (of_Z 2)) = false /\
               gt delta_temp (of_Z 3) = true).
  { intros H. split.
    - destruct (lt delta_temp (SFopp (of_Z 2))) eqn:E; [| reflexivity].
      pose proof (lt_trans _ _ _ H E) as Habs. discriminate Habs.
    - apply (lt_trans _ (of_Z 5)); [reflexivity | exact H]. }
  assert (H80 : gt (umd_ins leitura) (of_Z 80) = true ->
                lt (umd_ins leitura) (of_Z 30) = false).
  { intros H. destruct (lt (umd_ins leitura) (of_Z 30)) eqn:E; [| reflexivity].
    pose proof (lt_trans _ _ _ H E) as Habs. discriminate Habs. }
  split; [exact Hn |]. split; [| split].
  - rewrite Hc. split.
    + intros [(_ & _ & H & Ht) | [Ht Hu]]; auto.
    + intros [Ht [H | Hu]]; [left | right]; auto.
      destruct (H5 H). auto.
  - rewrite Hb. split.
    + intros (Hp & Hu & Hsat). repeat split; auto.
      destruct (gt (umd_ins leitura) (of_Z 85)) eqn:E; [| reflexivity].
      exfalso. apply Hsat. split; [exact (H80 Hu) | reflexivity].
    + intros (Hp & Hu & H85). repeat split; auto.
      intros [_ H]. congruence.
  - rewrite Hb, Ha. tauto.
Qed.

(** ** When the row of one hour ago is the newest row *)

Lemma sub_diag x : sub x x = zero \/ sub x x = S754_nan.
Proof.
  destruct x as [s | s | | s m e]; cbn.
  - left. destruct s; reflexivity.
  - right. destruct s; reflexivity.
  - right. reflexivity.
  - left. rewrite Z.sub_diag. reflexivity.
Qed.

Lemma criticos_mesma_linha w r leitura t d :
  linha w = Some r -> leitura_1h w = Some (colunas_de r) ->
  WeatherDatabase.get_latest_reading (linha w) = Some leitura ->
  In (t, d) (criticos_do_ciclo w leitura) ->
  t <> "mudanca_brusca" /\ t <> "queda_brusca".
Proof.
  intros Hr H1 Hl. unfold criticos_do_ciclo. rewrite H1, Hl.
  rewrite Hr in Hl. cbn [WeatherDatabase.get_latest_reading] in Hl.
  injection Hl as <-.
  cbn [tem_ins umd_ins pre_ins ven_vel ven_raj rad_glo].
  unfold ZonaTemperatura.verificar_critico, WeatherDatabase.get_pressure_variation,
    ZonaPressao.verificar_critico.
  cbn [colunas_de ant_tem_ins ant_pre_ins pre_ins].
  assert (Ht : forall x, ge (abs (sub x x)) (of_Z 5) = false)
    by (intros x; apply sub_diag_abs_abaixo; reflexivity).
  assert (Hp : forall x, lt (sub x x) (SFopp (of_Z 5)) = false)
    by (intros x; destruct (sub_diag x) as [-> | ->]; reflexivity).
  assert (Hz : lt zero (SFopp (of_Z 5)) = false) by reflexivity.
  destruct (raw_tem_ins r) as [temp|], (raw_pre_ins r) as [pressao|];
    cbn [default from_option id];
    rewrite ?Ht, ?Hp, ?Hz;
    unfold ZonaUmidade.verificar_critico, ZonaVento.verificar_critico,
      ZonaChuva.verificar_critico, ZonaRadiacao.verificar_critico;
    rewrite !in_app_iff;
    repeat match goal with
      | |- context [if ?b then _ else _] => destruct b
      end; cbn [app ou_None estende map In tipo];
    intros H; repeat (destruct H as [H | H]); try contradiction;
    injection H as <- _; split; discriminate.
Qed.

(** X23. When the row of one hour ago is the newest row itself (as
    [get_reading_hours_ago] answers when no other row is closer, a table
    of one row for instance), the cycle compares the reading with itself:
    it sends no sunrise or sunset report, no abrupt-change alert and no
    sharp-drop alert, whatever the values and the state are. *)
Theorem X23_leitura_de_uma_hora_e_a_atual (w : Mundo) (r : Linha)
    (m : Mensagem) (b : bool) :
  linha w = Some r -> leitura_1h w = Some (colunas_de r) ->
  In (m, b) (enviadas (main w)) ->
  especie m <> e_bom_dia /\ especie m <> e_boa_noite /\
  forall d, m = msg_critico d -> tipo d <> "mudanca_brusca" /\ tipo d <> "queda_brusca".
Proof.
  intros Hr H1 Hin.
  assert (Hrel : ~ (especie m = e_bom_dia \/ especie m = e_boa_noite)).
  { intros Hesp.
    destruct (main_relatorio_enviado w m b Hin Hesp)
      as (leitura & st2 & log2 & res & log3 & Hl & _ & _ & Hrl & Hin3).
    rewrite Hr in Hl. cbn [WeatherDatabase.get_latest_reading] in Hl.
    injection Hl as <-.
    unfold rad_anterior_de in Hrl. rewrite H1 in Hrl.
    cbn [colunas_de ant_rad_glo rad_glo] in Hrl.
    assert (Htr : ZonaRadiacao.detectar_transicao (default zero (raw_rad_glo r))
                    (raw_rad_glo r) = None).
    { destruct (raw_rad_glo r) as [x|]; [| reflexivity].
      cbn [default from_option id]. unfold ZonaRadiacao.detectar_transicao.
      destruct (gt x zero) eqn:E.
      - rewrite (lt_le_false _ _ E). reflexivity.
      - rewrite !andb_false_r. reflexivity. }
    rewrite Htr in Hrl. cbn in Hrl. injection Hrl as _ <-. destruct Hin3. }
  split; [tauto |]. split; [tauto |].
  intros d ->.
  destruct (main_critico_enviado w d b Hin) as (leitura & st2 & log2 & Hl & Hcri & Hin2).
  destruct (enviar_criticos_origem _ _ _ _ _ Hcri) as [_ Ho].
  destruct (Ho _ Hin2) as (d' & [= <- _] & _ & Hd).
  exact (criticos_mesma_linha _ _ _ _ _ Hr H1 Hl Hd).
Qed.

Lemma X23_witness_uma_linha :
  especie (msg_zona {| mz_dominio := "radiacao";
                       mz_mudanca := mudanca_zona "NOITE" "CREPUSCULO" (Some zero)
                                       (of_Z 30) as_6h05;
                       mz_extra := None |}) <> e_boa_noite.
Proof.
  refine (proj1 (proj2 (X23_leitura_de_uma_hora_e_a_atual mundo_de_uma_linha
                          linha_exemplo _ true eq_refl eq_refl _))).
  vm_compute. repeat (try (left; reflexivity); right).
Defined.
